(** * QR attendance: issuance, validation and marking

    A shallow embedding of the QR check-in core of the attendance
    application: [QRService] (lib/qr-utils.ts), [dataService]
    (lib/data.ts), the record types of types/index.ts and the duration
    defaulting of the QR generation route.

    Conventions of the embedding.
    - Instants ([Date] values, [getTime()] results) are integers of
      milliseconds since the epoch, in [Z].
    - One call of a service function reads the clock once: every
      [new Date()] of a call is the [now] the function receives.
    - A collection is read with [storage.get] and written with
      [storage.set].  Where there is a [window] (in a browser) the two
      go through localStorage and JSON: the store is the three arrays
      last written, an array never written being its default (the mock
      data, or no session), and reading parses the stored text anew at
      each call, so that an object obtained from the store is a copy and
      a [Date] comes back as the ISO string that [JSON.stringify] wrote
      for it, or as [null] if it was an Invalid Date.  Where there is no
      [window] (on the server, where the routes run) [storage.set] does
      nothing and [storage.get] returns its default: the mock arrays of
      the module, which [push] extends in place, and for the sessions a
      fresh empty array at each call.
    - Of an attendance record the code reads the date through
      [new Date(record.date)] only, which gives the instant of a Date
      and of its ISO string alike: the record holds that instant.
    - Strings of the store are strings of 8-bit characters.  A string
      obtained from [JSON.parse] is a list of UTF-16 code units, since a
      [\u] escape can denote any of them.
    - What the JavaScript platform decides and the repository does not
      (time zone, IEEE rounding and string-to-number conversion outside
      the integers, the QR image renderer) is a field of [Platform];
      every theorem holds for every platform. *)

From Stdlib Require Import ZArith NArith List String Ascii Bool Lia.
From Stdlib Require Import Decimal DecimalFacts DecimalString DecimalZ.
Import ListNotations.

Local Open Scope string_scope.
Local Open Scope Z_scope.

(** ** JSON values and text *)

Module JSON.

#[local] Set Warnings "-register-all".

(** A value as [JSON.parse] builds it.  An integer numeral is [JNum];
    a numeral with a fraction or an exponent keeps its digits in
    [JFloat].  An object lists its members in source order. *)
Inductive json : Type :=
| JNull
| JBool (b : bool)
| JNum (z : Z)
| JFloat (d : decimal)
| JStr (s : list N)
| JArr (l : list json)
| JObj (l : list (list N * json)).

(** The code units of an 8-bit string. *)
Fixpoint units (s : string) : list N :=
  match s with
  | EmptyString => []
  | String c r => N_of_ascii c :: units r
  end.

Definition quote : ascii := "034"%char.
Definition backslash : ascii := "092"%char.

(** *** Serialisation *)

Definition hex_digit (n : N) : ascii :=
  if (n <? 10)%N then ascii_of_N (48 + n) else ascii_of_N (87 + n).

(** QuoteJSONString on one character. *)
Definition quote_char (c : ascii) : string :=
  let n := N_of_ascii c in
  if (n =? 8)%N then "\b"
  else if (n =? 9)%N then "\t"
  else if (n =? 10)%N then "\n"
  else if (n =? 12)%N then "\f"
  else if (n =? 13)%N then "\r"
  else if (n =? 34)%N then String backslash (String quote "")
  else if (n =? 92)%N then "\\"
  else if (n <? 32)%N then
    "\u00" ++ String (hex_digit (n / 16)) (String (hex_digit (n mod 16)) "")
  else String c "".

Fixpoint quote_chars (s : string) : string :=
  match s with
  | EmptyString => ""
  | String c r => quote_char c ++ quote_chars r
  end.

Definition stringify_string (s : string) : string :=
  String quote (quote_chars s ++ String quote "").

(** An integer prints as its decimal numeral. *)
Definition stringify_number (z : Z) : string :=
  NilZero.string_of_int (Z.to_int z).

(** *** Parsing *)

Definition is_ws (c : ascii) : bool :=
  let n := N_of_ascii c in
  ((n =? 32) || (n =? 9) || (n =? 10) || (n =? 13))%N.

Fixpoint skip_ws (s : string) : string :=
  match s with
  | EmptyString => s
  | String c r => if is_ws c then skip_ws r else s
  end.

Definition hex_val (c : ascii) : option N :=
  let n := N_of_ascii c in
  if ((48 <=? n) && (n <=? 57))%N then Some (n - 48)%N
  else if ((65 <=? n) && (n <=? 70))%N then Some (n - 55)%N
  else if ((97 <=? n) && (n <=? 102))%N then Some (n - 87)%N
  else None.

Definition hex4 (a b c d : ascii) : option N :=
  match hex_val a, hex_val b, hex_val c, hex_val d with
  | Some x, Some y, Some z, Some w => Some (((x * 16 + y) * 16 + z) * 16 + w)%N
  | _, _, _, _ => None
  end.

Definition cons_unit (n : N) (k : option (list N * string)) :
  option (list N * string) :=
  match k with
  | Some (u, r) => Some (n :: u, r)
  | None => None
  end.

(** The characters of a string literal, after its opening quote, up to
    and including its closing quote. *)
Fixpoint parse_chars (s : string) : option (list N * string) :=
  match s with
  | EmptyString => None
  | String c r =>
    if Ascii.eqb c quote then Some ([], r)
    else if Ascii.eqb c backslash then
      match r with
      | EmptyString => None
      | String e r1 =>
        let n := N_of_ascii e in
        if (n =? 34)%N then cons_unit 34 (parse_chars r1)
        else if (n =? 92)%N then cons_unit 92 (parse_chars r1)
        else if (n =? 47)%N then cons_unit 47 (parse_chars r1)
        else if (n =? 98)%N then cons_unit 8 (parse_chars r1)
        else if (n =? 102)%N then cons_unit 12 (parse_chars r1)
        else if (n =? 110)%N then cons_unit 10 (parse_chars r1)
        else if (n =? 114)%N then cons_unit 13 (parse_chars r1)
        else if (n =? 116)%N then cons_unit 9 (parse_chars r1)
        else if (n =? 117)%N then
          match r1 with
          | String h1 (String h2 (String h3 (String h4 r2))) =>
            match hex4 h1 h2 h3 h4 with
            | Some u => cons_unit u (parse_chars r2)
            | None => None
            end
          | _ => None
          end
        else None
      end
    else if (N_of_ascii c <? 32)%N then None
    else cons_unit (N_of_ascii c) (parse_chars r)
  end.

Definition digit_of (c : ascii) : option (uint -> uint) :=
  let n := N_of_ascii c in
  if (n =? 48)%N then Some D0
  else if (n =? 49)%N then Some D1
  else if (n =? 50)%N then Some D2
  else if (n =? 51)%N then Some D3
  else if (n =? 52)%N then Some D4
  else if (n =? 53)%N then Some D5
  else if (n =? 54)%N then Some D6
  else if (n =? 55)%N then Some D7
  else if (n =? 56)%N then Some D8
  else if (n =? 57)%N then Some D9
  else None.

(** The longest prefix of digits. *)
Fixpoint take_digits (s : string) : uint * string :=
  match s with
  | EmptyString => (Nil, s)
  | String c r =>
    match digit_of c with
    | Some d => let (ds, rest) := take_digits r in (d ds, rest)
    | None => (Nil, s)
    end
  end.

Definition is_nil (d : uint) : bool :=
  match d with Nil => true | _ => false end.

(** The optional fraction of a numeral. *)
Definition parse_frac (s : string) : option (option uint * string) :=
  match s with
  | String c r =>
    if (N_of_ascii c =? 46)%N then
      let (f, rest) := take_digits r in
      if is_nil f then None else Some (Some f, rest)
    else Some (None, s)
  | EmptyString => Some (None, s)
  end.

Definition parse_exp_digits (neg : bool) (s : string) :
  option (option int * string) :=
  let (e, rest) := take_digits s in
  if is_nil e then None
  else Some (Some (if neg then Neg e else Pos e), rest).

(** The optional exponent of a numeral. *)
Definition parse_exp (s : string) : option (option int * string) :=
  match s with
  | String c r =>
    if ((N_of_ascii c =? 101) || (N_of_ascii c =? 69))%N then
      match r with
      | String sg r1 =>
        if (N_of_ascii sg =? 43)%N then parse_exp_digits false r1
        else if (N_of_ascii sg =? 45)%N then parse_exp_digits true r1
        else parse_exp_digits false r
      | EmptyString => None
      end
    else Some (None, s)
  | EmptyString => Some (None, s)
  end.

(** A numeral: an optional minus, an integer part without superfluous
    leading zero, an optional fraction, an optional exponent. *)
Definition parse_number (s : string) : option (json * string) :=
  let (neg, s1) :=
    match s with
    | String c r => if (N_of_ascii c =? 45)%N then (true, r) else (false, s)
    | EmptyString => (false, s)
    end in
  let (i, s2) := take_digits s1 in
  if uint_beq (unorm i) i then
    let si := if neg then Neg i else Pos i in
    match parse_frac s2 with
    | Some (fr, s3) =>
      match parse_exp s3 with
      | Some (ex, s4) =>
        match fr, ex with
        | None, None => Some (JNum (Z.of_int si), s4)
        | Some f, None => Some (JFloat (Decimal si f), s4)
        | None, Some e => Some (JFloat (DecimalExp si Nil e), s4)
        | Some f, Some e => Some (JFloat (DecimalExp si f e), s4)
        end
      | None => None
      end
    | None => None
    end
  else None.

Definition expect (lit : string) (v : json) (s : string) :
  option (json * string) :=
  if String.prefix lit s
  then Some (v, substring (String.length lit) (String.length s - String.length lit) s)
  else None.

Fixpoint parse_value (fuel : nat) (s : string) {struct fuel} :
  option (json * string) :=
  match fuel with
  | O => None
  | S f =>
    match skip_ws s with
    | EmptyString => None
    | String c r =>
      let n := N_of_ascii c in
      if (n =? 123)%N then
        match skip_ws r with
        | String c' r' =>
          if (N_of_ascii c' =? 125)%N then Some (JObj [], r')
          else parse_members f r []
        | EmptyString => None
        end
      else if (n =? 91)%N then
        match skip_ws r with
        | String c' r' =>
          if (N_of_ascii c' =? 93)%N then Some (JArr [], r')
          else parse_elements f r []
        | EmptyString => None
        end
      else if (n =? 34)%N then
        match parse_chars r with
        | Some (u, r') => Some (JStr u, r')
        | None => None
        end
      else if (n =? 116)%N then expect "rue" (JBool true) r
      else if (n =? 102)%N then expect "alse" (JBool false) r
      else if (n =? 110)%N then expect "ull" JNull r
      else parse_number (String c r)
    end
  end

with parse_members (fuel : nat) (s : string) (acc : list (list N * json))
  {struct fuel} : option (json * string) :=
  match fuel with
  | O => None
  | S f =>
    match skip_ws s with
    | EmptyString => None
    | String c r =>
      if (N_of_ascii c =? 34)%N then
        match parse_chars r with
        | None => None
        | Some (k, r1) =>
          match skip_ws r1 with
          | EmptyString => None
          | String c1 r2 =>
            if (N_of_ascii c1 =? 58)%N then
              match parse_value f r2 with
              | None => None
              | Some (v, r3) =>
                match skip_ws r3 with
                | EmptyString => None
                | String c3 r4 =>
                  if (N_of_ascii c3 =? 44)%N
                  then parse_members f r4 (acc ++ [(k, v)])
                  else if (N_of_ascii c3 =? 125)%N
                  then Some (JObj (acc ++ [(k, v)]), r4)
                  else None
                end
              end
            else None
          end
        end
      else None
    end
  end

with parse_elements (fuel : nat) (s : string) (acc : list json)
  {struct fuel} : option (json * string) :=
  match fuel with
  | O => None
  | S f =>
    match parse_value f s with
    | None => None
    | Some (v, r) =>
      match skip_ws r with
      | EmptyString => None
      | String c r' =>
        if (N_of_ascii c =? 44)%N then parse_elements f r' (acc ++ [v])
        else if (N_of_ascii c =? 93)%N then Some (JArr (acc ++ [v]), r')
        else None
      end
    end
  end.

(** [JSON.parse]: one value, surrounded by white space only.  [None] is
    the thrown SyntaxError.  A level of nesting takes two units of fuel
    and at least one character, so twice the length of the text is
    fuel enough. *)
Definition parse (s : string) : option json :=
  match parse_value (2 * String.length s + 2) s with
  | Some (v, r) =>
    match skip_ws r with
    | EmptyString => Some v
    | String _ _ => None
    end
  | None => None
  end.

(** *** Shapes of text, for the round trip *)

(** A string literal followed by [rest]. *)
Definition quoted (s rest : string) : string :=
  String quote (quote_chars s ++ String quote rest).

(** The text does not go on with a digit. *)
Definition not_digit (s : string) : Prop :=
  match s with
  | EmptyString => True
  | String c _ => digit_of c = None
  end.

(** The text is over or goes on with a comma or a closing brace. *)
Definition delimited (s : string) : Prop :=
  match s with
  | EmptyString => True
  | String c _ => N_of_ascii c = 44%N \/ N_of_ascii c = 125%N
  end.

End JSON.

Import JSON.

(** ** JavaScript values read from a token *)

Fixpoint units_eqb (a b : list N) : bool :=
  match a, b with
  | [], [] => true
  | x :: a', y :: b' => (x =? y)%N && units_eqb a' b'
  | _, _ => false
  end.

(** Own property of a parsed object; of two members of one name the
    later one wins. *)
Fixpoint lookup (k : list N) (l : list (list N * json)) : option json :=
  match l with
  | [] => None
  | (k', v) :: r =>
    match lookup k r with
    | Some v' => Some v'
    | None => if units_eqb k k' then Some v else None
    end
  end.

(** [v.k] for a value [v] other than [null] and a name [k] that no
    prototype defines; [None] is [undefined]. *)
Definition field (v : json) (k : string) : option json :=
  match v with
  | JObj l => lookup (units k) l
  | _ => None
  end.

(** The 8-bit string a parsed value is, if it is one.  No other value
    is [===] to a string of the store. *)
Fixpoint of_units (u : list N) : option string :=
  match u with
  | [] => Some EmptyString
  | n :: r =>
    if (n <? 256)%N then
      match of_units r with
      | Some s => Some (String (ascii_of_N n) s)
      | None => None
      end
    else None
  end.

Definition toStoreString (v : option json) : option string :=
  match v with
  | Some (JStr u) => of_units u
  | _ => None
  end.

(** ** Records of types/index.ts

    Of [Class], the fields the check-in core reads. *)

Record ScheduleEntry : Type := {
  day : string;
  startTime : string;
  endTime : string
}.

Module ClassRecord.
Record t : Type := {
  id : string;
  name : string;
  schedule : list ScheduleEntry;
  enrolledStudents : list string
}.
End ClassRecord.

Inductive AttendanceStatus : Type := present | absent | late.

Module AttendanceRecord.
Record t : Type := {
  id : string;
  classId : string;
  studentId : string;
  date : Z;
  status : AttendanceStatus;
  checkedInAt : option Z;
  qrCodeUsed : option json
}.
End AttendanceRecord.

(** What a field declared [Date] holds at run time: a Date object, of
    an instant or Invalid; the ISO string that [JSON.stringify] writes
    for a Date of an instant; or [null], which it writes for an Invalid
    Date. *)
Inductive DateValue : Type :=
| DateObject (t : option Z)
| DateString (t : Z)
| DateNull.

Module QRCodeSession.
Record t : Type := {
  id : string;
  classId : string;
  generatedAt : DateValue;
  expiresAt : DateValue;
  isActive : bool;
  attendanceMarked : list string
}.
End QRCodeSession.

(** The three collections behind [STORAGE_KEYS.CLASSES], [ATTENDANCE] and
    [QR_SESSIONS]: the arrays last written, or their defaults. *)
Record Store : Type := {
  classes : list ClassRecord.t;
  attendanceRecords : list AttendanceRecord.t;
  qrSessions : list QRCodeSession.t
}.

(** The payload of a class token (qr-utils.ts, [QRCodeData]).  The
    expiry is the [getTime()] of a Date: [None] is the NaN of an Invalid
    Date. *)
Module QRCodeData.
Record t : Type := {
  classId : string;
  sessionId : string;
  timestamp : Z;
  expiresAt : option Z
}.
End QRCodeData.

(** [expiresAt] is a Date when it is there: [Some None] is an Invalid
    Date. *)
Module QRGenerationResult.
Record t : Type := {
  success : bool;
  qrCodeDataURL : option string;
  sessionId : option string;
  expiresAt : option (option Z);
  error : option string
}.
End QRGenerationResult.

(** [classId] and [sessionId] are the token's own values: the first is
    a string of the store once a class was found under it, the second
    is whatever the token carries. *)
Module QRValidationResult.
Record t : Type := {
  success : bool;
  classId : option string;
  sessionId : option json;
  className : option string;
  error : option string
}.
End QRValidationResult.

Module MarkResult.
Record t : Type := {
  success : bool;
  message : string;
  attendanceId : option string
}.
End MarkResult.

(** What the platform decides. *)
Class Platform : Type := {
  (** [typeof window !== 'undefined']: a browser, with localStorage;
      [false] on the server. *)
  window : bool;
  (** [getTimezoneOffset()], in minutes: UTC minus local time. *)
  timezoneOffset : Z;
  (** ToBoolean of a numeral with a fraction or an exponent. *)
  floatTruthy : decimal -> bool;
  (** [now > v] for a value [v] that is a string, an array, an object or
      a numeral with a fraction or an exponent. *)
  relationalOther : Z -> json -> bool;
  (** The instant [setHours(h, m, 0, 0)] yields on the day of the first
      argument when [h] and [m] are not both plain digits; [None] is
      Invalid Date. *)
  startTimeOther : Z -> string -> option Z;
  (** [QRCode.toDataURL]; [None] when the renderer rejects. *)
  toDataURL : string -> option string
}.

Section Core.

Context {P : Platform}.

(** ToBoolean; [None] is [undefined]. *)
Definition truthy (v : option json) : bool :=
  match v with
  | None => false
  | Some JNull => false
  | Some (JBool b) => b
  | Some (JNum z) => negb (z =? 0)
  | Some (JFloat d) => floatTruthy d
  | Some (JStr u) => match u with [] => false | _ :: _ => true end
  | Some (JArr _) => true
  | Some (JObj _) => true
  end.

(** [now > v], [now] a number. *)
Definition greaterThan (now : Z) (v : option json) : bool :=
  match v with
  | None => false
  | Some JNull => 0 <? now
  | Some (JBool b) => (if b then 1 else 0) <? now
  | Some (JNum z) => z <? now
  | Some w => relationalOther now w
  end.

(** ** Dates *)

Definition msPerDay : Z := 86400000.
Definition maxTime : Z := 8640000000000000.

(** TimeClip: an instant outside the range of [Date] is Invalid Date. *)
Definition timeClip (t : Z) : option Z :=
  if (- maxTime <=? t) && (t <=? maxTime) then Some t else None.

(** The local calendar day of an instant, counted from 1970-01-01.
    [toDateString] prints it, injectively. *)
Definition toDateString (t : Z) : Z :=
  (t - timezoneOffset * 60000) / msPerDay.

Definition weekdays : list string :=
  ["Sunday"; "Monday"; "Tuesday"; "Wednesday"; "Thursday"; "Friday";
   "Saturday"].

(** [toLocaleDateString('en-US', { weekday: 'long' })]; 1970-01-01 was a
    Thursday. *)
Definition weekdayLong (t : Z) : string :=
  nth (Z.to_nat ((toDateString t + 4) mod 7)) weekdays "".

(** [s.split(':')]. *)
Fixpoint split_colon (s : string) (cur : string) : list string :=
  match s with
  | EmptyString => [cur]
  | String c r =>
    if (N_of_ascii c =? 58)%N then cur :: split_colon r ""
    else split_colon r (cur ++ String c "")
  end.

(** [Number] on a string of digits only (the empty one is 0). *)
Definition digitsValue (s : string) : option Z :=
  match take_digits s with
  | (d, EmptyString) => Some (Z.of_uint d)
  | (_, String _ _) => None
  end.

(** [new Date()] of instant [now] after [setHours(h, m, 0, 0)] with
    [[h, m] = startTime.split(':').map(Number)]. *)
Definition setHours (now : Z) (startTime : string) : option Z :=
  match split_colon startTime "" with
  | h :: m :: _ =>
    match digitsValue h, digitsValue m with
    | Some hh, Some mm =>
      timeClip (toDateString now * msPerDay + hh * 3600000 + mm * 60000
                + timezoneOffset * 60000)
    | _, _ => startTimeOther now startTime
    end
  | _ => None
  end.

(** ** dataService (lib/data.ts) *)

(** [n.toString()] of an integer. *)
Definition Number_toString (n : Z) : string :=
  NilZero.string_of_int (Z.to_int n).

Definition getClasses (st : Store) : list ClassRecord.t := classes st.

Definition getClassById (st : Store) (id : string) : option ClassRecord.t :=
  find (fun cls => String.eqb (ClassRecord.id cls) id) (getClasses st).

Definition getAttendanceRecords (st : Store) : list AttendanceRecord.t :=
  attendanceRecords st.

(** [record] comes without its id; the id is [Date.now().toString()]. *)
Definition createAttendanceRecord (st : Store) (now : Z)
  (classId studentId : string) (date : Z) (status : AttendanceStatus)
  (checkedInAt : option Z) (qrCodeUsed : option json) :
  AttendanceRecord.t * Store :=
  let records := getAttendanceRecords st in
  let newRecord :=
    {| AttendanceRecord.id := Number_toString now;
       AttendanceRecord.classId := classId;
       AttendanceRecord.studentId := studentId;
       AttendanceRecord.date := date;
       AttendanceRecord.status := status;
       AttendanceRecord.checkedInAt := checkedInAt;
       AttendanceRecord.qrCodeUsed := qrCodeUsed |} in
  (newRecord,
   {| classes := classes st;
      attendanceRecords := records ++ [newRecord];
      qrSessions := qrSessions st |}).

Definition getAttendanceByDate (st : Store) (date : Z) :
  list AttendanceRecord.t :=
  let targetDate := toDateString date in
  filter (fun record => toDateString (AttendanceRecord.date record) =? targetDate)
         (getAttendanceRecords st).

(** [JSON.parse(JSON.stringify(d))] of a value of a Date field. *)
Definition throughJSON (d : DateValue) : DateValue :=
  match d with
  | DateObject (Some t) => DateString t
  | DateObject None => DateNull
  | DateString t => DateString t
  | DateNull => DateNull
  end.

Definition sessionThroughJSON (session : QRCodeSession.t) : QRCodeSession.t :=
  {| QRCodeSession.id := QRCodeSession.id session;
     QRCodeSession.classId := QRCodeSession.classId session;
     QRCodeSession.generatedAt := throughJSON (QRCodeSession.generatedAt session);
     QRCodeSession.expiresAt := throughJSON (QRCodeSession.expiresAt session);
     QRCodeSession.isActive := QRCodeSession.isActive session;
     QRCodeSession.attendanceMarked := QRCodeSession.attendanceMarked session |}.

(** [storage.get(STORAGE_KEYS.QR_SESSIONS, [])]: in a browser the
    stored array, through JSON; on the server the default. *)
Definition getQRSessions (st : Store) : list QRCodeSession.t :=
  if window then map sessionThroughJSON (qrSessions st) else [].

(** The push is onto the array that [getQRSessions] returned;
    [storage.set] stores that array in a browser and does nothing on the
    server. *)
Definition createQRSession (st : Store) (now : Z) (classId : string)
  (generatedAt expiresAt : DateValue) (isActive : bool)
  (attendanceMarked : list string) : QRCodeSession.t * Store :=
  let sessions := getQRSessions st in
  let newSession :=
    {| QRCodeSession.id := Number_toString now;
       QRCodeSession.classId := classId;
       QRCodeSession.generatedAt := generatedAt;
       QRCodeSession.expiresAt := expiresAt;
       QRCodeSession.isActive := isActive;
       QRCodeSession.attendanceMarked := attendanceMarked |} in
  (newSession,
   if window
   then {| classes := classes st;
           attendanceRecords := attendanceRecords st;
           qrSessions := sessions ++ [newSession] |}
   else st).

(** [d > now] for the value [d] of a Date field and the Date [now]:
    both operands become numbers.  A Date becomes its instant, NaN if it
    is Invalid; a string that is no numeral, as every ISO string,
    becomes NaN; [null] becomes 0.  A comparison with NaN is false. *)
Definition dateAfter (d : DateValue) (now : Z) : bool :=
  match d with
  | DateObject (Some t) => now <? t
  | DateObject None => false
  | DateString _ => false
  | DateNull => now <? 0
  end.

(** The predicate of [getActiveQRSession]. *)
Definition usable (now : Z) (classId : string) (session : QRCodeSession.t) :
  bool :=
  String.eqb (QRCodeSession.classId session) classId
  && QRCodeSession.isActive session
  && dateAfter (QRCodeSession.expiresAt session) now.

Definition getActiveQRSession (st : Store) (now : Z) (classId : string) :
  option QRCodeSession.t :=
  find (usable now classId) (getQRSessions st).

(** ** QRService (lib/qr-utils.ts) *)

Definition member (k v : string) : string :=
  stringify_string k ++ ":" ++ v.

(** [JSON.stringify] of a number: NaN is written [null]. *)
Definition stringify_time (t : option Z) : string :=
  match t with
  | Some z => stringify_number z
  | None => "null"
  end.

(** [JSON.stringify(qrData)]. *)
Definition stringify (qrData : QRCodeData.t) : string :=
  "{" ++ member "classId" (stringify_string (QRCodeData.classId qrData))
  ++ "," ++ member "sessionId" (stringify_string (QRCodeData.sessionId qrData))
  ++ "," ++ member "timestamp" (stringify_number (QRCodeData.timestamp qrData))
  ++ "," ++ member "expiresAt" (stringify_time (QRCodeData.expiresAt qrData))
  ++ "}".

Definition generationFailure (e : string) : QRGenerationResult.t :=
  {| QRGenerationResult.success := false;
     QRGenerationResult.qrCodeDataURL := None;
     QRGenerationResult.sessionId := None;
     QRGenerationResult.expiresAt := None;
     QRGenerationResult.error := Some e |}.

(** [uuid] is what [uuidv4()] returns; an absent [durationMinutes] is
    the default 30.  [new Date(...)] clips: an expiry outside the range
    of Date is an Invalid Date. *)
Definition generateClassQR (st : Store) (now : Z) (uuid : string)
  (classId : string) (durationMinutes : option Z) :
  QRGenerationResult.t * Store :=
  let durationMinutes :=
    match durationMinutes with Some d => d | None => 30 end in
  match getClassById st classId with
  | None => (generationFailure "Class not found", st)
  | Some classData =>
    let sessionId := uuid in
    let expiresAt := timeClip (now + durationMinutes * 60000) in
    let qrData :=
      {| QRCodeData.classId := classId;
         QRCodeData.sessionId := sessionId;
         QRCodeData.timestamp := now;
         QRCodeData.expiresAt := expiresAt |} in
    match toDataURL (stringify qrData) with
    | None => (generationFailure "Failed to generate QR code", st)
    | Some qrCodeDataURL =>
      let (_, st') :=
        createQRSession st now classId (DateObject (Some now))
          (DateObject expiresAt) true [] in
      ({| QRGenerationResult.success := true;
          QRGenerationResult.qrCodeDataURL := Some qrCodeDataURL;
          QRGenerationResult.sessionId := Some sessionId;
          QRGenerationResult.expiresAt := Some expiresAt;
          QRGenerationResult.error := None |}, st')
    end
  end.

Definition validationFailure (e : string) : QRValidationResult.t :=
  {| QRValidationResult.success := false;
     QRValidationResult.classId := None;
     QRValidationResult.sessionId := None;
     QRValidationResult.className := None;
     QRValidationResult.error := Some e |}.

(** Lines 100 to 108 of [validateQRCode]: parse, then require the four
    fields.  Reading a field of [null] throws, which the [catch] turns
    into the same answer as a SyntaxError. *)
Definition decode (qrDataString : string) : json + string :=
  match JSON.parse qrDataString with
  | None => inr "Invalid QR code data"
  | Some JNull => inr "Invalid QR code data"
  | Some qrData =>
    if negb (truthy (field qrData "classId"))
       || negb (truthy (field qrData "sessionId"))
       || negb (truthy (field qrData "timestamp"))
       || negb (truthy (field qrData "expiresAt"))
    then inr "Invalid QR code format"
    else inl qrData
  end.

Definition validateQRCode (st : Store) (now : Z) (qrDataString : string) :
  QRValidationResult.t :=
  match decode qrDataString with
  | inr e => validationFailure e
  | inl qrData =>
    if greaterThan now (field qrData "expiresAt")
    then validationFailure "QR code has expired"
    else
      match toStoreString (field qrData "classId") with
      | None => validationFailure "Class not found"
      | Some classId =>
        match getClassById st classId with
        | None => validationFailure "Class not found"
        | Some classData =>
          match getActiveQRSession st now classId with
          | None => validationFailure "QR code session is not active"
          | Some qrSession =>
            {| QRValidationResult.success := true;
               QRValidationResult.classId := Some classId;
               QRValidationResult.sessionId := field qrData "sessionId";
               QRValidationResult.className := Some (ClassRecord.name classData);
               QRValidationResult.error := None |}
          end
        end
      end
  end.

Definition markFailure (m : string) : MarkResult.t :=
  {| MarkResult.success := false;
     MarkResult.message := m;
     MarkResult.attendanceId := None |}.

Definition includes (x : string) (l : list string) : bool :=
  existsb (String.eqb x) l.

Definition statusName (s : AttendanceStatus) : string :=
  match s with
  | present => "present"
  | absent => "absent"
  | late => "late"
  end.

(** [new Date(classStartTime.getTime() + 15 * 60000)]. *)
Definition lateThreshold (now : Z) (startTime : string) : option Z :=
  match setHours now startTime with
  | Some classStartTime => timeClip (classStartTime + 15 * 60000)
  | None => None
  end.

(** Lines 209 to 229 of [markAttendanceWithQR]. *)
Definition determineStatus (now : Z) (schedule : list ScheduleEntry) :
  AttendanceStatus :=
  let classSchedule :=
    find (fun schedule => String.eqb (day schedule) (weekdayLong now))
         schedule in
  match classSchedule with
  | Some classSchedule =>
    match lateThreshold now (startTime classSchedule) with
    | Some threshold => if threshold <? now then late else present
    | None => present
    end
  | None => present
  end.

(** [qrSession.attendanceMarked.push(studentId)]: on the object that
    [getActiveQRSession] returned. *)
Definition pushAttendanceMarked (studentId : string)
  (qrSession : QRCodeSession.t) : QRCodeSession.t :=
  {| QRCodeSession.id := QRCodeSession.id qrSession;
     QRCodeSession.classId := QRCodeSession.classId qrSession;
     QRCodeSession.generatedAt := QRCodeSession.generatedAt qrSession;
     QRCodeSession.expiresAt := QRCodeSession.expiresAt qrSession;
     QRCodeSession.isActive := QRCodeSession.isActive qrSession;
     QRCodeSession.attendanceMarked :=
       QRCodeSession.attendanceMarked qrSession ++ [studentId] |}.

Definition markAttendanceWithQR (st : Store) (now : Z)
  (qrDataString : string) (studentId : string) : MarkResult.t * Store :=
  let validation := validateQRCode st now qrDataString in
  if negb (QRValidationResult.success validation) then
    (markFailure
       match QRValidationResult.error validation with
       | Some (String c e) => String c e
       | _ => "QR code validation failed"
       end, st)
  else
    match QRValidationResult.classId validation,
          QRValidationResult.sessionId validation with
    | Some (String c0 c1), Some sessionId =>
      let classId := String c0 c1 in
      if negb (truthy (Some sessionId)) then
        (markFailure "Missing class or session information", st)
      else
        match getClassById st classId with
        | None => (markFailure "You are not enrolled in this class", st)
        | Some classData =>
          if negb (includes studentId (ClassRecord.enrolledStudents classData))
          then (markFailure "You are not enrolled in this class", st)
          else
            let today := now in
            let todayAttendance :=
              find (fun record =>
                      String.eqb (AttendanceRecord.classId record) classId
                      && String.eqb (AttendanceRecord.studentId record) studentId)
                   (getAttendanceByDate st today) in
            match todayAttendance with
            | Some _ =>
              (markFailure "Attendance already marked for this class today", st)
            | None =>
              let qrSession := getActiveQRSession st now classId in
              if match qrSession with
                 | Some s => includes studentId (QRCodeSession.attendanceMarked s)
                 | None => false
                 end
              then
                (markFailure
                   "You have already marked attendance for this session", st)
              else
                let status := determineStatus now (ClassRecord.schedule classData) in
                let (attendanceRecord, st') :=
                  createAttendanceRecord st now classId studentId today status
                    (Some now) (Some sessionId) in
                (* the pushed-to session is a copy of the stored one and
                   is not written back *)
                let _ := option_map (pushAttendanceMarked studentId) qrSession in
                ({| MarkResult.success := true;
                    MarkResult.message :=
                      "Attendance marked as " ++ statusName status;
                    MarkResult.attendanceId :=
                      Some (AttendanceRecord.id attendanceRecord) |}, st')
            end
        end
    | _, _ => (markFailure "Missing class or session information", st)
    end.

Definition getActiveQRCode (st : Store) (now : Z) (classId : string) :
  option QRCodeSession.t :=
  getActiveQRSession st now classId.

(** [session.isActive = false] assigns to the object that
    [getActiveQRSession] returned, a copy of the stored one, and nothing
    writes it back. *)
Definition setInactive (session : QRCodeSession.t) : QRCodeSession.t :=
  {| QRCodeSession.id := QRCodeSession.id session;
     QRCodeSession.classId := QRCodeSession.classId session;
     QRCodeSession.generatedAt := QRCodeSession.generatedAt session;
     QRCodeSession.expiresAt := QRCodeSession.expiresAt session;
     QRCodeSession.isActive := false;
     QRCodeSession.attendanceMarked := QRCodeSession.attendanceMarked session |}.

Definition deactivateQRSession (st : Store) (now : Z) (classId : string) :
  bool * Store :=
  match getActiveQRSession st now classId with
  | Some session =>
    let _ := setInactive session in
    (true, st)
  | None => (false, st)
  end.

(** ** Vocabulary of the statements *)

(** The value [JSON.parse] builds from the text of a payload. *)
Definition toJSON (q : QRCodeData.t) : json :=
  JObj [ (units "classId", JStr (units (QRCodeData.classId q)));
         (units "sessionId", JStr (units (QRCodeData.sessionId q)));
         (units "timestamp", JNum (QRCodeData.timestamp q));
         (units "expiresAt",
          match QRCodeData.expiresAt q with
          | Some e => JNum e
          | None => JNull
          end) ].

(** The payload a parsed value is, when its four fields have the types
    of [QRCodeData]. *)
Definition asQRCodeData (v : json) : option QRCodeData.t :=
  match toStoreString (field v "classId"),
        toStoreString (field v "sessionId"),
        field v "timestamp", field v "expiresAt" with
  | Some c, Some i, Some (JNum t), Some (JNum e) =>
    Some {| QRCodeData.classId := c; QRCodeData.sessionId := i;
            QRCodeData.timestamp := t; QRCodeData.expiresAt := Some e |}
  | _, _, _, _ => None
  end.

(** A payload that [validateQRCode] takes as complete: no field is
    empty or zero. *)
Definition validPayload (q : QRCodeData.t) : Prop :=
  QRCodeData.classId q <> "" /\ QRCodeData.sessionId q <> "" /\
  QRCodeData.timestamp q <> 0 /\
  exists e, QRCodeData.expiresAt q = Some e /\ e <> 0.

(** The payload that [generateClassQR] encodes at instant [now] for a
    duration of [d] minutes. *)
Definition issuedPayload (now : Z) (uuid c : string) (d : Z) : QRCodeData.t :=
  {| QRCodeData.classId := c;
     QRCodeData.sessionId := uuid;
     QRCodeData.timestamp := now;
     QRCodeData.expiresAt := timeClip (now + d * 60000) |}.

(** The session that [generateClassQR] hands to [createQRSession]. *)
Definition issuedSession (now : Z) (c : string) (d : Z) : QRCodeSession.t :=
  {| QRCodeSession.id := Number_toString now;
     QRCodeSession.classId := c;
     QRCodeSession.generatedAt := DateObject (Some now);
     QRCodeSession.expiresAt := DateObject (timeClip (now + d * 60000));
     QRCodeSession.isActive := true;
     QRCodeSession.attendanceMarked := [] |}.

Definition requiredFields : list string :=
  ["classId"; "sessionId"; "timestamp"; "expiresAt"].

(** A field that is not there, or holds [null], [false], zero or the
    empty string. *)
Definition blank (v : option json) : Prop :=
  v = None \/ v = Some JNull \/ v = Some (JBool false) \/
  v = Some (JNum 0) \/ v = Some (JStr []).

(** The text is no JSON, or the value lacks one of the four fields. *)
Definition malformed (s : string) : Prop :=
  match JSON.parse s with
  | None => True
  | Some v => exists k, In k requiredFields /\ blank (field v k)
  end.

(** The class a token names. *)
Definition tokenClassId (s : string) : option string :=
  match decode s with
  | inl v => toStoreString (field v "classId")
  | inr _ => None
  end.

(** What a successful validation established. *)
Definition validated (st : Store) (now : Z) (s : string) (v : json)
  (c : string) (cd : ClassRecord.t) (sess : QRCodeSession.t) : Prop :=
  decode s = inl v /\
  greaterThan now (field v "expiresAt") = false /\
  toStoreString (field v "classId") = Some c /\
  getClassById st c = Some cd /\
  getActiveQRSession st now c = Some sess.

Definition validationSuccess (v : json) (c : string) (cd : ClassRecord.t) :
  QRValidationResult.t :=
  {| QRValidationResult.success := true;
     QRValidationResult.classId := Some c;
     QRValidationResult.sessionId := field v "sessionId";
     QRValidationResult.className := Some (ClassRecord.name cd);
     QRValidationResult.error := None |}.

Definition validationErrors : list string :=
  ["Invalid QR code data"; "Invalid QR code format"; "QR code has expired";
   "Class not found"; "QR code session is not active"].

Definition alreadyMarkedToday : string :=
  "Attendance already marked for this class today".

Definition alreadyRedeemedThisSession : string :=
  "You have already marked attendance for this session".

Definition notEnrolled : string := "You are not enrolled in this class".

Definition sessionNotActive : string := "QR code session is not active".

(** The entry of today that the ledger check finds. *)
Definition todayEntry (st : Store) (now : Z) (c m : string) :
  option AttendanceRecord.t :=
  find (fun record =>
          String.eqb (AttendanceRecord.classId record) c
          && String.eqb (AttendanceRecord.studentId record) m)
       (getAttendanceByDate st now).

Definition accepted (now : Z) (status : AttendanceStatus) : MarkResult.t :=
  {| MarkResult.success := true;
     MarkResult.message := "Attendance marked as " ++ statusName status;
     MarkResult.attendanceId := Some (Number_toString now) |}.

Definition entry (now : Z) (c m : string) (status : AttendanceStatus)
  (sid : option json) : AttendanceRecord.t :=
  {| AttendanceRecord.id := Number_toString now;
     AttendanceRecord.classId := c;
     AttendanceRecord.studentId := m;
     AttendanceRecord.date := now;
     AttendanceRecord.status := status;
     AttendanceRecord.checkedInAt := Some now;
     AttendanceRecord.qrCodeUsed := sid |}.

Definition appendEntry (st : Store) (r : AttendanceRecord.t) : Store :=
  {| classes := classes st;
     attendanceRecords := attendanceRecords st ++ [r];
     qrSessions := qrSessions st |}.

(** The store after [createQRSession] in a browser: the sessions as
    they were read, and the new one. *)
Definition appendSession (st : Store) (x : QRCodeSession.t) : Store :=
  {| classes := classes st;
     attendanceRecords := attendanceRecords st;
     qrSessions := map sessionThroughJSON (qrSessions st) ++ [x] |}.

(** A sequence of calls of [markAttendanceWithQR], each with its
    instant, its token and its student. *)
Fixpoint run (st : Store) (calls : list (Z * string * string)) :
  list MarkResult.t * Store :=
  match calls with
  | [] => ([], st)
  | (now, s, m) :: rest =>
    let (r, st1) := markAttendanceWithQR st now s m in
    let (rs, st2) := run st1 rest in
    (r :: rs, st2)
  end.

(** The entries of the ledger for a class, a student and a calendar
    day. *)
Definition entriesFor (st : Store) (c m : string) (d : Z) :
  list AttendanceRecord.t :=
  filter (fun record =>
            (toDateString (AttendanceRecord.date record) =? d)
            && (String.eqb (AttendanceRecord.classId record) c
                && String.eqb (AttendanceRecord.studentId record) m))
         (attendanceRecords st).

Definition dailyUnique (st : Store) : Prop :=
  forall c m d, (List.length (entriesFor st c m d) <= 1)%nat.

(** The entry is one for class [c], student [m] and day [d]. *)
Definition entryMatches (c m : string) (d : Z) (e : AttendanceRecord.t) :
  bool :=
  (toDateString (AttendanceRecord.date e) =? d)
  && (String.eqb (AttendanceRecord.classId e) c
      && String.eqb (AttendanceRecord.studentId e) m).

(** A later call on the calendar day of [now], by student [m], with a
    token that names class [c]. *)
Definition sameDayAttempt (now : Z) (m c : string)
  (call : Z * string * string) : Prop :=
  let '(now', s', m') := call in
  toDateString now' = toDateString now /\ m' = m /\ tokenClassId s' = Some c.

(** The failure of validation if the token fails it, and of the ledger
    check otherwise. *)
Definition rejection (st : Store) (call : Z * string * string) :
  MarkResult.t :=
  let '(now', s', _) := call in
  markFailure
    match QRValidationResult.error (validateQRCode st now' s') with
    | Some e => e
    | None => alreadyMarkedToday
    end.

(** The first entry of a schedule for the weekday of [now]. *)
Definition classScheduleOf (now : Z) (schedule : list ScheduleEntry) :
  option ScheduleEntry :=
  find (fun schedule => String.eqb (day schedule) (weekdayLong now)) schedule.

(** Milliseconds since local midnight. *)
Definition msOfDay (now : Z) : Z :=
  (now - timezoneOffset * 60000) mod msPerDay.

(** The character of a decimal digit. *)
Definition digit (k : Z) : ascii := ascii_of_N (48 + Z.to_N k).

(** The two digits of a number below 100. *)
Definition twoDigits (n : Z) : string :=
  String (digit (n / 10)) (String (digit (n mod 10)) "").

(** The start time HH:MM of hour [h] and minute [m]. *)
Definition hhmm (h m : Z) : string := twoDigits h ++ ":" ++ twoDigits m.

(** The instant at which it is [h]:[m] local time on the day of [now]. *)
Definition startInstant (now h m : Z) : Z :=
  now - msOfDay now + h * 3600000 + m * 60000.


End Core.

(** ** The routes

    A route handler runs on the server: what it calls of the library
    runs on the platform [server P], where there is no [window]. *)

Definition server (P : Platform) : Platform :=
  {| window := false;
     timezoneOffset := @timezoneOffset P;
     floatTruthy := @floatTruthy P;
     relationalOther := @relationalOther P;
     startTimeOther := @startTimeOther P;
     toDataURL := @toDataURL P |}.

Section Routes.

Context {P : Platform}.

(** *** QR generation route (app/api/qr/generate), from the parsed body
    on, for an authenticated administrator. *)

Inductive Response : Type :=
| BadRequest (e : string)
| NotFound (e : string)
| ServerError (e : option string)
| Ok (r : QRGenerationResult.t).

(** [body.durationMinutes || 30]. *)
Definition durationOrDefault (durationMinutes : option Z) : Z :=
  match durationMinutes with
  | Some d => if d =? 0 then 30 else d
  | None => 30
  end.

Definition POST (st : Store) (now : Z) (uuid : string)
  (body_classId : string) (body_durationMinutes : option Z) :
  Response * Store :=
  match body_classId with
  | EmptyString => (BadRequest "Class ID is required", st)
  | String _ _ =>
    match getClassById st body_classId with
    | None => (NotFound "Class not found", st)
    | Some classData =>
      let (result, st') :=
        @generateClassQR (server P) st now uuid body_classId
          (Some (durationOrDefault body_durationMinutes)) in
      if negb (QRGenerationResult.success result)
      then (ServerError (QRGenerationResult.error result), st')
      else (Ok result, st')
    end
  end.

End Routes.

(** ** Data of the repository and a platform to run it on *)

Definition class1 : ClassRecord.t :=
  {| ClassRecord.id := "class1";
     ClassRecord.name := "Advanced Mathematics";
     ClassRecord.schedule :=
       [ {| day := "Monday"; startTime := "09:00"; endTime := "10:30" |};
         {| day := "Wednesday"; startTime := "09:00"; endTime := "10:30" |};
         {| day := "Friday"; startTime := "09:00"; endTime := "10:30" |} ];
     ClassRecord.enrolledStudents := ["2"; "3"; "4"] |}.

Definition class2 : ClassRecord.t :=
  {| ClassRecord.id := "class2";
     ClassRecord.name := "Computer Science Fundamentals";
     ClassRecord.schedule :=
       [ {| day := "Tuesday"; startTime := "14:00"; endTime := "15:30" |};
         {| day := "Thursday"; startTime := "14:00"; endTime := "15:30" |} ];
     ClassRecord.enrolledStudents := ["2"; "3"] |}.

Definition class3 : ClassRecord.t :=
  {| ClassRecord.id := "class3";
     ClassRecord.name := "Physics Laboratory";
     ClassRecord.schedule :=
       [ {| day := "Monday"; startTime := "15:00"; endTime := "17:00" |} ];
     ClassRecord.enrolledStudents := ["3"; "4"] |}.

Definition mockClasses : list ClassRecord.t := [class1; class2; class3].

(** A browser in UTC.  Its other fields are stand-ins: the examples
    below do not reach them, except the renderer, which accepts. *)
Definition utc : Platform :=
  {| window := true;
     timezoneOffset := 0;
     floatTruthy := fun _ => true;
     relationalOther := fun _ _ => false;
     startTimeOther := fun _ _ => None;
     toDataURL := fun s => Some ("data:image/png;base64," ++ s) |}.

(** Monday 2024-01-01, 00:00 UTC. *)
Definition monday : Z := 1704067200000.

Definition hm (h m s : Z) : Z := monday + h * 3600000 + m * 60000 + s * 1000.

Definition store0 : Store :=
  {| classes := mockClasses; attendanceRecords := []; qrSessions := [] |}.

(** The mock attendance records of lib/data.ts, built when the module
    is loaded, at instant [loaded]. *)
Definition mockAttendanceRecords (loaded : Z) : list AttendanceRecord.t :=
  [ {| AttendanceRecord.id := "att1";
       AttendanceRecord.classId := "class1";
       AttendanceRecord.studentId := "2";
       AttendanceRecord.date := loaded;
       AttendanceRecord.status := present;
       AttendanceRecord.checkedInAt := Some loaded;
       AttendanceRecord.qrCodeUsed := None |};
    {| AttendanceRecord.id := "att2";
       AttendanceRecord.classId := "class1";
       AttendanceRecord.studentId := "3";
       AttendanceRecord.date := loaded;
       AttendanceRecord.status := late;
       AttendanceRecord.checkedInAt := Some (loaded + 15 * 60000);
       AttendanceRecord.qrCodeUsed := None |};
    {| AttendanceRecord.id := "att3";
       AttendanceRecord.classId := "class2";
       AttendanceRecord.studentId := "2";
       AttendanceRecord.date := loaded - 24 * 60 * 60 * 1000;
       AttendanceRecord.status := present;
       AttendanceRecord.checkedInAt := Some (loaded - 24 * 60 * 60 * 1000);
       AttendanceRecord.qrCodeUsed := None |} ].

(** What the program reads before anything was written: the defaults,
    the module loaded on Monday at 08:00. *)
Definition storeDefault : Store :=
  {| classes := mockClasses;
     attendanceRecords := mockAttendanceRecords (hm 8 0 0);
     qrSessions := [] |}.

Definition uuid1 : string := "3f2b8c1e-7a4d-4e6f-9b0a-5c1d2e3f4a5b".

(** The payload and the token of a session issued for class1 on Monday
    at 08:55 for 30 minutes, and the store of a browser after that
    issuance. *)
Definition payload1 : QRCodeData.t :=
  {| QRCodeData.classId := "class1";
     QRCodeData.sessionId := uuid1;
     QRCodeData.timestamp := hm 8 55 0;
     QRCodeData.expiresAt := Some (hm 9 25 0) |}.

Definition token1 : string := stringify payload1.

Definition issued1 : Store :=
  snd (@generateClassQR utc store0 (hm 8 55 0) uuid1 "class1" (Some 30)).

Definition uuid2 : string := "9d4c7e2a-1b3f-4a8c-8e5d-6f7a8b9c0d1e".

(** The payload and the token of a second issuance for class1, at
    09:00, and the store after it. *)
Definition payload2 : QRCodeData.t :=
  {| QRCodeData.classId := "class1";
     QRCodeData.sessionId := uuid2;
     QRCodeData.timestamp := hm 9 0 0;
     QRCodeData.expiresAt := Some (hm 9 30 0) |}.

Definition token2 : string := stringify payload2.

Definition issued2 : Store :=
  snd (@generateClassQR utc issued1 (hm 9 0 0) uuid2 "class1" (Some 30)).

(** The two sessions as the issuances handed them to
    [createQRSession]. *)
Definition session1 : QRCodeSession.t :=
  {| QRCodeSession.id := "1704099300000";
     QRCodeSession.classId := "class1";
     QRCodeSession.generatedAt := DateObject (Some (hm 8 55 0));
     QRCodeSession.expiresAt := DateObject (Some (hm 9 25 0));
     QRCodeSession.isActive := true;
     QRCodeSession.attendanceMarked := [] |}.

Definition session2 : QRCodeSession.t :=
  {| QRCodeSession.id := "1704099600000";
     QRCodeSession.classId := "class1";
     QRCodeSession.generatedAt := DateObject (Some (hm 9 0 0));
     QRCodeSession.expiresAt := DateObject (Some (hm 9 30 0));
     QRCodeSession.isActive := true;
     QRCodeSession.attendanceMarked := [] |}.

(** The store of a browser that held the defaults, after the issuance
    for class1 at 08:55: student 2 has the mock entry of that day. *)
Definition issuedDefault : Store :=
  snd (@generateClassQR utc storeDefault (hm 8 55 0) uuid1 "class1" (Some 30)).

(** A text whose four fields are there with other types: a number as
    class id, a boolean as session id, strings as the two times. *)
Definition badTypes : string :=
  "{" ++ member "classId" "5"
  ++ "," ++ member "sessionId" "true"
  ++ "," ++ member "timestamp" (stringify_string "soon")
  ++ "," ++ member "expiresAt" (stringify_string "later")
  ++ "}".

(** *** A clock before 1970

    The lookup compares the stored expiry with the clock as numbers.
    It finds a session only when the stored expiry is [null], of an
    Invalid Date, and the clock reads an instant before 1970. *)

(** Monday 1969-12-29, 00:00 UTC. *)
Definition monday69 : Z := -259200000.

Definition hm69 (h m s : Z) : Z :=
  monday69 + h * 3600000 + m * 60000 + s * 1000.

(** A duration that takes the expiry beyond the range of Date. *)
Definition tooLong : Z := 200000000000.

(** What the program reads in a browser before anything was written:
    the defaults, the module loaded on that Monday at 08:00.  Students
    2 and 3 have the mock entries of that day for class1; student 4,
    who is enrolled in class1 too, has none. *)
Definition storeDefault69 : Store :=
  {| classes := mockClasses;
     attendanceRecords := mockAttendanceRecords (hm69 8 0 0);
     qrSessions := [] |}.

(** The store of that browser after an issuance for class1 at 08:50 for
    [tooLong] minutes, and the session it stored. *)
Definition issuedInvalid : Store :=
  snd (@generateClassQR utc storeDefault69 (hm69 8 50 0) uuid2 "class1"
         (Some tooLong)).

Definition sessionInvalid : QRCodeSession.t :=
  {| QRCodeSession.id := "-227400000";
     QRCodeSession.classId := "class1";
     QRCodeSession.generatedAt := DateObject (Some (hm69 8 50 0));
     QRCodeSession.expiresAt := DateObject None;
     QRCodeSession.isActive := true;
     QRCodeSession.attendanceMarked := [] |}.

(** The payload and the token of a second issuance, at 08:55 for 30
    minutes, the store after it, and the store after student 4 presented
    that token at 09:00. *)
Definition payload69 : QRCodeData.t :=
  {| QRCodeData.classId := "class1";
     QRCodeData.sessionId := uuid1;
     QRCodeData.timestamp := hm69 8 55 0;
     QRCodeData.expiresAt := Some (hm69 9 25 0) |}.

Definition token69 : string := stringify payload69.

Definition issued69 : Store :=
  snd (@generateClassQR utc issuedInvalid (hm69 8 55 0) uuid1 "class1" (Some 30)).

Definition redeemed69 : Store :=
  snd (@markAttendanceWithQR utc issued69 (hm69 9 0 0) token69 "4").

(** An issuance for class1 on that Monday at 23:50 for 30 minutes, in
    the store that holds the session without expiry, and the store
    after student 4 presented its token at 23:55. *)
Definition payloadLate : QRCodeData.t :=
  {| QRCodeData.classId := "class1";
     QRCodeData.sessionId := uuid1;
     QRCodeData.timestamp := hm69 23 50 0;
     QRCodeData.expiresAt := Some (hm69 24 20 0) |}.

Definition issuedLate : Store :=
  snd (@generateClassQR utc issuedInvalid (hm69 23 50 0) uuid1 "class1"
         (Some 30)).

Definition redeemedLate : Store :=
  snd (@markAttendanceWithQR utc issuedLate (hm69 23 55 0)
         (stringify payloadLate) "4").

(** * The rest of the libraries

    [dataService] beyond the check-in core, [AuthService] and
    [clientAuth] (lib/auth.ts), the two routes with their check of the
    caller, and the helpers [qrUtils] and [smsUtils].

    The users are a fourth collection of the storage; the functions on
    them take it and give it back as a list of their own.  The two
    items of localStorage that [AuthService] keeps are [AuthStorage.t].
    As in the core, the storage is taken to exist and a call reads the
    clock once.  bcryptjs and jsonwebtoken are fields of
    [AuthPlatform]; they are called on strings and on the payload of
    [generateToken], where they do not throw but for a token that does
    not verify, and a token that verifies is taken to carry a payload
    of the shape that [generateToken] signs.  [SMSService] calls a
    remote service and is left out: of the confirmation that the
    attendance route sends, the arguments are modelled. *)

(** ** Users (types/index.ts) *)

Inductive Role : Type := admin | student.

Module User.
Record t : Type := {
  id : string;
  email : string;
  password : string;
  firstName : string;
  lastName : string;
  role : Role;
  phone : option string;
  parentPhone : option string;
  createdAt : Z;
  updatedAt : Z
}.
End User.

(** [Omit<User, 'id' | 'createdAt' | 'updatedAt'>]. *)
Module NewUser.
Record t : Type := {
  email : string;
  password : string;
  firstName : string;
  lastName : string;
  role : Role;
  phone : option string;
  parentPhone : option string
}.
End NewUser.

(** [Partial<User>]: [None] is a field the object does not have.  The
    two optional fields can be there and hold [undefined]. *)
Module UserUpdates.
Record t : Type := {
  id : option string;
  email : option string;
  password : option string;
  firstName : option string;
  lastName : option string;
  role : option Role;
  phone : option (option string);
  parentPhone : option (option string);
  createdAt : option Z;
  updatedAt : option Z
}.
End UserUpdates.

(** The user that [login] and [register] return: all fields but the
    password. *)
Module PublicUser.
Record t : Type := {
  id : string;
  email : string;
  firstName : string;
  lastName : string;
  role : Role;
  phone : option string;
  parentPhone : option string;
  createdAt : Z;
  updatedAt : Z
}.
End PublicUser.

(** What [generateToken] signs and [verifyToken] gives back. *)
Module TokenPayload.
Record t : Type := {
  id : string;
  email : string;
  role : Role;
  firstName : string;
  lastName : string
}.
End TokenPayload.

Module AuthResponse.
Record t : Type := {
  success : bool;
  user : option PublicUser.t;
  token : option string;
  error : option string
}.
End AuthResponse.

(** The two items of localStorage that [AuthService] keeps. *)
Module AuthStorage.
Record t : Type := {
  current_user : option (list PublicUser.t);
  auth_token : option string
}.
End AuthStorage.

(** bcryptjs and jsonwebtoken.  [bcrypt_hash] takes the salt it draws;
    signing and verifying read the clock. *)
Class AuthPlatform : Type := {
  bcrypt_hash : string -> string -> string;
  bcrypt_compare : string -> string -> bool;
  jwt_sign : TokenPayload.t -> Z -> string;
  (** [None] when [jwt.verify] throws. *)
  jwt_verify : string -> Z -> option TokenPayload.t
}.

(** The answer of the attendance route, and the call of
    [SMSService.sendAttendanceConfirmation] it makes without waiting. *)
Inductive MarkResponse : Type :=
| MarkError (status : Z) (error : string)
| MarkOk (attendanceId : option string) (message : string) (timestamp : Z).

(** The answer of the QR generation route: 401, 403, or what the route
    answers to an administrator. *)
Inductive GenerateResponse : Type :=
| Unauthorized (error : string)
| Forbidden (error : string)
| Answer (r : Response).

Module Confirmation.
Record t : Type := {
  studentId : string;
  classId : string;
  status : AttendanceStatus
}.
End Confirmation.

Section Periphery.

Context {P : Platform} {A : AuthPlatform}.

(** ** dataService: users *)

Definition getUserById (users : list User.t) (id : string) : option User.t :=
  find (fun user => String.eqb (User.id user) id) users.

Definition getUserByEmail (users : list User.t) (email : string) :
  option User.t :=
  find (fun user => String.eqb (User.email user) email) users.

Definition createUser (users : list User.t) (now : Z) (user : NewUser.t) :
  User.t * list User.t :=
  let newUser :=
    {| User.id := Number_toString now;
       User.email := NewUser.email user;
       User.password := NewUser.password user;
       User.firstName := NewUser.firstName user;
       User.lastName := NewUser.lastName user;
       User.role := NewUser.role user;
       User.phone := NewUser.phone user;
       User.parentPhone := NewUser.parentPhone user;
       User.createdAt := now;
       User.updatedAt := now |} in
  (newUser, (users ++ [newUser])%list).

Definition orElse {T : Type} (update : option T) (old : T) : T :=
  match update with Some v => v | None => old end.

(** [{ ...user, ...updates, updatedAt: new Date() }]. *)
Definition merge (user : User.t) (updates : UserUpdates.t) (now : Z) :
  User.t :=
  {| User.id := orElse (UserUpdates.id updates) (User.id user);
     User.email := orElse (UserUpdates.email updates) (User.email user);
     User.password := orElse (UserUpdates.password updates) (User.password user);
     User.firstName := orElse (UserUpdates.firstName updates) (User.firstName user);
     User.lastName := orElse (UserUpdates.lastName updates) (User.lastName user);
     User.role := orElse (UserUpdates.role updates) (User.role user);
     User.phone := orElse (UserUpdates.phone updates) (User.phone user);
     User.parentPhone :=
       orElse (UserUpdates.parentPhone updates) (User.parentPhone user);
     User.createdAt := orElse (UserUpdates.createdAt updates) (User.createdAt user);
     User.updatedAt := now |}.

(** [users.findIndex(user => user.id === id)]; [None] is -1. *)
Fixpoint findIndex (id : string) (users : list User.t) : option nat :=
  match users with
  | [] => None
  | user :: rest =>
    if String.eqb (User.id user) id then Some O
    else option_map S (findIndex id rest)
  end.

(** [users[i] = x]. *)
Fixpoint assign (i : nat) (x : User.t) (users : list User.t) : list User.t :=
  match users, i with
  | [], _ => []
  | _ :: rest, O => x :: rest
  | user :: rest, S j => user :: assign j x rest
  end.

Definition updateUser (users : list User.t) (now : Z) (id : string)
  (updates : UserUpdates.t) : option User.t * list User.t :=
  match findIndex id users with
  | None => (None, users)
  | Some userIndex =>
    match nth_error users userIndex with
    | Some user =>
      let updated := merge user updates now in
      (Some updated, assign userIndex updated users)
    | None => (None, users)
    end
  end.

(** ** dataService: classes and attendance *)

(** Of the class to create, the fields of [ClassRecord]. *)
Definition createClass (st : Store) (now : Z) (name : string)
  (schedule : list ScheduleEntry) (enrolledStudents : list string) :
  ClassRecord.t * Store :=
  let classes := getClasses st in
  let newClass :=
    {| ClassRecord.id := Number_toString now;
       ClassRecord.name := name;
       ClassRecord.schedule := schedule;
       ClassRecord.enrolledStudents := enrolledStudents |} in
  (newClass,
   {| classes := classes ++ [newClass];
      attendanceRecords := attendanceRecords st;
      qrSessions := qrSessions st |}).

Definition getClassesByStudent (st : Store) (studentId : string) :
  list ClassRecord.t :=
  filter (fun cls => includes studentId (ClassRecord.enrolledStudents cls))
         (getClasses st).

Definition getAttendanceByStudent (st : Store) (studentId : string) :
  list AttendanceRecord.t :=
  filter (fun record => String.eqb (AttendanceRecord.studentId record) studentId)
         (getAttendanceRecords st).

Definition getAttendanceByClass (st : Store) (classId : string) :
  list AttendanceRecord.t :=
  filter (fun record => String.eqb (AttendanceRecord.classId record) classId)
         (getAttendanceRecords st).

(** ** QRService.generateStudentQR *)

(** [JSON.stringify] of the student payload. *)
Definition stringifyStudent (studentId name email : string) (timestamp : Z) :
  string :=
  "{" ++ member "type" (stringify_string "student")
  ++ "," ++ member "studentId" (stringify_string studentId)
  ++ "," ++ member "name" (stringify_string name)
  ++ "," ++ member "email" (stringify_string email)
  ++ "," ++ member "timestamp" (stringify_number timestamp)
  ++ "}".

Definition generateStudentQR (users : list User.t) (now : Z)
  (studentId : string) : QRGenerationResult.t :=
  match getUserById users studentId with
  | None => generationFailure "Student not found"
  | Some studentData =>
    match User.role studentData with
    | admin => generationFailure "Student not found"
    | student =>
      match toDataURL
              (stringifyStudent studentId
                 (User.firstName studentData ++ " " ++ User.lastName studentData)
                 (User.email studentData) now) with
      | None => generationFailure "Failed to generate student QR code"
      | Some qrCodeDataURL =>
        {| QRGenerationResult.success := true;
           QRGenerationResult.qrCodeDataURL := Some qrCodeDataURL;
           QRGenerationResult.sessionId := None;
           QRGenerationResult.expiresAt := None;
           QRGenerationResult.error := None |}
      end
    end
  end.

(** ** qrUtils *)

(** [s.padStart(2, '0')]. *)
Definition padStart2 (s : string) : string :=
  match String.length s with
  | O => "00"
  | S O => "0" ++ s
  | _ => s
  end.

Definition formatTimeRemaining (expiresAt now : Z) : string :=
  let timeLeft := expiresAt - now in
  if timeLeft <=? 0 then "Expired"
  else
    let minutes := timeLeft / 60000 in
    let seconds := Z.rem timeLeft 60000 / 1000 in
    Number_toString minutes ++ ":" ++ padStart2 (Number_toString seconds).

Definition isAboutToExpire (expiresAt now : Z) : bool :=
  let timeLeft := expiresAt - now in
  let fiveMinutes := 5 * 60 * 1000 in
  (0 <? timeLeft) && (timeLeft <=? fiveMinutes).

Definition isAlphaNumeric (c : ascii) : bool :=
  let n := N_of_ascii c in
  (((97 <=? n) && (n <=? 122)) || ((65 <=? n) && (n <=? 90))
   || ((48 <=? n) && (n <=? 57)))%N.

(** [className.replace(/[^a-zA-Z0-9]/g, '_')]. *)
Fixpoint sanitize (s : string) : string :=
  match s with
  | EmptyString => EmptyString
  | String c r => String (if isAlphaNumeric c then c else "_"%char) (sanitize r)
  end.

(** The year, month and day of a count of days from 1970-01-01, in the
    proleptic Gregorian calendar. *)
Definition civil (days : Z) : Z * Z * Z :=
  let z := days + 719468 in
  let era := z / 146097 in
  let doe := z - era * 146097 in
  let yoe := (doe - doe / 1460 + doe / 36524 - doe / 146096) / 365 in
  let doy := doe - (365 * yoe + yoe / 4 - yoe / 100) in
  let mp := (5 * doy + 2) / 153 in
  let d := doy - (153 * mp + 2) / 5 + 1 in
  let m := if mp <? 10 then mp + 3 else mp - 9 in
  let y := yoe + era * 400 in
  (if m <=? 2 then y + 1 else y, m, d).

Definition digitChar (n : Z) : ascii := ascii_of_N (48 + Z.to_N (n mod 10)).

(** The last [k] decimal digits of [n], high digit first. *)
Fixpoint pad (k : nat) (n : Z) : string :=
  match k with
  | O => EmptyString
  | S j => pad j (n / 10) ++ String (digitChar n) EmptyString
  end.

(** [date.toISOString().split('T')[0]]: the UTC date, the year with four
    digits from 0 to 9999 and with a sign and six digits otherwise. *)
Definition isoDate (t : Z) : string :=
  let '(y, m, d) := civil (t / msPerDay) in
  (if (0 <=? y) && (y <=? 9999) then pad 4 y
   else (if y <? 0 then "-" else "+") ++ pad 6 (Z.abs y))
  ++ "-" ++ pad 2 m ++ "-" ++ pad 2 d.

(** [date] is the instant of the Date, [None] for an Invalid Date, whose
    [toISOString] throws a RangeError: then there is no name. *)
Definition generateFileName (className : string) (date : option Z) :
  option string :=
  match date with
  | None => None
  | Some t =>
    let dateStr := isoDate t in
    let sanitizedClassName := sanitize className in
    Some ("QR_" ++ sanitizedClassName ++ "_" ++ dateStr ++ ".png")
  end.

(** ** smsUtils *)

Definition isDigit (c : ascii) : bool :=
  let n := N_of_ascii c in ((48 <=? n) && (n <=? 57))%N.

(** [\s] on 8-bit characters: tab, line feed, vertical tab, form feed,
    carriage return, space, no-break space. *)
Definition isSpace (c : ascii) : bool :=
  let n := N_of_ascii c in
  (((9 <=? n) && (n <=? 13)) || (n =? 32) || (n =? 160))%N.

(** [[\d\s\-\(\)]]. *)
Definition isPhoneChar (c : ascii) : bool :=
  let n := N_of_ascii c in
  (isDigit c || isSpace c || (n =? 45) || (n =? 40) || (n =? 41))%N.

Fixpoint allChars (f : ascii -> bool) (s : string) : bool :=
  match s with
  | EmptyString => true
  | String c r => f c && allChars f r
  end.

(** [/^\+?[\d\s\-\(\)]{10,}$/.test(phone)]. *)
Definition isValidPhoneNumber (phone : string) : bool :=
  let rest :=
    match phone with
    | String c r => if (N_of_ascii c =? 43)%N then r else phone
    | EmptyString => phone
    end in
  allChars isPhoneChar rest && (10 <=? String.length rest)%nat.

(** [phone.replace(/\D/g, '')]. *)
Fixpoint digitsOnly (s : string) : string :=
  match s with
  | EmptyString => EmptyString
  | String c r => if isDigit c then String c (digitsOnly r) else digitsOnly r
  end.

(** [s.slice(a, b)] and [s.slice(a)], for indices within the string. *)
Definition slice (s : string) (a b : nat) : string := substring a (b - a) s.

Definition sliceFrom (s : string) (a : nat) : string :=
  substring a (String.length s - a) s.

Definition formatPhoneNumber (phone : string) : string :=
  let digitsOnly := digitsOnly phone in
  if (String.length digitsOnly =? 10)%nat then
    "(" ++ slice digitsOnly 0 3 ++ ") " ++ slice digitsOnly 3 6 ++ "-"
    ++ sliceFrom digitsOnly 6
  else if (String.length digitsOnly =? 11)%nat
          && match String.get 0 digitsOnly with
             | Some c => Ascii.eqb c "1"
             | None => false
             end
  then
    "+1 (" ++ slice digitsOnly 1 4 ++ ") " ++ slice digitsOnly 4 7 ++ "-"
    ++ sliceFrom digitsOnly 7
  else phone.

(** ** AuthService and clientAuth (lib/auth.ts) *)

Definition publicUser (user : User.t) : PublicUser.t :=
  {| PublicUser.id := User.id user;
     PublicUser.email := User.email user;
     PublicUser.firstName := User.firstName user;
     PublicUser.lastName := User.lastName user;
     PublicUser.role := User.role user;
     PublicUser.phone := User.phone user;
     PublicUser.parentPhone := User.parentPhone user;
     PublicUser.createdAt := User.createdAt user;
     PublicUser.updatedAt := User.updatedAt user |}.

Definition generateToken (user : PublicUser.t) (now : Z) : string :=
  jwt_sign
    {| TokenPayload.id := PublicUser.id user;
       TokenPayload.email := PublicUser.email user;
       TokenPayload.role := PublicUser.role user;
       TokenPayload.firstName := PublicUser.firstName user;
       TokenPayload.lastName := PublicUser.lastName user |} now.

(** [None] is the thrown [Error('Invalid token')]. *)
Definition verifyToken (token : string) (now : Z) : option TokenPayload.t :=
  jwt_verify token now.

Definition authFailure (e : string) : AuthResponse.t :=
  {| AuthResponse.success := false;
     AuthResponse.user := None;
     AuthResponse.token := None;
     AuthResponse.error := Some e |}.

Definition login (users : list User.t) (ls : AuthStorage.t) (now : Z)
  (email password : string) : AuthResponse.t * AuthStorage.t :=
  match getUserByEmail users email with
  | None => (authFailure "User not found", ls)
  | Some user =>
    let isPasswordValid := bcrypt_compare password (User.password user) in
    if negb isPasswordValid then (authFailure "Invalid password", ls)
    else
      let userWithoutPassword := publicUser user in
      let token := generateToken userWithoutPassword now in
      ({| AuthResponse.success := true;
          AuthResponse.user := Some userWithoutPassword;
          AuthResponse.token := Some token;
          AuthResponse.error := None |},
       {| AuthStorage.current_user := Some [userWithoutPassword];
          AuthStorage.auth_token := Some token |})
  end.

Definition register (users : list User.t) (now : Z) (salt : string)
  (userData : NewUser.t) : AuthResponse.t * list User.t :=
  match getUserByEmail users (NewUser.email userData) with
  | Some existingUser =>
    (authFailure "User already exists with this email", users)
  | None =>
    let hashedPassword := bcrypt_hash salt (NewUser.password userData) in
    let (newUser, users') :=
      createUser users now
        {| NewUser.email := NewUser.email userData;
           NewUser.password := hashedPassword;
           NewUser.firstName := NewUser.firstName userData;
           NewUser.lastName := NewUser.lastName userData;
           NewUser.role := NewUser.role userData;
           NewUser.phone := NewUser.phone userData;
           NewUser.parentPhone := NewUser.parentPhone userData |} in
    let userWithoutPassword := publicUser newUser in
    let token := generateToken userWithoutPassword now in
    ({| AuthResponse.success := true;
        AuthResponse.user := Some userWithoutPassword;
        AuthResponse.token := Some token;
        AuthResponse.error := None |}, users')
  end.

Definition logout (ls : AuthStorage.t) : AuthStorage.t :=
  {| AuthStorage.current_user := None; AuthStorage.auth_token := None |}.

(** The stored token, if it is there and not the empty string. *)
Definition storedToken (ls : AuthStorage.t) : option string :=
  match AuthStorage.auth_token ls with
  | Some (String c r) => Some (String c r)
  | _ => None
  end.

Definition getCurrentUser (ls : AuthStorage.t) (now : Z) :
  option TokenPayload.t :=
  match storedToken ls with
  | None => None
  | Some token => verifyToken token now
  end.

Definition isAuthenticated (ls : AuthStorage.t) (now : Z) : bool :=
  match getCurrentUser ls now with Some _ => true | None => false end.

Definition Role_eqb (a b : Role) : bool :=
  match a, b with
  | admin, admin => true
  | student, student => true
  | _, _ => false
  end.

Definition hasRole (ls : AuthStorage.t) (now : Z) (role : Role) : bool :=
  match getCurrentUser ls now with
  | Some user => Role_eqb (TokenPayload.role user) role
  | None => false
  end.

(** [inl] is the message of the thrown error. *)
Definition requireAuth (ls : AuthStorage.t) (now : Z) :
  string + TokenPayload.t :=
  match getCurrentUser ls now with
  | None => inl "Authentication required"
  | Some user => inr user
  end.

Definition requireAdmin (ls : AuthStorage.t) (now : Z) :
  string + TokenPayload.t :=
  match requireAuth ls now with
  | inl e => inl e
  | inr user =>
    if negb (Role_eqb (TokenPayload.role user) admin)
    then inl "Admin access required"
    else inr user
  end.

(** [clientAuth.getAuthHeaders]: the Authorization header, if any. *)
Definition getAuthHeaders (ls : AuthStorage.t) : option string :=
  match storedToken ls with
  | Some token => Some ("Bearer " ++ token)
  | None => None
  end.

Definition isLoggedIn (ls : AuthStorage.t) (now : Z) : bool :=
  isAuthenticated ls now.

Definition getUserRole (ls : AuthStorage.t) (now : Z) : option Role :=
  match getCurrentUser ls now with
  | Some user => Some (TokenPayload.role user)
  | None => None
  end.

Definition getDisplayName (ls : AuthStorage.t) (now : Z) : string :=
  match getCurrentUser ls now with
  | Some user => TokenPayload.firstName user ++ " " ++ TokenPayload.lastName user
  | None => "Guest"
  end.

(** ** Attendance route (app/api/attendance/mark), from a body that
    parsed to its declared type; it runs on the server *)

(** [haystack.includes(needle)]. *)
Fixpoint stringIncludes (needle haystack : string) : bool :=
  String.prefix needle haystack
  || match haystack with
     | EmptyString => false
     | String _ r => stringIncludes needle r
     end.

Definition POST_mark (st : Store) (now : Z) (authHeader : option string)
  (body_qrData : string) :
  MarkResponse * Store * option Confirmation.t :=
  match authHeader with
  | None => (MarkError 401 "Authentication required", st, None)
  | Some authHeader =>
    if negb (String.prefix "Bearer " authHeader)
    then (MarkError 401 "Authentication required", st, None)
    else
      let token := sliceFrom authHeader 7 in
      match verifyToken token now with
      | None => (MarkError 401 "Invalid token", st, None)
      | Some user =>
        match body_qrData with
        | EmptyString => (MarkError 400 "QR data is required", st, None)
        | String _ _ =>
          let (result, st') :=
            @markAttendanceWithQR (server P) st now body_qrData
              (TokenPayload.id user) in
          if negb (MarkResult.success result)
          then (MarkError 400 (MarkResult.message result), st', None)
          else
            let qrValidation :=
              @validateQRCode (server P) st' now body_qrData in
            let sms :=
              match QRValidationResult.classId qrValidation with
              | Some (String c0 c1) =>
                if QRValidationResult.success qrValidation then
                  let status :=
                    if stringIncludes "late" (MarkResult.message result)
                    then late else present in
                  Some {| Confirmation.studentId := TokenPayload.id user;
                          Confirmation.classId := String c0 c1;
                          Confirmation.status := status |}
                else None
              | _ => None
              end in
            (MarkOk (MarkResult.attendanceId result)
                    (MarkResult.message result) now, st', sms)
        end
      end
  end.

(** ** QR generation route (app/api/qr/generate), with its check of the
    caller *)

Definition POST_generate (st : Store) (now : Z) (uuid : string)
  (authHeader : option string) (body_classId : string)
  (body_durationMinutes : option Z) : GenerateResponse * Store :=
  match authHeader with
  | None => (Unauthorized "Authentication required", st)
  | Some authHeader =>
    if negb (String.prefix "Bearer " authHeader)
    then (Unauthorized "Authentication required", st)
    else
      let token := sliceFrom authHeader 7 in
      match verifyToken token now with
      | None => (Unauthorized "Invalid token", st)
      | Some user =>
        if negb (Role_eqb (TokenPayload.role user) admin)
        then (Forbidden "Admin access required", st)
        else
          let (r, st') :=
            POST st now uuid body_classId body_durationMinutes in
          (Answer r, st')
      end
  end.

(** ** Vocabulary of the further statements *)

(** A letter, a digit, or one of [_], [-], [+] and [.]. *)
Definition isFileChar (c : ascii) : bool :=
  let n := N_of_ascii c in
  (isAlphaNumeric c || (n =? 95) || (n =? 45) || (n =? 43) || (n =? 46))%N.

End Periphery.

(** ** Users and authentication of the examples *)

(** The hash that the mock users share; lib/data.ts notes that it is
    the hash of the password password. *)
Definition mockHash : string :=
  "$2a$10$92IXUNpkjO0rOQ5byMi.Ye4oKoEa3Ro9llC/.og/at2.uheWG/igi".

Definition mockUser (id email firstName lastName : string) (role : Role)
  (phone parentPhone : option string) : User.t :=
  {| User.id := id;
     User.email := email;
     User.password := mockHash;
     User.firstName := firstName;
     User.lastName := lastName;
     User.role := role;
     User.phone := phone;
     User.parentPhone := parentPhone;
     User.createdAt := monday;
     User.updatedAt := monday |}.

Definition mockUsers : list User.t :=
  [ mockUser "1" "admin@school.edu" "John" "Administrator" admin
      (Some "+1234567890") None;
    mockUser "2" "student1@school.edu" "Alice" "Johnson" student
      (Some "+1234567891") (Some "+1234567892");
    mockUser "3" "student2@school.edu" "Bob" "Smith" student
      (Some "+1234567893") (Some "+1234567894");
    mockUser "4" "student3@school.edu" "Charlie" "Brown" student
      (Some "+1234567895") (Some "+1234567896") ].

(** Stand-ins for bcryptjs and jsonwebtoken in the examples: a hash
    that is the password after the salt, accepted for that password,
    as the mock hash is for the password password; a token that is the
    role and the id of the user, and that never expires. *)
Definition plainAuth : AuthPlatform :=
  {| bcrypt_hash := fun salt password => salt ++ "$" ++ password;
     bcrypt_compare := fun password hash =>
       String.eqb hash ("salt$" ++ password)
       || (String.eqb hash mockHash && String.eqb password "password");
     jwt_sign := fun payload _ =>
       match TokenPayload.role payload with
       | admin => "admin."
       | student => "student."
       end ++ TokenPayload.id payload;
     jwt_verify := fun token _ =>
       let payload role id :=
         {| TokenPayload.id := id;
            TokenPayload.email := "";
            TokenPayload.role := role;
            TokenPayload.firstName := "";
            TokenPayload.lastName := "" |} in
       if String.prefix "admin." token
       then Some (payload admin (sliceFrom token 6))
       else if String.prefix "student." token
       then Some (payload student (sliceFrom token 8))
       else None |}.

(** A browser in which nobody is logged in. *)
Definition loggedOut : AuthStorage.t :=
  {| AuthStorage.current_user := None; AuthStorage.auth_token := None |}.

(** A student who registers on Monday at 08:00. *)
Definition dana : NewUser.t :=
  {| NewUser.email := "dana@school.edu";
     NewUser.password := "secret";
     NewUser.firstName := "Dana";
     NewUser.lastName := "Lee";
     NewUser.role := student;
     NewUser.phone := None;
     NewUser.parentPhone := None |}.

(** The browser of student 2 after a login on Monday at 08:50. *)
Definition aliceLoggedIn : AuthStorage.t :=
  snd (@login plainAuth mockUsers loggedOut (hm 8 50 0)
         "student1@school.edu" "password").

(** In the browser of the clock before 1970: a class created at 08:30
    that meets twice on Monday, the afternoon meeting listed first; the
    store after it was created, after an issuance for it at 09:50 for
    [tooLong] minutes and one at 09:55 for 30 minutes; and the payload
    of the second issuance. *)
Definition scheduleTwice : list ScheduleEntry :=
  [ {| day := "Monday"; startTime := "15:00"; endTime := "16:00" |};
    {| day := "Monday"; startTime := "09:00"; endTime := "10:00" |} ].

Definition classTwice : ClassRecord.t :=
  fst (createClass storeDefault69 (hm69 8 30 0) "Chemistry" scheduleTwice ["2"]).

Definition payloadTwice : QRCodeData.t :=
  {| QRCodeData.classId := ClassRecord.id classTwice;
     QRCodeData.sessionId := uuid1;
     QRCodeData.timestamp := hm69 9 55 0;
     QRCodeData.expiresAt := Some (hm69 10 25 0) |}.

Definition issuedTwice : Store :=
  snd (@generateClassQR utc
         (snd (@generateClassQR utc
                 (snd (createClass storeDefault69 (hm69 8 30 0) "Chemistry"
                         scheduleTwice ["2"]))
                 (hm69 9 50 0) uuid2 (ClassRecord.id classTwice)
                 (Some tooLong)))
         (hm69 9 55 0) uuid1 (ClassRecord.id classTwice) (Some 30)).

(** * Properties

    ** The token codec *)

Section JSONFacts.

Lemma parse_chars_quote_char (c : ascii) (t : string) :
  parse_chars (quote_char c ++ t) = cons_unit (N_of_ascii c) (parse_chars t).
Proof.
  destruct c as [[] [] [] [] [] [] [] []]; reflexivity.
Qed.

Lemma append_assoc_string (a b c : string) : ((a ++ b) ++ c = a ++ (b ++ c))%string.
Proof. induction a; simpl; congruence. Qed.

Lemma parse_chars_quote_chars (s rest : string) :
  parse_chars (quote_chars s ++ String quote rest) = Some (units s, rest).
Proof.
  induction s as [|c s IH]; simpl.
  - reflexivity.
  - rewrite append_assoc_string, parse_chars_quote_char, IH. reflexivity.
Qed.

Lemma take_digits_string_of_uint (d : uint) (rest : string) :
  not_digit rest ->
  take_digits (NilEmpty.string_of_uint d ++ rest) = (d, rest).
Proof.
  intros H. induction d; simpl;
    try (unfold digit_of; simpl; rewrite IHd; reflexivity).
  destruct rest as [|c r]; simpl in *; [reflexivity | rewrite H; reflexivity].
Qed.

Lemma to_int_normal (z : Z) :
  exists d, unorm d = d /\
    (Z.to_int z = Pos d \/ (Z.to_int z = Neg d /\ d <> zero)).
Proof.
  pose proof (DecimalZ.to_of (Z.to_int z)) as H.
  rewrite DecimalZ.of_to in H.
  destruct (Z.to_int z) as [d|d] eqn:E; simpl in H.
  - exists d. split; [congruence | now left].
  - exists d. destruct (nzhead d) eqn:Hn; try discriminate.
    all: split.
    all: try (right; split; [reflexivity|]; intros ->; discriminate).
    all: rewrite unorm_nzhead; congruence.
Qed.

Lemma delimited_not_digit s : delimited s -> not_digit s.
Proof.
  destruct s as [|c r]; simpl; [trivial|].
  unfold digit_of. intros [-> | ->]; reflexivity.
Qed.

Lemma parse_frac_delimited s : delimited s -> parse_frac s = Some (None, s).
Proof.
  destruct s as [|c r]; simpl; [trivial|]. intros [-> | ->]; reflexivity.
Qed.

Lemma parse_exp_delimited s : delimited s -> parse_exp s = Some (None, s).
Proof.
  destruct s as [|c r]; simpl; [trivial|]. intros [-> | ->]; reflexivity.
Qed.

Lemma string_of_uint_head (d : uint) (rest : string) :
  d <> Nil ->
  exists c r, (NilEmpty.string_of_uint d ++ rest)%string = String c r
              /\ (N_of_ascii c =? 45)%N = false.
Proof.
  destruct d; intros H; try congruence; simpl; eexists; eexists;
    (split; [reflexivity | reflexivity]).
Qed.

Lemma parse_number_stringify (z : Z) (rest : string) :
  delimited rest ->
  parse_number (stringify_number z ++ rest) = Some (JNum z, rest).
Proof.
  intros Hd. unfold stringify_number.
  destruct (to_int_normal z) as (d & Hn & H).
  assert (Hnil : d <> Nil) by (intros ->; discriminate).
  assert (Hz : Z.of_int (Z.to_int z) = z) by apply DecimalZ.of_to.
  assert (Hs : NilZero.string_of_uint d = NilEmpty.string_of_uint d)
    by (destruct d; [congruence | reflexivity ..]).
  unfold parse_number.
  destruct H as [H | [H _]]; rewrite H in *; simpl NilZero.string_of_int.
  - rewrite Hs.
    destruct (string_of_uint_head d rest Hnil) as (c & r & E & Hc).
    rewrite E, Hc, <- E.
    rewrite take_digits_string_of_uint by now apply delimited_not_digit.
    rewrite Hn, (Decimal.internal_uint_dec_lb d d eq_refl).
    rewrite parse_frac_delimited, parse_exp_delimited by assumption.
    now rewrite Hz.
  - rewrite Hs.
    change (String "-" (NilEmpty.string_of_uint d) ++ rest)%string
      with (String "-" (NilEmpty.string_of_uint d ++ rest)).
    cbn -[Z.of_int take_digits unorm uint_beq parse_frac parse_exp].
    rewrite take_digits_string_of_uint by now apply delimited_not_digit.
    rewrite Hn, (Decimal.internal_uint_dec_lb d d eq_refl).
    rewrite parse_frac_delimited, parse_exp_delimited by assumption.
    now rewrite Hz.
Qed.

Lemma stringify_string_app (s rest : string) :
  (stringify_string s ++ rest)%string = quoted s rest.
Proof.
  unfold stringify_string, quoted. cbn [append].
  now rewrite append_assoc_string.
Qed.

Lemma stringify_flat (q : QRCodeData.t) :
  stringify q =
  String "{"
   (quoted "classId" (String ":"
   (quoted (QRCodeData.classId q) (String ","
   (quoted "sessionId" (String ":"
   (quoted (QRCodeData.sessionId q) (String ","
   (quoted "timestamp" (String ":"
   (stringify_number (QRCodeData.timestamp q) ++ String ","
   (quoted "expiresAt" (String ":"
   (stringify_time (QRCodeData.expiresAt q) ++ "}"))))))))))))))%string.
Proof.
  unfold stringify, member.
  cbn [append].
  repeat (rewrite ?append_assoc_string, ?stringify_string_app; cbn [append]).
  reflexivity.
Qed.

Lemma parse_value_quoted (f : nat) (s rest : string) :
  parse_value (S f) (quoted s rest) = Some (JStr (units s), rest).
Proof.
  unfold quoted.
  change (parse_value (S f) (String quote (quote_chars s ++ String quote rest)))
    with (match parse_chars (quote_chars s ++ String quote rest) with
          | Some (u, r') => Some (JStr u, r')
          | None => None
          end).
  now rewrite parse_chars_quote_chars.
Qed.

Lemma stringify_number_head (z : Z) (rest : string) :
  exists c r, (stringify_number z ++ rest)%string = String c r /\
    (45 <=? N_of_ascii c)%N && (N_of_ascii c <=? 57)%N
    && negb (N_of_ascii c =? 46)%N && negb (N_of_ascii c =? 47)%N = true.
Proof.
  unfold stringify_number.
  destruct (to_int_normal z) as (d & Hn & H).
  assert (Hnil : d <> Nil) by (intros ->; discriminate).
  destruct H as [H | [H _]]; rewrite H; cbn [NilZero.string_of_int].
  - destruct d; try congruence; cbn; eexists; eexists;
      (split; [reflexivity | reflexivity]).
  - cbn. eexists; eexists; (split; [reflexivity | reflexivity]).
Qed.

Lemma parse_value_numeral_head (f : nat) (c : ascii) (r : string) :
  (45 <=? N_of_ascii c)%N && (N_of_ascii c <=? 57)%N
  && negb (N_of_ascii c =? 46)%N && negb (N_of_ascii c =? 47)%N = true ->
  parse_value (S f) (String c r) = parse_number (String c r).
Proof.
  destruct c as [[] [] [] [] [] [] [] []]; intros H; try discriminate H;
    reflexivity.
Qed.

Lemma parse_value_number (f : nat) (z : Z) (rest : string) :
  delimited rest ->
  parse_value (S f) (stringify_number z ++ rest) = Some (JNum z, rest).
Proof.
  intros Hd.
  destruct (stringify_number_head z rest) as (c & r & E & Hc).
  rewrite <- (parse_number_stringify z rest Hd).
  rewrite E. now apply parse_value_numeral_head.
Qed.

Lemma parse_members_quoted (f : nat) (k V : string)
  (acc : list (list N * json)) :
  parse_members (S f) (quoted k (String ":" V)) acc =
  match parse_value f V with
  | None => None
  | Some (v, r3) =>
    match skip_ws r3 with
    | EmptyString => None
    | String c3 r4 =>
      if (N_of_ascii c3 =? 44)%N
      then parse_members f r4 (acc ++ [(units k, v)])
      else if (N_of_ascii c3 =? 125)%N
      then Some (JObj (acc ++ [(units k, v)]), r4)
      else None
    end
  end.
Proof.
  unfold quoted.
  change (parse_members (S f)
            (String quote (quote_chars k ++ String quote (String ":" V))) acc)
    with (match parse_chars (quote_chars k ++ String quote (String ":" V)) with
          | None => None
          | Some (k, r1) =>
            match skip_ws r1 with
            | EmptyString => None
            | String c1 r2 =>
              if (N_of_ascii c1 =? 58)%N then
                match parse_value f r2 with
                | None => None
                | Some (v, r3) =>
                  match skip_ws r3 with
                  | EmptyString => None
                  | String c3 r4 =>
                    if (N_of_ascii c3 =? 44)%N
                    then parse_members f r4 (acc ++ [(k, v)])
                    else if (N_of_ascii c3 =? 125)%N
                    then Some (JObj (acc ++ [(k, v)]), r4)
                    else None
                  end
                end
              else None
            end
          end).
  rewrite parse_chars_quote_chars. reflexivity.
Qed.


Lemma parse_members_quoted_comma (f : nat) (k V : string) (v : json)
  (r : string) (acc : list (list N * json)) :
  parse_value f V = Some (v, String "," r) ->
  parse_members (S f) (quoted k (String ":" V)) acc =
  parse_members f r (acc ++ [(units k, v)]).
Proof.
  intros H. rewrite parse_members_quoted, H. reflexivity.
Qed.

Lemma parse_members_quoted_close (f : nat) (k V : string) (v : json)
  (r : string) (acc : list (list N * json)) :
  parse_value f V = Some (v, String "}" r) ->
  parse_members (S f) (quoted k (String ":" V)) acc =
  Some (JObj (acc ++ [(units k, v)]), r).
Proof.
  intros H. rewrite parse_members_quoted, H. reflexivity.
Qed.

Lemma parse_value_time (f : nat) (t : option Z) :
  parse_value (S f) (stringify_time t ++ "}") =
  Some (match t with Some e => JNum e | None => JNull end, "}").
Proof.
  destruct t as [e|]; [|reflexivity].
  apply parse_value_number. simpl. auto.
Qed.

Lemma parse_value_stringify (q : QRCodeData.t) (f : nat) :
  parse_value (S (S (S (S (S (S f)))))) (stringify q) = Some (toJSON q, "").
Proof.
  rewrite stringify_flat.
  match goal with
  | |- parse_value (S ?g) (String "{" ?s) = _ =>
      change (parse_value (S g) (String "{" s)) with (parse_members g s [])
  end.
  erewrite parse_members_quoted_comma by apply parse_value_quoted.
  erewrite parse_members_quoted_comma by apply parse_value_quoted.
  erewrite parse_members_quoted_comma
    by (apply parse_value_number; simpl; auto).
  erewrite parse_members_quoted_close by apply parse_value_time.
  reflexivity.
Qed.

Lemma stringify_length (q : QRCodeData.t) :
  exists n, String.length (stringify q) = S (S n).
Proof. rewrite stringify_flat. unfold quoted. simpl. eauto. Qed.

Lemma parse_stringify (q : QRCodeData.t) :
  JSON.parse (stringify q) = Some (toJSON q).
Proof.
  unfold JSON.parse.
  destruct (stringify_length q) as (n & ->).
  replace (2 * S (S n) + 2)%nat with (S (S (S (S (S (S (2 * n))))))) by lia.
  now rewrite parse_value_stringify.
Qed.
End JSONFacts.
(** ** Validation and marking, case by case *)

Section ServiceFacts.
Context {P : Platform}.

Lemma of_units_units (s : string) : of_units (units s) = Some s.
Proof.
  induction s as [|c s IH]; simpl; [reflexivity|].
  destruct (N.ltb_spec (N_of_ascii c) 256) as [_|H].
  - now rewrite IH, ascii_N_embedding.
  - pose proof (N_ascii_bounded c). lia.
Qed.

Lemma of_units_nonempty (u : list N) (s : string) :
  of_units u = Some s -> truthy (Some (JStr u)) = true ->
  exists c r, s = String c r.
Proof.
  destruct u as [|n u]; simpl; [discriminate|].
  destruct (n <? 256)%N; [|discriminate].
  destruct (of_units u); [|discriminate].
  intros [= <-] _. eauto.
Qed.

Lemma decode_inl (s : string) (v : json) :
  decode s = inl v ->
  JSON.parse s = Some v /\
  truthy (field v "classId") = true /\
  truthy (field v "sessionId") = true /\
  truthy (field v "timestamp") = true /\
  truthy (field v "expiresAt") = true.
Proof.
  unfold decode. destruct (JSON.parse s) as [w|]; [|discriminate].
  destruct (truthy (field w "classId")) eqn:H1,
           (truthy (field w "sessionId")) eqn:H2,
           (truthy (field w "timestamp")) eqn:H3,
           (truthy (field w "expiresAt")) eqn:H4;
    destruct w; simpl; try discriminate; intros [= <-]; auto.
Qed.

Lemma decode_inr (s e : string) :
  decode s = inr e ->
  e = "Invalid QR code data" \/ e = "Invalid QR code format".
Proof.
  unfold decode. destruct (JSON.parse s) as [w|]; [|intros [= <-]; auto].
  destruct w; try (intros [= <-]; now auto);
  match goal with |- (if ?b then _ else _) = _ -> _ => destruct b end;
  intros [= <-]; auto.
Qed.

Lemma validate_cases (st : Store) (now : Z) (s : string) :
  (exists e, In e validationErrors /\
             validateQRCode st now s = validationFailure e) \/
  (exists v c cd sess, validated st now s v c cd sess /\
             validateQRCode st now s = validationSuccess v c cd).
Proof.
  unfold validateQRCode, validated.
  destruct (decode s) as [v|e] eqn:Hd.
  - destruct (greaterThan now (field v "expiresAt")) eqn:Hx.
    { left. eexists. split; [|reflexivity]. simpl; auto. }
    destruct (toStoreString (field v "classId")) as [c|] eqn:Hc.
    2:{ left. eexists. split; [|reflexivity]. simpl; auto. }
    destruct (getClassById st c) as [cd|] eqn:Hcd.
    2:{ left. eexists. split; [|reflexivity]. simpl; auto. }
    destruct (getActiveQRSession st now c) as [sess|] eqn:Hs.
    2:{ left. eexists. split; [|reflexivity]. simpl; auto 6. }
    right. exists v, c, cd, sess. auto 10.
  - left. exists e. split; [|reflexivity].
    destruct (decode_inr _ _ Hd) as [-> | ->]; simpl; auto.
Qed.

Lemma mark_validation_failure (st : Store) (now : Z) (s m e : string) :
  In e validationErrors ->
  validateQRCode st now s = validationFailure e ->
  markAttendanceWithQR st now s m = (markFailure e, st).
Proof.
  intros He H. unfold markAttendanceWithQR. rewrite H. simpl.
  simpl in He. decompose [or] He; subst; try reflexivity. contradiction.
Qed.

Lemma mark_validated (st : Store) (now : Z) (s m : string) (v : json)
  (c : string) (cd : ClassRecord.t) (sess : QRCodeSession.t) :
  validated st now s v c cd sess ->
  markAttendanceWithQR st now s m =
  if negb (includes m (ClassRecord.enrolledStudents cd))
  then (markFailure "You are not enrolled in this class", st)
  else match todayEntry st now c m with
       | Some _ =>
         (markFailure "Attendance already marked for this class today", st)
       | None =>
         if includes m (QRCodeSession.attendanceMarked sess)
         then (markFailure
                 "You have already marked attendance for this session", st)
         else
           let status := determineStatus now (ClassRecord.schedule cd) in
           (accepted now status,
            appendEntry st (entry now c m status (field v "sessionId")))
       end.
Proof.
  intros (Hd & Hx & Hc & Hcd & Hs).
  destruct (decode_inl _ _ Hd) as (_ & T1 & T2 & _ & _).
  unfold markAttendanceWithQR, validateQRCode.
  rewrite Hd, Hx, Hc, Hcd, Hs. cbn [QRValidationResult.success negb
    QRValidationResult.classId QRValidationResult.sessionId].
  unfold toStoreString in Hc.
  destruct (field v "classId") as [[| | | |u| |]|] eqn:Hf; try discriminate.
  destruct (of_units_nonempty _ _ Hc T1) as (c0 & c1 & ->).
  destruct (field v "sessionId") as [sid|] eqn:Hsid; [|discriminate].
  rewrite T2, Hcd. cbn [negb].
  destruct (includes m (ClassRecord.enrolledStudents cd)); cbn [negb];
    [|reflexivity].
  unfold todayEntry.
  destruct (find _ (getAttendanceByDate st now)); [reflexivity|].
  rewrite Hs.
  destruct (includes m (QRCodeSession.attendanceMarked sess)); reflexivity.
Qed.

End ServiceFacts.
(** ** The session lookup and issuance *)

Section SessionFacts.
Context {P : Platform}.

Lemma dateAfter_throughJSON (d : DateValue) (now : Z) :
  dateAfter (throughJSON d) now = true <->
  throughJSON d = DateNull /\ now < 0.
Proof.
  destruct d as [[t|]|t|]; simpl; rewrite ?Z.ltb_lt;
    split; try tauto; try discriminate; intros [H _]; discriminate.
Qed.

Lemma usable_read (now : Z) (c : string) (y : QRCodeSession.t) :
  usable now c (sessionThroughJSON y) = true <->
  QRCodeSession.classId y = c /\ QRCodeSession.isActive y = true /\
  throughJSON (QRCodeSession.expiresAt y) = DateNull /\ now < 0.
Proof.
  unfold usable, sessionThroughJSON. simpl.
  rewrite !andb_true_iff, String.eqb_eq, dateAfter_throughJSON. tauto.
Qed.

Lemma find_map_none {A B : Type} (f : B -> bool) (g : A -> B) (l : list A) :
  (forall y, In y l -> f (g y) = false) -> find f (map g l) = None.
Proof.
  induction l as [|a l IH]; intros H; simpl; [reflexivity|].
  rewrite (H a) by (left; reflexivity). apply IH. intros y Hy. apply H. now right.
Qed.

(** From 1970 on the lookup finds no session, whatever is stored. *)
Lemma getActiveQRSession_from_1970 (st : Store) (now : Z) (c : string) :
  0 <= now -> getActiveQRSession st now c = None.
Proof.
  intros H. unfold getActiveQRSession, getQRSessions.
  destruct window; [|reflexivity].
  apply find_map_none. intros y _.
  destruct (usable now c (sessionThroughJSON y)) eqn:U; [|reflexivity].
  apply usable_read in U. lia.
Qed.

(** On the server there is no session to find. *)
Lemma getActiveQRSession_server (st : Store) (now : Z) (c : string) :
  window = false -> getActiveQRSession st now c = None.
Proof.
  intros W. unfold getActiveQRSession, getQRSessions. now rewrite W.
Qed.

(** What the lookup finds was read from the storage of a browser: a
    stored session of the class, active, whose expiry was an Invalid
    Date, at an instant before 1970. *)
Lemma getActiveQRSession_Some (st : Store) (now : Z) (c : string)
  (x : QRCodeSession.t) :
  getActiveQRSession st now c = Some x ->
  window = true /\ now < 0 /\
  exists y, In y (qrSessions st) /\ x = sessionThroughJSON y /\
            QRCodeSession.classId y = c /\ QRCodeSession.isActive y = true /\
            throughJSON (QRCodeSession.expiresAt y) = DateNull.
Proof.
  unfold getActiveQRSession, getQRSessions.
  destruct window; [|discriminate].
  intros H. apply find_some in H. destruct H as [Hin U].
  apply in_map_iff in Hin. destruct Hin as (y & <- & Hy).
  apply usable_read in U. destruct U as (U1 & U2 & U3 & U4).
  split; [reflexivity|]. split; [exact U4|]. exists y. auto.
Qed.

(** [deactivateQRSession] answers whether the class has a usable
    session and returns the store it received. *)
Lemma deactivateQRSession_keeps_store (st : Store) (now : Z) (c : string) :
  deactivateQRSession st now c =
  (match getActiveQRSession st now c with Some _ => true | None => false end,
   st).
Proof.
  unfold deactivateQRSession. now destruct (getActiveQRSession st now c).
Qed.

Lemma generateClassQR_success (st : Store) (now : Z) (uuid c : string)
  (cd : ClassRecord.t) (d : Z) (url : string) :
  getClassById st c = Some cd ->
  toDataURL (stringify (issuedPayload now uuid c d)) = Some url ->
  generateClassQR st now uuid c (Some d) =
  ({| QRGenerationResult.success := true;
      QRGenerationResult.qrCodeDataURL := Some url;
      QRGenerationResult.sessionId := Some uuid;
      QRGenerationResult.expiresAt := Some (timeClip (now + d * 60000));
      QRGenerationResult.error := None |},
   if window then appendSession st (issuedSession now c d) else st).
Proof.
  intros Hc Hr. unfold generateClassQR, issuedPayload in *.
  rewrite Hc, Hr. unfold createQRSession, getQRSessions, appendSession,
    issuedSession.
  now destruct window.
Qed.

Lemma timeClip_Some (t : Z) :
  - maxTime <= t <= maxTime -> timeClip t = Some t.
Proof.
  intros H. unfold timeClip.
  rewrite !(proj2 (Z.leb_le _ _)) by lia. reflexivity.
Qed.

Lemma timeClip_None (t : Z) :
  t < - maxTime \/ maxTime < t -> timeClip t = None.
Proof.
  intros H. unfold timeClip.
  destruct (Z.leb_spec (- maxTime) t); [|reflexivity].
  destruct (Z.leb_spec t maxTime); [lia | reflexivity].
Qed.

Lemma timeClip_inv (t e : Z) :
  timeClip t = Some e -> e = t /\ - maxTime <= t <= maxTime.
Proof.
  unfold timeClip.
  destruct (Z.leb_spec (- maxTime) t); [|discriminate].
  destruct (Z.leb_spec t maxTime); [|discriminate].
  intros [= <-]. lia.
Qed.

Lemma durationOrDefault_nonzero (d : Z) : d <> 0 -> durationOrDefault (Some d) = d.
Proof.
  intros H. unfold durationOrDefault.
  destruct (Z.eqb_spec d 0); [contradiction | reflexivity].
Qed.

End SessionFacts.

(** ** The claims *)

Section Claims.
Context {P : Platform}.

Lemma field_toJSON (q : QRCodeData.t) :
  field (toJSON q) "classId" = Some (JStr (units (QRCodeData.classId q))) /\
  field (toJSON q) "sessionId" = Some (JStr (units (QRCodeData.sessionId q))) /\
  field (toJSON q) "timestamp" = Some (JNum (QRCodeData.timestamp q)) /\
  field (toJSON q) "expiresAt" =
  Some (match QRCodeData.expiresAt q with Some e => JNum e | None => JNull end).
Proof. repeat split. Qed.

Lemma truthy_units (s : string) : s <> "" -> truthy (Some (JStr (units s))) = true.
Proof. destruct s; [congruence | reflexivity]. Qed.

Lemma truthy_num (z : Z) : z <> 0 -> truthy (Some (JNum z)) = true.
Proof. intros H. simpl. destruct (Z.eqb_spec z 0); [contradiction | reflexivity]. Qed.

Lemma decode_stringify (q : QRCodeData.t) :
  validPayload q -> decode (stringify q) = inl (toJSON q).
Proof.
  intros (H1 & H2 & H3 & e & He & H4). unfold decode. rewrite parse_stringify.
  destruct (field_toJSON q) as (-> & -> & -> & ->). rewrite He.
  rewrite !truthy_units, !truthy_num by assumption. reflexivity.
Qed.

Lemma asQRCodeData_toJSON (q : QRCodeData.t) :
  validPayload q -> asQRCodeData (toJSON q) = Some q.
Proof.
  intros (_ & _ & _ & e & He & _). unfold asQRCodeData.
  destruct (field_toJSON q) as (-> & -> & -> & ->). rewrite He.
  unfold toStoreString. rewrite !of_units_units.
  destruct q; simpl in *. now subst.
Qed.

Lemma blank_falsy (v : option json) : blank v -> truthy v = false.
Proof. intros [-> | [-> | [-> | [-> | ->]]]]; reflexivity. Qed.

Lemma decode_malformed (s : string) :
  malformed s ->
  exists e, (e = "Invalid QR code data" \/ e = "Invalid QR code format") /\
            decode s = inr e.
Proof.
  unfold malformed, decode.
  destruct (JSON.parse s) as [v|]; [|eauto].
  intros (k & Hk & Hf). apply blank_falsy in Hf.
  destruct v; try (eexists; split; [|reflexivity]; now auto).
  simpl in Hk.
  decompose [or] Hk; subst; try contradiction; rewrite Hf; simpl;
    rewrite ?orb_true_r; eauto.
Qed.

Lemma decode_fields (s : string) (v : json) (k : string) :
  decode s = inl v -> In k requiredFields -> ~ blank (field v k).
Proof.
  intros Hd Hk Hb. apply blank_falsy in Hb.
  destruct (decode_inl _ _ Hd) as (_ & T1 & T2 & T3 & T4).
  simpl in Hk. decompose [or] Hk; subst; try contradiction; congruence.
Qed.

(** C8, as amended.  Encoding a payload none of whose four fields is
    empty or zero and decoding the text gives back exactly that
    payload.  A text that is no JSON, or in which one of the four
    fields is absent, [null], [false], zero or the empty string, is
    refused as malformed, by [decode] and so by [validateQRCode] and
    [markAttendanceWithQR], whatever the store and the instant; and
    only such a text is: what [decode] accepts has the four fields,
    none of them blank, of whatever type. *)
Theorem token_roundtrip :
  (forall q, validPayload q ->
     decode (stringify q) = inl (toJSON q) /\ asQRCodeData (toJSON q) = Some q)
  /\
  (forall s, malformed s ->
     exists e, (e = "Invalid QR code data" \/ e = "Invalid QR code format") /\
       decode s = inr e /\
       forall st now, validateQRCode st now s = validationFailure e /\
         forall m, markAttendanceWithQR st now s m = (markFailure e, st))
  /\
  (forall s v, decode s = inl v ->
     JSON.parse s = Some v /\
     forall k, In k requiredFields -> ~ blank (field v k)).
Proof.
  split; [|split].
  - intros q H. split; [now apply decode_stringify | now apply asQRCodeData_toJSON].
  - intros s H. destruct (decode_malformed s H) as (e & He & Hd).
    exists e. repeat split; trivial.
    + unfold validateQRCode. now rewrite Hd.
    + intros m. apply mark_validation_failure.
      * destruct He as [-> | ->]; simpl; auto.
      * unfold validateQRCode. now rewrite Hd.
  - intros s v Hd. split; [now apply decode_inl|].
    intros k Hk. now apply decode_fields with s.
Qed.

(** C2.  A call that rejects returns the store it received; a call that
    accepts returns it with one entry appended to the ledger, for the
    student and the instant of the call, and nothing else changed. *)
Theorem reject_leaves_store (st : Store) (now : Z) (s m : string) :
  let (r, st') := markAttendanceWithQR st now s m in
  if MarkResult.success r
  then exists e, st' = appendEntry st e /\
                 AttendanceRecord.studentId e = m /\
                 AttendanceRecord.date e = now
  else st' = st.
Proof.
  destruct (validate_cases st now s)
    as [(e & He & Hv) | (v & c & cd & sess & Hv & _)].
  - now rewrite (mark_validation_failure st now s m e He Hv).
  - rewrite (mark_validated st now s m v c cd sess Hv).
    destruct (includes m (ClassRecord.enrolledStudents cd)); simpl; trivial.
    destruct (todayEntry st now c m); simpl; trivial.
    destruct (includes m (QRCodeSession.attendanceMarked sess)); simpl; trivial.
    eexists. repeat split.
Qed.

(** C6, as amended.  The session check is part of validation and comes
    before the enrolment check: for a token that decodes, is not
    expired and names an existing class, a student who is not enrolled
    is answered that the session is not active when the class has no
    usable session, and that they are not enrolled when it has one. *)
Theorem not_enrolled_after_session_check (st : Store) (now : Z) (s m : string)
  (v : json) (c : string) (cd : ClassRecord.t)
  (Hdec : decode s = inl v)
  (Hexp : greaterThan now (field v "expiresAt") = false)
  (Hc : toStoreString (field v "classId") = Some c)
  (Hcd : getClassById st c = Some cd)
  (Hm : includes m (ClassRecord.enrolledStudents cd) = false) :
  markAttendanceWithQR st now s m =
  match getActiveQRSession st now c with
  | None => (markFailure sessionNotActive, st)
  | Some _ => (markFailure notEnrolled, st)
  end.
Proof.
  destruct (getActiveQRSession st now c) as [sess|] eqn:Hs.
  - rewrite (mark_validated st now s m v c cd sess) by (repeat split; trivial).
    now rewrite Hm.
  - apply mark_validation_failure; [simpl; auto 6|].
    unfold validateQRCode. now rewrite Hdec, Hexp, Hc, Hcd, Hs.
Qed.

Lemma POST_success (st : Store) (now : Z) (uuid c : string)
  (cd : ClassRecord.t) (d : Z) (url : string) :
  c <> "" ->
  getClassById st c = Some cd ->
  toDataURL (stringify (issuedPayload now uuid c d)) = Some url ->
  POST st now uuid c (Some d) =
  (if d =? 0 then POST st now uuid c (Some 30)
   else
     (Ok {| QRGenerationResult.success := true;
            QRGenerationResult.qrCodeDataURL := Some url;
            QRGenerationResult.sessionId := Some uuid;
            QRGenerationResult.expiresAt := Some (timeClip (now + d * 60000));
            QRGenerationResult.error := None |}, st)).
Proof.
  intros Hne Hc Hr. destruct (Z.eqb_spec d 0) as [->|Hd]; [reflexivity|].
  unfold POST. destruct c as [|a c']; [congruence|].
  rewrite Hc, (durationOrDefault_nonzero d Hd).
  now rewrite (@generateClassQR_success (server P) st now uuid (String a c')
                 cd d url Hc Hr).
Qed.

(** C10, as amended.  For an existing class and a payload the renderer
    accepts, [generateClassQR] succeeds for every duration, zero and
    negative included.  In a browser it appends one session, on the
    server it stores nothing.  The expiry is the instant of issuance
    plus that many minutes when that instant is within the range of
    Date, so that with a negative duration it lies before the issuance;
    beyond the range it is an Invalid Date.  The route turns a missing
    or zero duration into 30, passes any other one on, negative ones
    included, and leaves the store as it is. *)
Theorem issuance_accepts_any_duration (st : Store) (now : Z) (uuid c : string)
  (cd : ClassRecord.t) (d : Z) (url : string)
  (Hc : getClassById st c = Some cd)
  (Hr : toDataURL (stringify (issuedPayload now uuid c d)) = Some url) :
  let r := {| QRGenerationResult.success := true;
              QRGenerationResult.qrCodeDataURL := Some url;
              QRGenerationResult.sessionId := Some uuid;
              QRGenerationResult.expiresAt := Some (timeClip (now + d * 60000));
              QRGenerationResult.error := None |} in
  generateClassQR st now uuid c (Some d)
  = (r, if window then appendSession st (issuedSession now c d) else st) /\
  QRCodeSession.expiresAt (issuedSession now c d)
  = DateObject (timeClip (now + d * 60000)) /\
  (- maxTime <= now + d * 60000 <= maxTime ->
     timeClip (now + d * 60000) = Some (now + d * 60000)) /\
  (now + d * 60000 < - maxTime \/ maxTime < now + d * 60000 ->
     timeClip (now + d * 60000) = None) /\
  (d < 0 -> now + d * 60000 < now /\ durationOrDefault (Some d) = d) /\
  (c <> "" -> d <> 0 -> POST st now uuid c (Some d) = (Ok r, st)) /\
  generateClassQR st now uuid c None = generateClassQR st now uuid c (Some 30) /\
  durationOrDefault None = 30 /\
  durationOrDefault (Some 0) = 30 /\
  POST st now uuid c None = POST st now uuid c (Some 30) /\
  POST st now uuid c (Some 0) = POST st now uuid c (Some 30).
Proof.
  intros r.
  split; [now apply generateClassQR_success with cd|].
  split; [reflexivity|].
  split; [apply timeClip_Some|]. split; [apply timeClip_None|].
  split.
  - intros Hd. split; [lia|]. apply durationOrDefault_nonzero. lia.
  - repeat split. intros Hne Hd.
    rewrite (POST_success st now uuid c cd d url Hne Hc Hr).
    destruct (Z.eqb_spec d 0); [contradiction | reflexivity].
Qed.




Lemma greaterThan_num (now z : Z) :
  now <= z -> greaterThan now (Some (JNum z)) = false.
Proof. intros H. simpl. destruct (Z.ltb_spec z now); [lia | reflexivity]. Qed.




Lemma mark_success_inv (st : Store) (now : Z) (s m : string)
  (r : MarkResult.t) (st' : Store) :
  markAttendanceWithQR st now s m = (r, st') ->
  MarkResult.success r = true ->
  exists v c cd sess,
    validated st now s v c cd sess /\
    includes m (ClassRecord.enrolledStudents cd) = true /\
    todayEntry st now c m = None /\
    includes m (QRCodeSession.attendanceMarked sess) = false /\
    r = accepted now (determineStatus now (ClassRecord.schedule cd)) /\
    st' = appendEntry st
            (entry now c m (determineStatus now (ClassRecord.schedule cd))
               (field v "sessionId")).
Proof.
  intros H Hs.
  destruct (validate_cases st now s)
    as [(e & He & Hv) | (v & c & cd & sess & Hv & _)].
  - rewrite (mark_validation_failure st now s m e He Hv) in H.
    injection H as <- <-. discriminate.
  - rewrite (mark_validated st now s m v c cd sess Hv) in H.
    exists v, c, cd, sess.
    destruct (includes m (ClassRecord.enrolledStudents cd)); simpl in H;
      [|injection H as <- <-; discriminate].
    destruct (todayEntry st now c m);
      [injection H as <- <-; discriminate|].
    destruct (includes m (QRCodeSession.attendanceMarked sess));
      [injection H as <- <-; discriminate|].
    injection H as <- <-. split; [exact Hv|]. repeat split.
Qed.

Lemma validated_tokenClassId (st : Store) (now : Z) (s : string) (v : json)
  (c : string) (cd : ClassRecord.t) (sess : QRCodeSession.t) :
  validated st now s v c cd sess -> tokenClassId s = Some c.
Proof. intros (Hd & _ & Hc & _). unfold tokenClassId. now rewrite Hd. Qed.

Lemma determineStatus_present_or_late (now : Z) (sch : list ScheduleEntry) :
  determineStatus now sch = present \/ determineStatus now sch = late.
Proof.
  unfold determineStatus.
  destruct (find _ sch) as [x|]; auto.
  destruct (lateThreshold now (startTime x)) as [th|]; auto.
  destruct (th <? now); auto.
Qed.

Lemma now_of_msOfDay (now : Z) :
  now = toDateString now * msPerDay + timezoneOffset * 60000 + msOfDay now.
Proof.
  unfold toDateString, msOfDay, msPerDay.
  pose proof (Z.div_mod (now - timezoneOffset * 60000) 86400000). lia.
Qed.

Lemma msOfDay_range (now : Z) : 0 <= msOfDay now < msPerDay.
Proof. unfold msOfDay, msPerDay. apply Z.mod_pos_bound. lia. Qed.

Lemma digit_cases (k : Z) :
  0 <= k < 10 ->
  (N_of_ascii (digit k) =? 58)%N = false /\
  digit_of (digit k) = Some (match k with
                             | 0 => D0 | 1 => D1 | 2 => D2 | 3 => D3 | 4 => D4
                             | 5 => D5 | 6 => D6 | 7 => D7 | 8 => D8 | _ => D9
                             end).
Proof.
  intros H.
  assert (E : k = 0 \/ k = 1 \/ k = 2 \/ k = 3 \/ k = 4 \/ k = 5 \/ k = 6 \/
              k = 7 \/ k = 8 \/ k = 9) by lia.
  decompose [or] E; subst; split; reflexivity.
Qed.

Lemma digitsValue_twoDigits (n : Z) :
  0 <= n < 100 -> digitsValue (twoDigits n) = Some n.
Proof.
  intros H.
  assert (E : forallb (fun k => match digitsValue (twoDigits (Z.of_nat k)) with
                                | Some v => v =? Z.of_nat k
                                | None => false
                                end) (seq 0 100) = true)
    by (vm_compute; reflexivity).
  rewrite forallb_forall in E.
  specialize (E (Z.to_nat n)). rewrite Z2Nat.id in E by lia.
  destruct (digitsValue (twoDigits n)) as [v|].
  - f_equal. apply Z.eqb_eq, E, in_seq. lia.
  - discriminate E. apply in_seq. lia.
Qed.

Lemma split_colon_hhmm (h m : Z) :
  0 <= h < 100 -> 0 <= m < 100 ->
  split_colon (hhmm h m) "" = [twoDigits h; twoDigits m].
Proof.
  intros Hh Hm. unfold hhmm, twoDigits.
  assert (D : forall n, 0 <= n < 100 ->
                (N_of_ascii (digit (n / 10)) =? 58)%N = false /\
                (N_of_ascii (digit (n mod 10)) =? 58)%N = false).
  { intros n Hn. split; apply digit_cases.
    - split; [apply Z.div_pos; lia | apply Z.div_lt_upper_bound; lia].
    - apply Z.mod_pos_bound. lia. }
  destruct (D h Hh) as [H1 H2]. destruct (D m Hm) as [M1 M2].
  cbn -[digit Z.div Z.modulo]. rewrite H1, H2.
  cbn -[digit Z.div Z.modulo]. rewrite M1, M2. reflexivity.
Qed.

Lemma setHours_hhmm (now h m : Z) :
  0 <= h < 100 -> 0 <= m < 100 ->
  setHours now (hhmm h m) = timeClip (startInstant now h m).
Proof.
  intros Hh Hm. unfold setHours.
  rewrite (split_colon_hhmm h m Hh Hm).
  rewrite !digitsValue_twoDigits by assumption.
  f_equal. unfold startInstant. pose proof (now_of_msOfDay now). lia.
Qed.

Lemma lateThreshold_hhmm (now h m : Z) :
  - maxTime + msPerDay <= now <= maxTime - 2 * msPerDay ->
  0 <= h < 24 -> 0 <= m < 60 ->
  lateThreshold now (hhmm h m) = Some (startInstant now h m + 15 * 60000).
Proof.
  intros Hr Hh Hm. unfold lateThreshold.
  rewrite setHours_hhmm by lia.
  pose proof (msOfDay_range now) as R.
  unfold maxTime, msPerDay, startInstant in *.
  rewrite timeClip_Some by (unfold maxTime; lia).
  apply timeClip_Some. unfold maxTime. lia.
Qed.

Lemma find_app_first {T : Type} (f : T -> bool) (l1 l2 : list T) (x : T) :
  (forall y, In y l1 -> f y = false) -> f x = true ->
  find f (l1 ++ x :: l2) = Some x.
Proof.
  intros H Hx. induction l1 as [|a l1 IH]; simpl; [now rewrite Hx|].
  rewrite (H a) by (left; reflexivity). apply IH. intros y Hy. apply H. now right.
Qed.

Lemma determineStatus_none (now : Z) (sch : list ScheduleEntry) :
  (forall x, In x sch -> day x <> weekdayLong now) ->
  determineStatus now sch = present.
Proof.
  intros H. unfold determineStatus.
  destruct (find _ sch) as [x|] eqn:F; [|reflexivity].
  apply find_some in F. destruct F as [Hin E].
  apply String.eqb_eq in E. now apply H in Hin.
Qed.

Lemma determineStatus_first (now : Z) (sch l1 l2 : list ScheduleEntry)
  (x : ScheduleEntry) (h mi : Z) :
  - maxTime + msPerDay <= now <= maxTime - 2 * msPerDay ->
  sch = (l1 ++ x :: l2)%list ->
  (forall y, In y l1 -> day y <> weekdayLong now) ->
  day x = weekdayLong now ->
  startTime x = hhmm h mi -> 0 <= h < 24 -> 0 <= mi < 60 ->
  determineStatus now sch
  = if startInstant now h mi + 15 * 60000 <? now then late else present.
Proof.
  intros Hr -> Hl Hx Ht Hh Hm. unfold determineStatus.
  rewrite find_app_first.
  - now rewrite Ht, (lateThreshold_hhmm now h mi Hr Hh Hm).
  - intros y Hy. apply String.eqb_neq. now apply Hl.
  - now apply String.eqb_eq.
Qed.

(** C7, as amended.  The entry of an accepted call is present or late.
    It is present when no entry of the class schedule is for the
    weekday of the call.  Otherwise the first entry for that weekday
    decides: when it starts at HH:MM, the entry is late exactly when the
    instant of the call is more than 15 minutes past HH:MM local time
    of that day.  So with a first entry at 09:00 the entry is present
    at 09:14:59 and at 09:15:00, and late at 09:15:01. *)
Theorem status_of_accepted (st : Store) (now : Z) (s m : string)
  (r : MarkResult.t) (st' : Store)
  (H : markAttendanceWithQR st now s m = (r, st'))
  (Hs : MarkResult.success r = true)
  (Hr : - maxTime + msPerDay <= now <= maxTime - 2 * msPerDay) :
  exists c cd e,
    tokenClassId s = Some c /\ getClassById st c = Some cd /\
    st' = appendEntry st e /\
    (AttendanceRecord.status e = present \/ AttendanceRecord.status e = late) /\
    ((forall x, In x (ClassRecord.schedule cd) -> day x <> weekdayLong now) ->
     AttendanceRecord.status e = present) /\
    (forall l1 x l2,
       ClassRecord.schedule cd = (l1 ++ x :: l2)%list ->
       (forall y, In y l1 -> day y <> weekdayLong now) ->
       day x = weekdayLong now ->
       (forall h mi, startTime x = hhmm h mi -> 0 <= h < 24 -> 0 <= mi < 60 ->
          (AttendanceRecord.status e = late
           <-> startInstant now h mi + 15 * 60000 < now) /\
          (AttendanceRecord.status e = present
           <-> now <= startInstant now h mi + 15 * 60000)) /\
       (startTime x = "09:00" ->
          (msOfDay now = 33299000 -> AttendanceRecord.status e = present) /\
          (msOfDay now = 33300000 -> AttendanceRecord.status e = present) /\
          (msOfDay now = 33301000 -> AttendanceRecord.status e = late))).
Proof.
  destruct (mark_success_inv _ _ _ _ _ _ H Hs)
    as (v & c & cd & sess & Hv & _ & _ & _ & _ & ->).
  exists c, cd. eexists.
  split; [now apply validated_tokenClassId with st now v cd sess|].
  split; [apply Hv|]. split; [reflexivity|].
  cbn [entry AttendanceRecord.status].
  split; [apply determineStatus_present_or_late|].
  split; [apply determineStatus_none|].
  intros l1 x l2 Hsch Hl Hx.
  assert (G : forall h mi, startTime x = hhmm h mi -> 0 <= h < 24 ->
                0 <= mi < 60 ->
                (determineStatus now (ClassRecord.schedule cd) = late
                 <-> startInstant now h mi + 15 * 60000 < now) /\
                (determineStatus now (ClassRecord.schedule cd) = present
                 <-> now <= startInstant now h mi + 15 * 60000)).
  { intros h mi Ht Hh Hm.
    rewrite (determineStatus_first now _ l1 l2 x h mi Hr Hsch Hl Hx Ht Hh Hm).
    destruct (Z.ltb_spec (startInstant now h mi + 15 * 60000) now);
      split; split; intros; try reflexivity; try discriminate; lia. }
  split; [exact G|].
  intros H9. destruct (G 9 0 H9 ltac:(lia) ltac:(lia)) as [GL GP].
  unfold startInstant in GL, GP.
  repeat split; intros E; [apply GP | apply GP | apply GL]; lia.
Qed.

Lemma find_filter_none {A : Type} (f g : A -> bool) (l : list A) :
  find f (filter g l) = None <-> filter (fun x => g x && f x) l = [].
Proof.
  induction l as [|a l IH]; simpl; [tauto|].
  destruct (g a); simpl; [|exact IH].
  destruct (f a); [split; discriminate | exact IH].
Qed.

Lemma todayEntry_None (st : Store) (now : Z) (c m : string) :
  todayEntry st now c m = None <-> entriesFor st c m (toDateString now) = [].
Proof. unfold todayEntry, getAttendanceByDate. apply find_filter_none. Qed.

Lemma entriesFor_appendEntry (st : Store) (e : AttendanceRecord.t)
  (c m : string) (d : Z) :
  entriesFor (appendEntry st e) c m d =
  (entriesFor st c m d ++ if entryMatches c m d e then [e] else [])%list.
Proof.
  unfold entriesFor, appendEntry. cbn [attendanceRecords].
  rewrite filter_app. reflexivity.
Qed.

Lemma entryMatches_entry (now : Z) (c m c' m' : string) (d : Z)
  (status : AttendanceStatus) (sid : option json) :
  entryMatches c' m' d (entry now c m status sid) = true ->
  d = toDateString now /\ c' = c /\ m' = m.
Proof.
  unfold entryMatches, entry. cbn.
  rewrite !andb_true_iff, Z.eqb_eq, !String.eqb_eq. intuition.
Qed.

Lemma mark_cases (st : Store) (now : Z) (s m : string) :
  (exists e, markAttendanceWithQR st now s m = (markFailure e, st)) \/
  (exists c status sid,
     tokenClassId s = Some c /\ todayEntry st now c m = None /\
     markAttendanceWithQR st now s m =
     (accepted now status, appendEntry st (entry now c m status sid))).
Proof.
  destruct (validate_cases st now s)
    as [(e & He & Hv) | (v & c & cd & sess & Hv & _)].
  - left. exists e. now apply mark_validation_failure.
  - rewrite (mark_validated st now s m v c cd sess Hv).
    destruct (includes m (ClassRecord.enrolledStudents cd)); simpl;
      [|left; eauto].
    destruct (todayEntry st now c m) eqn:Ht; [left; eauto|].
    destruct (includes m (QRCodeSession.attendanceMarked sess));
      [left; eauto|].
    right. exists c. eexists. eexists.
    split; [now apply validated_tokenClassId with st now v cd sess|].
    split; [exact Ht | reflexivity].
Qed.

Lemma mark_dailyUnique (st : Store) (now : Z) (s m : string) :
  dailyUnique st -> dailyUnique (snd (markAttendanceWithQR st now s m)).
Proof.
  intros U.
  destruct (mark_cases st now s m)
    as [(e & ->) | (c & status & sid & _ & Ht & ->)]; [exact U|].
  cbn [snd]. intros c' m' d. rewrite entriesFor_appendEntry, length_app.
  destruct (entryMatches c' m' d (entry now c m status sid)) eqn:E.
  - apply entryMatches_entry in E. destruct E as (-> & -> & ->).
    apply todayEntry_None in Ht. rewrite Ht. simpl. lia.
  - specialize (U c' m' d). simpl. lia.
Qed.

Lemma run_dailyUnique (calls : list (Z * string * string)) (st : Store) :
  dailyUnique st -> dailyUnique (snd (run st calls)).
Proof.
  revert st. induction calls as [|[[now s] m] calls IH]; intros st U;
    [exact U|].
  simpl. pose proof (mark_dailyUnique st now s m U) as U1.
  destruct (markAttendanceWithQR st now s m) as [r st1].
  specialize (IH st1 U1). destruct (run st1 calls) as [rs st2]. exact IH.
Qed.

Lemma mark_with_entry_today (st : Store) (now : Z) (s m c : string) :
  tokenClassId s = Some c ->
  entriesFor st c m (toDateString now) <> [] ->
  exists e,
    markAttendanceWithQR st now s m = (markFailure e, st) /\
    (forall e', validateQRCode st now s = validationFailure e' -> e = e') /\
    (forall v cd sess, validated st now s v c cd sess ->
       e = if includes m (ClassRecord.enrolledStudents cd)
           then alreadyMarkedToday else notEnrolled).
Proof.
  intros Hc He.
  assert (Ht : exists x, todayEntry st now c m = Some x).
  { destruct (todayEntry st now c m) as [x|] eqn:E; [eauto|].
    apply todayEntry_None in E. contradiction. }
  destruct Ht as (x & Ht).
  destruct (validate_cases st now s)
    as [(e & Hin & Hv) | (v & c' & cd & sess & Hv & Hr)].
  - exists e. split; [now apply mark_validation_failure|]. split.
    + intros e' He'. rewrite Hv in He'. now injection He'.
    + intros v cd sess (Hd & Hx & Hc' & Hcd & Hs).
      unfold validateQRCode in Hv. rewrite Hd, Hx, Hc', Hcd, Hs in Hv.
      discriminate.
  - pose proof (validated_tokenClassId _ _ _ _ _ _ _ Hv) as Hc'.
    rewrite Hc in Hc'. injection Hc' as <-.
    rewrite (mark_validated st now s m v c cd sess Hv), Ht.
    exists (if includes m (ClassRecord.enrolledStudents cd)
            then alreadyMarkedToday else notEnrolled).
    split; [now destruct (includes m (ClassRecord.enrolledStudents cd))|].
    split.
    + intros e' He'. rewrite Hr in He'. discriminate.
    + intros v' cd' sess' (_ & _ & _ & Hcd' & _).
      destruct Hv as (_ & _ & _ & Hcd & _).
      rewrite Hcd in Hcd'. now injection Hcd' as <-.
Qed.

(** C3, as amended.  Every sequence of calls keeps the ledger at no
    more than one entry for a class, a student and a calendar day.  A
    call for a student who has an entry today for the class the token
    names returns a failure and the store it received.  The failure is
    that of the earliest step that fails: the one of validation when
    the token does not pass it, which includes that no session is found
    for the class; that the student is not enrolled, when they are not;
    and otherwise the one of the ledger check, that attendance is
    already marked today. *)
Theorem daily_uniqueness :
  (forall st calls, dailyUnique st -> dailyUnique (snd (run st calls))) /\
  (forall st now s m c,
     tokenClassId s = Some c ->
     entriesFor st c m (toDateString now) <> [] ->
     exists e,
       markAttendanceWithQR st now s m = (markFailure e, st) /\
       (forall e', validateQRCode st now s = validationFailure e' -> e = e') /\
       (forall v cd sess, validated st now s v c cd sess ->
          e = if includes m (ClassRecord.enrolledStudents cd)
              then alreadyMarkedToday else notEnrolled)).
Proof.
  split.
  - intros st calls. apply run_dailyUnique.
  - apply mark_with_entry_today.
Qed.

Lemma attempt_rejected (st : Store) (now : Z) (s m c : string)
  (cd : ClassRecord.t) :
  getClassById st c = Some cd ->
  includes m (ClassRecord.enrolledStudents cd) = true ->
  entriesFor st c m (toDateString now) <> [] ->
  tokenClassId s = Some c ->
  markAttendanceWithQR st now s m = (rejection st (now, s, m), st).
Proof.
  intros Hcd Hm He Hc. unfold rejection.
  destruct (validate_cases st now s)
    as [(e & Hin & Hv) | (v & c' & cd' & sess & Hv & Hr)].
  - rewrite Hv. now apply mark_validation_failure.
  - pose proof (validated_tokenClassId _ _ _ _ _ _ _ Hv) as Hc'.
    rewrite Hc in Hc'. injection Hc' as <-.
    assert (cd' = cd) by (destruct Hv as (_ & _ & _ & Hcd' & _); congruence).
    subst cd'. rewrite Hr, (mark_validated st now s m v c cd sess Hv), Hm.
    destruct (todayEntry st now c m) eqn:Ht; [reflexivity|].
    apply todayEntry_None in Ht. contradiction.
Qed.

Lemma run_rejected (st : Store) (now : Z) (m c : string) (cd : ClassRecord.t)
  (calls : list (Z * string * string)) :
  getClassById st c = Some cd ->
  includes m (ClassRecord.enrolledStudents cd) = true ->
  entriesFor st c m (toDateString now) <> [] ->
  Forall (sameDayAttempt now m c) calls ->
  run st calls = (map (rejection st) calls, st).
Proof.
  intros Hcd Hm He. induction 1 as [|[[now' s'] m'] calls Hx _ IH];
    [reflexivity|].
  destruct Hx as (Hd & -> & Hc). simpl run.
  rewrite (attempt_rejected st now' s' m c cd Hcd Hm) by (rewrite ?Hd; trivial).
  now rewrite IH.
Qed.

Lemma filter_success_rejections (st : Store)
  (calls : list (Z * string * string)) :
  filter MarkResult.success (map (rejection st) calls) = [].
Proof.
  induction calls as [|[[now s] m] calls IH]; [reflexivity|exact IH].
Qed.

Lemma sameDayAttempt_day (now now' : Z) (m c : string)
  (calls : list (Z * string * string)) :
  toDateString now' = toDateString now ->
  Forall (sameDayAttempt now m c) calls ->
  Forall (sameDayAttempt now' m c) calls.
Proof.
  intros Hd. apply Forall_impl. intros [[t s'] m'] (H1 & H2 & H3).
  repeat split; trivial. congruence.
Qed.

Lemma run_after_accept (st : Store) (now : Z) (s m c : string)
  (r : MarkResult.t) (st' : Store) (calls : list (Z * string * string)) :
  markAttendanceWithQR st now s m = (r, st') ->
  MarkResult.success r = true ->
  tokenClassId s = Some c ->
  Forall (sameDayAttempt now m c) calls ->
  run st' calls = (map (rejection st') calls, st').
Proof.
  intros H Hs Hc Hcalls.
  destruct (mark_success_inv _ _ _ _ _ _ H Hs)
    as (v & c' & cd & sess & Hv & Hm & _ & _ & -> & ->).
  pose proof (validated_tokenClassId _ _ _ _ _ _ _ Hv) as Hc'.
  rewrite Hc in Hc'. injection Hc' as <-.
  set (e := entry now c m (determineStatus now (ClassRecord.schedule cd))
              (field v "sessionId")).
  apply run_rejected with now m c cd; trivial.
  - destruct Hv as (_ & _ & _ & Hcd & _). exact Hcd.
  - rewrite entriesFor_appendEntry.
    assert (E : entryMatches c m (toDateString now) e = true).
    { unfold entryMatches, e, entry. cbn.
      now rewrite Z.eqb_refl, !String.eqb_refl. }
    rewrite E. intros F. apply app_eq_nil in F. destruct F; discriminate.
Qed.

Lemma run_at_most_one (now : Z) (m c : string)
  (calls : list (Z * string * string)) (st : Store) :
  Forall (sameDayAttempt now m c) calls ->
  (List.length (filter MarkResult.success (fst (run st calls))) <= 1)%nat.
Proof.
  intros Hcalls. revert st.
  induction Hcalls as [|[[now' s'] m'] calls Hx Hcalls IH]; intros st;
    [simpl; lia|].
  destruct Hx as (Hd & -> & Hc). simpl run.
  destruct (markAttendanceWithQR st now' s' m) as [r st1] eqn:E.
  destruct (MarkResult.success r) eqn:Hs.
  - rewrite (run_after_accept st now' s' m c r st1 calls E Hs Hc)
      by now apply sameDayAttempt_day with now.
    cbn [fst filter]. rewrite Hs, filter_success_rejections. simpl. lia.
  - specialize (IH st1). destruct (run st1 calls) as [rs st2].
    cbn [fst filter] in *. now rewrite Hs.
Qed.

(** C1, as amended.  Of the calls for student M with tokens that name
    class C within one calendar day at most one is accepted.  After
    one was accepted, and whenever the ledger holds an entry of that
    day for C and M, who is enrolled, every such call is rejected and
    leaves the store as it is: with the failure of validation when the
    token does not pass it, and otherwise with the failure of the
    ledger check, which comes before the look at the session's list. *)
Theorem one_accept_per_day (st : Store) (now : Z) (m c : string)
  (calls : list (Z * string * string))
  (Hcalls : Forall (sameDayAttempt now m c) calls) :
  (List.length (filter MarkResult.success (fst (run st calls))) <= 1)%nat /\
  (forall cd, getClassById st c = Some cd ->
     includes m (ClassRecord.enrolledStudents cd) = true ->
     entriesFor st c m (toDateString now) <> [] ->
     run st calls = (map (rejection st) calls, st)) /\
  (forall st0 s r,
     markAttendanceWithQR st0 now s m = (r, st) ->
     MarkResult.success r = true ->
     tokenClassId s = Some c ->
     run st calls = (map (rejection st) calls, st) /\
     List.length (filter MarkResult.success (r :: fst (run st calls))) = 1%nat).
Proof.
  split; [now apply run_at_most_one with now m c|]. split.
  - intros cd Hcd Hm He. now apply run_rejected with now m c cd.
  - intros st0 s r H Hs Hc.
    pose proof (run_after_accept st0 now s m c r st calls H Hs Hc Hcalls) as R.
    split; [exact R|].
    rewrite R. cbn [fst filter]. rewrite Hs.
    now rewrite filter_success_rejections.
Qed.

End Claims.

Lemma validPayload1 : validPayload payload1.
Proof.
  repeat split; try discriminate.
  eexists. split; [reflexivity | discriminate].
Qed.


Lemma token_roundtrip_witness :
  @decode utc token1 = inl (toJSON payload1) /\
  @asQRCodeData (toJSON payload1) = Some payload1 /\
  @decode utc "{}" = inr "Invalid QR code format".
Proof.
  destruct (@token_roundtrip utc) as (H1 & H2 & _).
  destruct (H1 payload1 validPayload1) as [Ha Hb].
  split; [exact Ha | split; [exact Hb |]].
  destruct (H2 "{}") as (e & _ & He & _).
  - exists "classId". split; [simpl; auto | left; reflexivity].
  - rewrite He. vm_compute in He. congruence.
Defined.

(** C8, the claim as stated fails: the text cannot be parsed into the
    four fields of a payload, its class id being a number and its times
    strings, and decoding does not refuse it; validation goes on and
    finds no class. *)
Lemma wrong_types_counterexample :
  exists v,
    @decode utc badTypes = inl v /\
    field v "classId" = Some (JNum 5) /\
    field v "sessionId" = Some (JBool true) /\
    field v "timestamp" = Some (JStr (units "soon")) /\
    field v "expiresAt" = Some (JStr (units "later")) /\
    asQRCodeData v = None /\
    @validateQRCode utc storeDefault (hm 9 0 0) badTypes
    = validationFailure "Class not found".
Proof.
  eexists. split; [vm_compute; reflexivity|].
  repeat split; vm_compute; reflexivity.
Qed.

(** The token of class1 shown to student 9, who is not enrolled, while
    the class has no session. *)
Lemma not_enrolled_after_session_check_witness :
  @markAttendanceWithQR utc store0 (hm 9 0 0) token1 "9" =
  (markFailure sessionNotActive, store0).
Proof.
  apply (@not_enrolled_after_session_check utc store0 (hm 9 0 0) token1 "9"
           (toJSON payload1) "class1"
           class1);
    vm_compute; reflexivity.
Defined.

(** C6, the claim as stated fails: with no session for the class, the
    student who is not enrolled is not told so. *)
Lemma not_enrolled_counterexample :
  exists v cd,
    @decode utc token1 = inl v /\
    @greaterThan utc (hm 9 0 0) (field v "expiresAt") = false /\
    toStoreString (field v "classId") = Some "class1" /\
    getClassById store0 "class1" = Some cd /\
    includes "9" (ClassRecord.enrolledStudents cd) = false /\
    @getActiveQRSession utc store0 (hm 9 0 0) "class1" = None /\
    MarkResult.message (fst (@markAttendanceWithQR utc store0 (hm 9 0 0) token1 "9"))
    <> notEnrolled.
Proof.
  eexists. eexists. repeat split; try (vm_compute; reflexivity).
  vm_compute. discriminate.
Qed.

(** C4.  From 1970 on [getActiveQRSession] returns no session, whatever
    is stored: the expiry it reads back from the storage is the ISO
    text of the Date, and a text is not greater than a Date.  So at the
    session of class1 that was issued in a browser on Monday at 08:55
    for 30 minutes, which is stored, active and expires at 09:25, the
    lookup at 09:00 finds nothing; on the server there is no stored
    session to look at.  After the second issuance, of 09:00, neither
    of the two sessions is found at 09:05, where the claim has the
    later one returned. *)
Theorem getActiveQRSession_misses_live_session :
  (forall (P : Platform) (st : Store) (now : Z) (c : string),
     0 <= now -> @getActiveQRSession P st now c = None) /\
  qrSessions issued1 = [session1] /\
  QRCodeSession.classId session1 = "class1" /\
  QRCodeSession.isActive session1 = true /\
  QRCodeSession.expiresAt session1 = DateObject (Some (hm 9 25 0)) /\
  hm 9 0 0 < hm 9 25 0 /\
  @getQRSessions utc issued1 = [sessionThroughJSON session1] /\
  QRCodeSession.expiresAt (sessionThroughJSON session1)
  = DateString (hm 9 25 0) /\
  @getActiveQRSession utc issued1 (hm 9 0 0) "class1" = None /\
  @getActiveQRSession (server utc) issued1 (hm 9 0 0) "class1" = None /\
  @getQRSessions utc issued2
  = [sessionThroughJSON session1; sessionThroughJSON session2] /\
  @getActiveQRSession utc issued2 (hm 9 5 0) "class1" = None.
Proof.
  split; [intros P st now c; apply getActiveQRSession_from_1970|].
  repeat split; vm_compute; reflexivity.
Qed.

(** C5.  [deactivateQRSession] never changes the store: it sets the
    flag on the object that the lookup returned, which was parsed from
    the storage, and does not write it back.  At the session of class1
    of Monday 08:55, which is stored, active and expires at 09:25, the
    deactivation at 09:00 finds no session and answers [false], and the
    session stays stored as active.  Where the lookup does find a
    session, before 1970 and for the session whose expiry is an Invalid
    Date, the deactivation is answered [true], the store it leaves is
    the one it received, and a second later [getActiveQRCode] still
    returns the session, where the claim has it return none. *)
Theorem deactivateQRSession_not_persisted :
  (forall (P : Platform) (st : Store) (now : Z) (c : string),
     snd (@deactivateQRSession P st now c) = st) /\
  @deactivateQRSession utc issued1 (hm 9 0 0) "class1" = (false, issued1) /\
  qrSessions issued1 = [session1] /\
  QRCodeSession.isActive session1 = true /\
  QRCodeSession.expiresAt session1 = DateObject (Some (hm 9 25 0)) /\
  qrSessions issuedInvalid = [sessionInvalid] /\
  @getActiveQRSession utc issuedInvalid (hm69 9 0 0) "class1"
  = Some (sessionThroughJSON sessionInvalid) /\
  @deactivateQRSession utc issuedInvalid (hm69 9 0 0) "class1"
  = (true, issuedInvalid) /\
  @getActiveQRCode utc
     (snd (@deactivateQRSession utc issuedInvalid (hm69 9 0 0) "class1"))
     (hm69 9 0 1) "class1" = Some (sessionThroughJSON sessionInvalid).
Proof.
  split.
  - intros P st now c. now rewrite deactivateQRSession_keeps_store.
  - repeat split; vm_compute; reflexivity.
Qed.

(** Issuance for class1 in a browser with a duration of minus five
    minutes. *)
Lemma issuance_accepts_any_duration_witness :
  @generateClassQR utc store0 (hm 8 55 0) uuid1 "class1" (Some (-5))
  = ({| QRGenerationResult.success := true;
        QRGenerationResult.qrCodeDataURL :=
          @toDataURL utc (stringify (issuedPayload (hm 8 55 0) uuid1 "class1" (-5)));
        QRGenerationResult.sessionId := Some uuid1;
        QRGenerationResult.expiresAt := Some (Some (hm 8 50 0));
        QRGenerationResult.error := None |},
     appendSession store0 (issuedSession (hm 8 55 0) "class1" (-5))) /\
  QRCodeSession.expiresAt (issuedSession (hm 8 55 0) "class1" (-5))
  = DateObject (Some (hm 8 50 0)) /\
  fst (@POST utc store0 (hm 8 55 0) uuid1 "class1" (Some (-5)))
  = Ok (fst (@generateClassQR utc store0 (hm 8 55 0) uuid1 "class1" (Some (-5)))).
Proof.
  destruct (@issuance_accepts_any_duration utc store0 (hm 8 55 0) uuid1
              "class1" class1 (-5) _ eq_refl eq_refl)
    as (G & _ & _ & _ & _ & Hp & _).
  split; [exact G|]. split; [reflexivity|].
  rewrite Hp by discriminate. rewrite G. reflexivity.
Defined.

(** C10, the claim as stated fails: with a duration that takes the
    expiry beyond the range of Date the session has no expiry instant,
    the token carries [null] for it and is refused as malformed; and
    the route, which runs on the server, answers 200 and stores no
    session. *)
Lemma issuance_counterexample :
  QRGenerationResult.success
    (fst (@generateClassQR utc store0 (hm 8 55 0) uuid1 "class1" (Some tooLong)))
  = true /\
  QRGenerationResult.expiresAt
    (fst (@generateClassQR utc store0 (hm 8 55 0) uuid1 "class1" (Some tooLong)))
  = Some None /\
  map QRCodeSession.expiresAt
    (qrSessions
       (snd (@generateClassQR utc store0 (hm 8 55 0) uuid1 "class1"
               (Some tooLong))))
  = [DateObject None] /\
  @decode utc (stringify (issuedPayload (hm 8 55 0) uuid1 "class1" tooLong))
  = inr "Invalid QR code format" /\
  (exists r, @POST utc store0 (hm 8 55 0) uuid1 "class1" (Some 30)
             = (Ok r, store0) /\
             QRGenerationResult.success r = true) /\
  @generateClassQR (server utc) store0 (hm 8 55 0) uuid1 "class1" (Some 30)
  = (fst (@generateClassQR utc store0 (hm 8 55 0) uuid1 "class1" (Some 30)),
     store0).
Proof.
  repeat split; try (vm_compute; reflexivity).
  eexists. split; vm_compute; reflexivity.
Qed.


Lemma range69 (h m s : Z) :
  0 <= h < 48 -> 0 <= m < 60 -> 0 <= s < 60 ->
  - maxTime + msPerDay <= hm69 h m s <= maxTime - 2 * msPerDay.
Proof. unfold hm69, monday69, maxTime, msPerDay. lia. Qed.

(** Before 1970, in the browser that holds the session without expiry:
    student 4 redeems the token of class1, which starts at 09:00 on
    Monday, at 09:14:59 and is present; at 09:15:01 they would be
    late. *)
Lemma status_of_accepted_witness :
  (exists e,
     snd (@markAttendanceWithQR utc issued69 (hm69 9 14 59) token69 "4")
     = appendEntry issued69 e /\
     AttendanceRecord.status e = present) /\
  (exists e,
     snd (@markAttendanceWithQR utc issued69 (hm69 9 15 1) token69 "4")
     = appendEntry issued69 e /\
     AttendanceRecord.status e = late).
Proof.
  split.
  - destruct (@status_of_accepted utc issued69 (hm69 9 14 59) token69 "4"
                (fst (@markAttendanceWithQR utc issued69 (hm69 9 14 59) token69 "4"))
                (snd (@markAttendanceWithQR utc issued69 (hm69 9 14 59) token69 "4"))
                (surjective_pairing _) eq_refl
                (range69 9 14 59 ltac:(lia) ltac:(lia) ltac:(lia)))
      as (c & cd & e & Hc & Hcd & He & _ & _ & H9).
    exists e. split; [exact He|].
    assert (Ec : c = "class1") by (vm_compute in Hc; congruence).
    subst c. vm_compute in Hcd. injection Hcd as <-.
    destruct (H9 [] {| day := "Monday"; startTime := "09:00";
                       endTime := "10:30" |} _ eq_refl
                (fun y (F : In y []) => match F with end) eq_refl)
      as [_ H0900].
    destruct (H0900 eq_refl) as (Ha & _ & _). apply Ha. reflexivity.
  - destruct (@status_of_accepted utc issued69 (hm69 9 15 1) token69 "4"
                (fst (@markAttendanceWithQR utc issued69 (hm69 9 15 1) token69 "4"))
                (snd (@markAttendanceWithQR utc issued69 (hm69 9 15 1) token69 "4"))
                (surjective_pairing _) eq_refl
                (range69 9 15 1 ltac:(lia) ltac:(lia) ltac:(lia)))
      as (c & cd & e & Hc & Hcd & He & _ & _ & H9).
    exists e. split; [exact He|].
    assert (Ec : c = "class1") by (vm_compute in Hc; congruence).
    subst c. vm_compute in Hcd. injection Hcd as <-.
    destruct (H9 [] {| day := "Monday"; startTime := "09:00";
                       endTime := "10:30" |} _ eq_refl
                (fun y (F : In y []) => match F with end) eq_refl)
      as [_ H0900].
    destruct (H0900 eq_refl) as (_ & _ & Hb). apply Hb. reflexivity.
Defined.

(** C7, the claim as stated fails.  Before 1970, on Monday at 10:00,
    student 2 redeems the token of the class that was created with two
    meetings on Monday: the schedule of the class has an entry for
    Monday whose start, 09:00, is more than 15 minutes past, and the
    accepted entry is present, since the entry for Monday that is
    listed first starts at 15:00. *)
Lemma status_of_accepted_counterexample :
  getClassById issuedTwice (ClassRecord.id classTwice) = Some classTwice /\
  ClassRecord.schedule classTwice = scheduleTwice /\
  @markAttendanceWithQR utc issuedTwice (hm69 10 0 0) (stringify payloadTwice) "2"
  = (accepted (hm69 10 0 0) present,
     appendEntry issuedTwice
       (entry (hm69 10 0 0) (ClassRecord.id classTwice) "2" present
          (Some (JStr (units uuid1))))) /\
  exists x,
    In x (ClassRecord.schedule classTwice) /\
    day x = @weekdayLong utc (hm69 10 0 0) /\
    startTime x = hhmm 9 0 /\
    @startInstant utc (hm69 10 0 0) 9 0 + 15 * 60000 < hm69 10 0 0.
Proof.
  split; [vm_compute; reflexivity|]. split; [reflexivity|].
  split; [vm_compute; reflexivity|].
  exists {| day := "Monday"; startTime := "09:00"; endTime := "10:00" |}.
  split; [right; left; reflexivity|].
  repeat split; vm_compute; reflexivity.
Qed.

Lemma dailyUnique_mock (loaded : Z) (sessions : list QRCodeSession.t) :
  @dailyUnique utc
    {| classes := mockClasses;
       attendanceRecords := mockAttendanceRecords loaded;
       qrSessions := sessions |}.
Proof.
  intros c m d. unfold entriesFor. cbn [attendanceRecords].
  unfold mockAttendanceRecords. cbn [filter AttendanceRecord.date
    AttendanceRecord.classId AttendanceRecord.studentId].
  destruct (String.eqb "class1" c) eqn:C1, (String.eqb "class2" c) eqn:C2,
    (String.eqb "2" m) eqn:M2, (String.eqb "3" m) eqn:M3;
    try (apply String.eqb_eq in C1; apply String.eqb_eq in C2; congruence);
    try (apply String.eqb_eq in M2; apply String.eqb_eq in M3; congruence);
    rewrite ?andb_false_r, ?andb_true_r;
    repeat match goal with
           | |- context [if ?b then _ else _] => destruct b
           end; simpl; lia.
Defined.

(** Student 2 has the mock entry of Monday for class1.  In 2024 they
    present the token of class1 at 09:00 and at 09:01 while no session
    is stored: the ledger stays at one entry for a class, a student and
    a day, and the call is refused by the validation.  Before 1970, in
    the browser in which the lookup finds a session, the token
    validates and they are told that attendance is already marked
    today. *)
Lemma daily_uniqueness_witness :
  @dailyUnique utc
    (snd (@run utc storeDefault
            [(hm 9 0 0, token1, "2"); (hm 9 1 0, token1, "2")])) /\
  @markAttendanceWithQR utc storeDefault (hm 9 1 0) token1 "2"
  = (markFailure sessionNotActive, storeDefault) /\
  @markAttendanceWithQR utc issued69 (hm69 9 1 0) token69 "2"
  = (markFailure alreadyMarkedToday, issued69).
Proof.
  destruct (@daily_uniqueness utc) as [U R].
  split; [|split].
  - apply U. exact (dailyUnique_mock (hm 8 0 0) []).
  - destruct (R storeDefault (hm 9 1 0) token1 "2" "class1")
      as (e & He & Hv & _).
    + reflexivity.
    + discriminate.
    + rewrite He. rewrite (Hv sessionNotActive); reflexivity.
  - destruct (R issued69 (hm69 9 1 0) token69 "2" "class1")
      as (e & He & _ & Hv).
    + reflexivity.
    + discriminate.
    + rewrite He.
      rewrite (Hv (toJSON payload69) class1 (sessionThroughJSON sessionInvalid));
        [reflexivity|].
      repeat split; vm_compute; reflexivity.
Defined.

(** C3, the claim as stated fails: student 2 has an entry of Monday for
    class1 and presents the token of class1 at 09:01, while no session
    is stored.  They are not told that attendance is already marked
    today: the validation, which asks for a session of the class,
    comes first. *)
Lemma already_marked_counterexample :
  @tokenClassId utc token1 = Some "class1" /\
  @entriesFor utc storeDefault "class1" "2" (@toDateString utc (hm 9 1 0))
  <> [] /\
  qrSessions storeDefault = [] /\
  @markAttendanceWithQR utc storeDefault (hm 9 1 0) token1 "2"
  = (markFailure sessionNotActive, storeDefault) /\
  sessionNotActive <> alreadyMarkedToday.
Proof.
  split; [vm_compute; reflexivity|]. split; [vm_compute; discriminate|].
  split; [reflexivity|].
  split; [vm_compute; reflexivity|]. discriminate.
Qed.

(** In 2024 student 2 presents the token of class1 at 09:00, 09:01 and
    09:10 on the Monday of their mock entry: every call is rejected.
    Before 1970, in the browser in which the lookup finds a session,
    student 4 is accepted at 09:00; of the calls at 09:01 and 09:10
    with the same token none is accepted, both are rejected by the
    ledger check. *)
Lemma one_accept_per_day_witness :
  @run utc issuedDefault
    [(hm 9 0 0, token1, "2"); (hm 9 1 0, token1, "2"); (hm 9 10 0, token1, "2")]
  = ([markFailure sessionNotActive; markFailure sessionNotActive;
      markFailure sessionNotActive], issuedDefault) /\
  @markAttendanceWithQR utc issued69 (hm69 9 0 0) token69 "4"
  = (accepted (hm69 9 0 0) present, redeemed69) /\
  @run utc redeemed69 [(hm69 9 1 0, token69, "4"); (hm69 9 10 0, token69, "4")]
  = ([markFailure alreadyMarkedToday; markFailure alreadyMarkedToday],
     redeemed69) /\
  (List.length
     (filter MarkResult.success
        (fst (@run utc issued69
                [(hm69 9 0 0, token69, "4"); (hm69 9 1 0, token69, "4");
                 (hm69 9 10 0, token69, "4")]))) <= 1)%nat.
Proof.
  split; [|split; [|split]].
  - destruct (@one_accept_per_day utc issuedDefault (hm 9 0 0) "2" "class1"
                [(hm 9 0 0, token1, "2"); (hm 9 1 0, token1, "2");
                 (hm 9 10 0, token1, "2")]) as (_ & R & _).
    + repeat constructor.
    + rewrite (R class1 eq_refl eq_refl); [reflexivity | discriminate].
  - vm_compute. reflexivity.
  - destruct (@one_accept_per_day utc redeemed69 (hm69 9 0 0) "4" "class1"
                [(hm69 9 1 0, token69, "4"); (hm69 9 10 0, token69, "4")])
      as (_ & _ & A).
    + repeat constructor.
    + destruct (A issued69 token69 (accepted (hm69 9 0 0) present))
        as [R _]; [vm_compute; reflexivity | reflexivity | reflexivity |].
      rewrite R. reflexivity.
  - destruct (@one_accept_per_day utc issued69 (hm69 9 0 0) "4" "class1"
                [(hm69 9 0 0, token69, "4"); (hm69 9 1 0, token69, "4");
                 (hm69 9 10 0, token69, "4")]) as (L & _).
    + repeat constructor.
    + exact L.
Defined.

(** C1, the claim as stated fails.  In 2024, in the store that the
    issuance of 08:55 leaves in a browser, student 2, who is enrolled,
    presents the token at 09:00 and again at 09:01: neither call is
    accepted, where the claim has exactly one.  Before 1970, in the
    browser in which the lookup finds a session, student 4 is accepted
    at 09:00, and their second call, one minute later, is rejected
    because attendance is already marked today, not as already redeemed
    for the session. *)
Lemma second_redemption_counterexample :
  @run utc issued1 [(hm 9 0 0, token1, "2"); (hm 9 1 0, token1, "2")]
  = ([markFailure sessionNotActive; markFailure sessionNotActive], issued1) /\
  @run utc issued69 [(hm69 9 0 0, token69, "4"); (hm69 9 1 0, token69, "4")]
  = ([accepted (hm69 9 0 0) present; markFailure alreadyMarkedToday],
     redeemed69) /\
  alreadyMarkedToday <> alreadyRedeemedThisSession.
Proof.
  split; [vm_compute; reflexivity|]. split; [vm_compute; reflexivity|].
  discriminate.
Qed.

(** The list of a session is not written back.  Before 1970, in the
    browser in which the lookup finds a session: the token that student
    4 redeemed on Monday at 23:55 is accepted again for them on Tuesday
    at 00:05, and the session that is read lists nobody. *)
Remark second_accept_after_midnight :
  MarkResult.success
    (fst (@markAttendanceWithQR utc issuedLate (hm69 23 55 0)
            (stringify payloadLate) "4")) = true /\
  MarkResult.success
    (fst (@markAttendanceWithQR utc redeemedLate (hm69 24 5 0)
            (stringify payloadLate) "4")) = true /\
  option_map QRCodeSession.attendanceMarked
    (@getActiveQRSession utc redeemedLate (hm69 24 5 0) "class1") = Some [].
Proof. repeat split; vm_compute; reflexivity. Qed.

(** * Further properties

    ** Calls that no session answers *)

Section Refusals.
Context {P : Platform}.

Lemma find_app_none {T : Type} (f : T -> bool) (l l' : list T) :
  find f l = None -> find f (l ++ l') = find f l'.
Proof.
  induction l as [|a l IH]; simpl; [reflexivity|].
  destruct (f a); [discriminate | exact IH].
Qed.

(** Where the lookup finds no session for any class, every call is
    refused by the validation and leaves the store. *)
Lemma mark_without_session (st : Store) (now : Z) (s m : string) :
  (forall c, getActiveQRSession st now c = None) ->
  exists e, In e validationErrors /\
            validateQRCode st now s = validationFailure e /\
            markAttendanceWithQR st now s m = (markFailure e, st).
Proof.
  intros N.
  destruct (validate_cases st now s)
    as [(e & He & Hv) | (v & c & cd & sess & (_ & _ & _ & _ & Hs) & _)].
  - exists e. split; [exact He|]. split; [exact Hv|].
    now apply mark_validation_failure.
  - rewrite N in Hs. discriminate.
Qed.

Lemma sessionThroughJSON_idem (x : QRCodeSession.t) :
  sessionThroughJSON (sessionThroughJSON x) = sessionThroughJSON x.
Proof.
  unfold sessionThroughJSON. simpl.
  now destruct (QRCodeSession.generatedAt x) as [[?|]|?|],
               (QRCodeSession.expiresAt x) as [[?|]|?|].
Qed.

Lemma dateAfter_earlier (d : DateValue) (t t' : Z) :
  t <= t' -> dateAfter d t' = true -> dateAfter d t = true.
Proof.
  intros H. destruct d as [[e|]|e|]; simpl; trivial;
    rewrite !Z.ltb_lt; lia.
Qed.

End Refusals.

(** ** The check-in core, from issuance to the ledger *)

Section Lifecycle.
Context {P : Platform}.

(** X1.  From 1970 on the lookup finds no session of a class, whatever
    is stored, since the expiry it reads back is a text that compares
    false with the clock.  So the token of an issuance, presented in the
    store that the issuance leaves at an instant from 1970 up to its
    expiry, is refused for want of an active session, and at such an
    instant no call at all is accepted or changes the store. *)
Theorem issued_token_is_refused (st : Store) (now : Z) (uuid c : string)
  (cd : ClassRecord.t) (d : Z) (url : string) (t : Z) (m : string)
  (Hcd : getClassById st c = Some cd)
  (Hr : toDataURL (stringify (issuedPayload now uuid c d)) = Some url)
  (Hq : validPayload (issuedPayload now uuid c d))
  (H0 : 0 <= t)
  (Ht : t <= now + d * 60000) :
  let st' := snd (generateClassQR st now uuid c (Some d)) in
  let token := stringify (issuedPayload now uuid c d) in
  (forall c', getActiveQRSession st' t c' = None) /\
  validateQRCode st' t token = validationFailure sessionNotActive /\
  markAttendanceWithQR st' t token m = (markFailure sessionNotActive, st') /\
  forall s m',
    MarkResult.success (fst (markAttendanceWithQR st' t s m')) = false /\
    snd (markAttendanceWithQR st' t s m') = st'.
Proof.
  intros st' token.
  assert (N : forall c', getActiveQRSession st' t c' = None)
    by (intros c'; now apply getActiveQRSession_from_1970).
  assert (Hcd' : getClassById st' c = Some cd).
  { unfold st'. rewrite (generateClassQR_success st now uuid c cd d url Hcd Hr).
    cbn [snd]. now destruct window. }
  assert (V : validateQRCode st' t token = validationFailure sessionNotActive).
  { pose proof Hq as (_ & _ & _ & e & He & _).
    cbn [issuedPayload QRCodeData.expiresAt] in He.
    destruct (timeClip_inv _ _ He) as [-> _].
    unfold validateQRCode, token.
    rewrite (decode_stringify (issuedPayload now uuid c d) Hq).
    destruct (field_toJSON (issuedPayload now uuid c d)) as (-> & _ & _ & ->).
    cbn [issuedPayload QRCodeData.expiresAt QRCodeData.classId]. rewrite He.
    rewrite greaterThan_num by exact Ht.
    unfold toStoreString. rewrite of_units_units, Hcd', N. reflexivity. }
  split; [exact N|]. split; [exact V|].
  split; [apply mark_validation_failure; [unfold sessionNotActive; simpl; tauto | exact V]|].
  intros s m'.
  destruct (mark_without_session st' t s m' N) as (e & _ & _ & ->).
  split; reflexivity.
Qed.

(** X2.  A complete token is refused as expired at every instant after
    its expiry, whatever the store holds, and the call leaves the
    store. *)
Theorem expired_token_rejected (st : Store) (t e : Z) (q : QRCodeData.t)
  (m : string)
  (Hq : validPayload q)
  (He : QRCodeData.expiresAt q = Some e)
  (Hx : e < t) :
  validateQRCode st t (stringify q) = validationFailure "QR code has expired"
  /\ markAttendanceWithQR st t (stringify q) m
     = (markFailure "QR code has expired", st).
Proof.
  assert (V : validateQRCode st t (stringify q)
              = validationFailure "QR code has expired").
  { unfold validateQRCode. rewrite (decode_stringify q Hq).
    destruct (field_toJSON q) as (_ & _ & _ & ->). rewrite He. simpl.
    destruct (Z.ltb_spec e t); [reflexivity | lia]. }
  split; [exact V|].
  apply mark_validation_failure; [simpl; auto | exact V].
Qed.

(** X3.  At the very instant of its expiry the token of an issuance is
    not yet refused as expired, but its session is no longer usable:
    when the class has no other usable session the answer is that the
    session is not active. *)
Theorem token_at_expiry_instant (st : Store) (now : Z) (uuid c : string)
  (cd : ClassRecord.t) (d : Z) (url : string)
  (Hcd : getClassById st c = Some cd)
  (Hr : toDataURL (stringify (issuedPayload now uuid c d)) = Some url)
  (Hq : validPayload (issuedPayload now uuid c d))
  (Hn : getActiveQRSession st (now + d * 60000) c = None) :
  validateQRCode (snd (generateClassQR st now uuid c (Some d)))
    (now + d * 60000) (stringify (issuedPayload now uuid c d))
  = validationFailure sessionNotActive.
Proof.
  rewrite (generateClassQR_success st now uuid c cd d url Hcd Hr). cbn [snd].
  pose proof Hq as (_ & _ & _ & e & He & _).
  cbn [issuedPayload QRCodeData.expiresAt] in He.
  destruct (timeClip_inv _ _ He) as [-> _].
  unfold validateQRCode. rewrite (decode_stringify _ Hq).
  destruct (field_toJSON (issuedPayload now uuid c d)) as (-> & _ & _ & ->).
  cbn [issuedPayload QRCodeData.expiresAt QRCodeData.classId]. rewrite He.
  rewrite greaterThan_num by lia.
  unfold toStoreString. rewrite of_units_units.
  assert (Hcd' : getClassById
                   (if window then appendSession st (issuedSession now c d)
                    else st) c = Some cd) by now destruct window.
  rewrite Hcd'.
  assert (N : getActiveQRSession
                (if window then appendSession st (issuedSession now c d)
                 else st) (now + d * 60000) c = None).
  { revert Hn. unfold getActiveQRSession, getQRSessions.
    destruct window; [|reflexivity].
    unfold appendSession. cbn [qrSessions]. intros Hn.
    rewrite map_app, map_map.
    rewrite (map_ext _ _ sessionThroughJSON_idem).
    rewrite (find_app_none _ _ _ Hn). cbn [map find].
    destruct (usable (now + d * 60000) c
                (sessionThroughJSON (issuedSession now c d))) eqn:U;
      [|reflexivity].
    apply usable_read in U. destruct U as (_ & _ & U & _).
    cbn [issuedSession QRCodeSession.expiresAt] in U. rewrite He in U.
    discriminate U. }
  rewrite N. reflexivity.
Qed.

(** X4.  Time only takes sessions away: in a store that is not written
    to, a class without usable session at an instant has none at any
    later instant. *)
Theorem no_session_later (st : Store) (t t' : Z) (c : string)
  (Ht : t <= t') (Hn : getActiveQRSession st t c = None) :
  getActiveQRSession st t' c = None.
Proof.
  unfold getActiveQRSession in *.
  induction (getQRSessions st) as [|x l IH]; [reflexivity|].
  simpl in *. destruct (usable t c x) eqn:U; [discriminate|].
  assert (U' : usable t' c x = false).
  { unfold usable in *.
    destruct (String.eqb (QRCodeSession.classId x) c); [|reflexivity].
    destruct (QRCodeSession.isActive x); [|reflexivity]. simpl in *.
    destruct (dateAfter (QRCodeSession.expiresAt x) t') eqn:D; [|reflexivity].
    now rewrite (dateAfter_earlier _ _ _ Ht D) in U. }
  rewrite U'. now apply IH.
Qed.

(** X5.  An issuance that fails stores nothing: the class is unknown or
    the renderer refused.  One that succeeds answers with the UUID and,
    in a browser, appends one active session of the class with an empty
    list; without a browser it stores nothing either.  The route runs
    on the server and so never changes the store, whatever it
    answers. *)
Theorem failed_issuance_stores_nothing (st : Store) (now : Z)
  (uuid c : string) (d : option Z) :
  (let (r, st') := generateClassQR st now uuid c d in
   if QRGenerationResult.success r
   then exists x,
          st' = (if window then appendSession st x else st) /\
          QRCodeSession.classId x = c /\ QRCodeSession.isActive x = true /\
          QRCodeSession.attendanceMarked x = [] /\
          QRGenerationResult.sessionId r = Some uuid
   else st' = st /\
        (QRGenerationResult.error r = Some "Class not found" \/
         QRGenerationResult.error r = Some "Failed to generate QR code")) /\
  (let (resp, st') := POST st now uuid c d in
   st' = st /\
   match resp with
   | Ok r => QRGenerationResult.success r = true
   | BadRequest _ => c = ""
   | NotFound _ => getClassById st c = None
   | ServerError _ => True
   end).
Proof.
  split.
  - unfold generateClassQR. destruct (getClassById st c); [|simpl; auto].
    destruct (toDataURL _); [|simpl; auto].
    unfold createQRSession, getQRSessions, appendSession.
    destruct window; simpl;
      (eexists {| QRCodeSession.id := Number_toString now;
                  QRCodeSession.classId := c;
                  QRCodeSession.generatedAt := DateObject (Some now);
                  QRCodeSession.expiresAt :=
                    DateObject
                      (timeClip
                         (now + match d with Some n => n | None => 30 end
                                * 60000));
                  QRCodeSession.isActive := true;
                  QRCodeSession.attendanceMarked := [] |});
      repeat split.
  - unfold POST. destruct c as [|c0 c1]; [simpl; auto|].
    destruct (getClassById st (String c0 c1)) eqn:Hc; [|simpl; auto].
    unfold generateClassQR. rewrite Hc.
    destruct (toDataURL _); simpl; auto.
Qed.

End Lifecycle.

(** ** The ledger views and the attendance route *)

Section Views.
Context {P : Platform} {A : AuthPlatform}.

Lemma filter_snoc {T : Type} (f : T -> bool) (l : list T) (x : T) :
  filter f (l ++ [x]) = (filter f l ++ if f x then [x] else [])%list.
Proof. now rewrite filter_app. Qed.

(** X7.  The record that [createAttendanceRecord] makes has the
    decimal numeral of the clock for its id and is the last one of the
    student's records, of the class's records and of the records of its
    day; the records of every other student, class and day are as
    before.  It is the record of an accepted check-in, made with the
    instant of the call for its date. *)
Theorem created_entry_in_views (st : Store) (now : Z) (c m : string)
  (date : Z) (status : AttendanceStatus) (checkedInAt : option Z)
  (qrCodeUsed : option json) :
  let e := fst (createAttendanceRecord st now c m date status checkedInAt
                  qrCodeUsed) in
  let st' := snd (createAttendanceRecord st now c m date status checkedInAt
                    qrCodeUsed) in
  AttendanceRecord.id e = Number_toString now /\
  AttendanceRecord.classId e = c /\
  AttendanceRecord.studentId e = m /\
  AttendanceRecord.status e = status /\
  getAttendanceRecords st' = (getAttendanceRecords st ++ [e])%list /\
  getAttendanceByStudent st' m = (getAttendanceByStudent st m ++ [e])%list /\
  getAttendanceByClass st' c = (getAttendanceByClass st c ++ [e])%list /\
  getAttendanceByDate st' date = (getAttendanceByDate st date ++ [e])%list /\
  (forall m', m' <> m ->
     getAttendanceByStudent st' m' = getAttendanceByStudent st m') /\
  (forall c', c' <> c ->
     getAttendanceByClass st' c' = getAttendanceByClass st c') /\
  (forall t, toDateString t <> toDateString date ->
     getAttendanceByDate st' t = getAttendanceByDate st t) /\
  appendEntry st (entry now c m status qrCodeUsed)
  = snd (createAttendanceRecord st now c m now status (Some now) qrCodeUsed).
Proof.
  intros e st'.
  unfold getAttendanceByStudent, getAttendanceByClass, getAttendanceByDate,
    getAttendanceRecords.
  unfold st', e, createAttendanceRecord, getAttendanceRecords.
  cbn [fst snd attendanceRecords AttendanceRecord.id AttendanceRecord.classId
       AttendanceRecord.studentId AttendanceRecord.status].
  rewrite !filter_snoc.
  cbn [AttendanceRecord.studentId AttendanceRecord.classId
       AttendanceRecord.date].
  rewrite !String.eqb_refl, Z.eqb_refl.
  repeat split; trivial.
  - intros m' Hm. rewrite filter_snoc. cbn.
    destruct (String.eqb_spec m m'); [congruence|]. apply List.app_nil_r.
  - intros c' Hc. rewrite filter_snoc. cbn.
    destruct (String.eqb_spec c c'); [congruence|]. apply List.app_nil_r.
  - intros t Ht. rewrite filter_snoc. cbn.
    destruct (Z.eqb_spec (toDateString date) (toDateString t)); [congruence|].
    apply List.app_nil_r.
Qed.



End Views.

(** ** Users and authentication *)

Section Users.
Context {P : Platform} {A : AuthPlatform}.

Lemma find_snoc {T : Type} (f : T -> bool) (l : list T) (x : T) :
  find f (l ++ [x]) =
  match find f l with
  | Some y => Some y
  | None => if f x then Some x else None
  end.
Proof.
  induction l as [|a l IH]; simpl; [reflexivity|].
  destruct (f a); [reflexivity | exact IH].
Qed.

(** X10.  After [createUser] every user that a lookup by id or by email
    found before is still the one found; the new user is found under
    its email, and under its id, exactly when no earlier user has
    them. *)
Theorem createUser_lookup (users : list User.t) (now : Z) (u : NewUser.t) :
  let (newUser, users') := createUser users now u in
  User.id newUser = Number_toString now /\
  User.email newUser = NewUser.email u /\
  (forall e, getUserByEmail users' e =
             match getUserByEmail users e with
             | Some x => Some x
             | None => if String.eqb (NewUser.email u) e
                       then Some newUser else None
             end) /\
  (forall i, getUserById users' i =
             match getUserById users i with
             | Some x => Some x
             | None => if String.eqb (Number_toString now) i
                       then Some newUser else None
             end).
Proof.
  unfold createUser, getUserByEmail, getUserById.
  split; [reflexivity|]. split; [reflexivity|].
  split; intros x; rewrite find_snoc; reflexivity.
Qed.

Lemma findIndex_spec (id : string) (users : list User.t) :
  match findIndex id users with
  | None => getUserById users id = None
  | Some i => exists u, nth_error users i = Some u /\
                        getUserById users id = Some u /\
                        User.id u = id
  end.
Proof.
  unfold getUserById. induction users as [|a l IH]; simpl; [reflexivity|].
  destruct (String.eqb_spec (User.id a) id).
  - exists a. auto.
  - destruct (findIndex id l); simpl; exact IH.
Qed.

Lemma assign_length (i : nat) (x : User.t) (users : list User.t) :
  List.length (assign i x users) = List.length users.
Proof.
  revert i. induction users as [|a l IH]; intros [|i]; simpl; auto.
Qed.

Lemma find_assign_first (id : string) (users : list User.t) (i : nat)
  (x : User.t) (f : User.t -> bool) :
  findIndex id users = Some i ->
  (forall y, String.eqb (User.id y) id = false -> f y = false) ->
  f x = true ->
  find f (assign i x users) = Some x.
Proof.
  revert i. induction users as [|a l IH]; intros i Hi Hf Hx; simpl in *;
    [discriminate|].
  destruct (String.eqb (User.id a) id) eqn:Ea.
  - injection Hi as <-. simpl. now rewrite Hx.
  - destruct (findIndex id l) as [j|]; [|discriminate].
    injection Hi as <-. simpl. rewrite (Hf a Ea). now apply IH.
Qed.

Lemma find_assign_other (id : string) (users : list User.t) (i : nat)
  (x : User.t) (f : User.t -> bool) :
  findIndex id users = Some i ->
  (forall y, String.eqb (User.id y) id = true -> f y = false) ->
  f x = false ->
  find f (assign i x users) = find f users.
Proof.
  revert i. induction users as [|a l IH]; intros i Hi Hf Hx; simpl in *;
    [discriminate|].
  destruct (String.eqb (User.id a) id) eqn:Ea.
  - injection Hi as <-. simpl. now rewrite Hx, (Hf a Ea).
  - destruct (findIndex id l) as [j|]; [|discriminate].
    injection Hi as <-. simpl. destruct (f a); [reflexivity|]. now apply IH.
Qed.

(** X11.  [updateUser] answers [null] and changes nothing when no user
    has the id.  Otherwise it replaces the first user of that id by the
    merge of that user and the updates, stamped with the instant of the
    call; the number of users stays, and when the updates leave the id
    alone the updated user is the one found under the id and lookups
    under every other id are as before. *)
Theorem updateUser_lookup (users : list User.t) (now : Z) (id : string)
  (updates : UserUpdates.t) :
  match updateUser users now id updates with
  | (None, users') => getUserById users id = None /\ users' = users
  | (Some updated, users') =>
    exists u, getUserById users id = Some u /\
      updated = merge u updates now /\
      User.updatedAt updated = now /\
      List.length users' = List.length users /\
      (UserUpdates.id updates = None ->
       getUserById users' id = Some updated /\
       forall other, other <> id ->
         getUserById users' other = getUserById users other)
  end.
Proof.
  unfold updateUser. pose proof (findIndex_spec id users) as F.
  destruct (findIndex id users) as [i|] eqn:Hi; [|auto].
  destruct F as (u & Hn & Hu & Hid). rewrite Hn.
  exists u. split; [exact Hu|]. split; [reflexivity|].
  split; [reflexivity|]. split; [apply assign_length|].
  intros Hk.
  assert (Eid : User.id (merge u updates now) = id)
    by (unfold merge; simpl; now rewrite Hk).
  split.
  - unfold getUserById. apply find_assign_first with id; trivial.
    rewrite Eid. apply String.eqb_refl.
  - intros other Ho. unfold getUserById.
    apply find_assign_other with id; trivial.
    + intros y Hy. apply String.eqb_eq in Hy. rewrite Hy.
      now apply String.eqb_neq.
    + rewrite Eid. now apply String.eqb_neq.
Qed.

Lemma getUserByEmail_None (users : list User.t) (e : string) :
  getUserByEmail users e = None <-> ~ In e (map User.email users).
Proof.
  unfold getUserByEmail. induction users as [|a l IH]; simpl; [tauto|].
  destruct (String.eqb_spec (User.email a) e).
  - split; [discriminate | tauto].
  - rewrite IH. tauto.
Qed.

(** X12.  [register] refuses an email that a user already has and then
    leaves the users as they are; otherwise it appends one user, whose
    stored password is the hash and not the password given.  So users
    that have pairwise different emails keep them through every
    registration. *)
Theorem register_keeps_emails_unique (users : list User.t) (now : Z)
  (salt : string) (u : NewUser.t) :
  let (r, users') := register users now salt u in
  (if AuthResponse.success r
   then getUserByEmail users (NewUser.email u) = None /\
        exists x, users' = (users ++ [x])%list /\
          User.email x = NewUser.email u /\
          User.password x = bcrypt_hash salt (NewUser.password u) /\
          AuthResponse.user r = Some (publicUser x)
   else getUserByEmail users (NewUser.email u) <> None /\ users' = users /\
        AuthResponse.error r = Some "User already exists with this email") /\
  (NoDup (map User.email users) -> NoDup (map User.email users')).
Proof.
  unfold register.
  destruct (getUserByEmail users (NewUser.email u)) as [x|] eqn:E; simpl.
  - repeat split; trivial. discriminate.
  - split.
    + split; [reflexivity|]. eexists. repeat split.
    + intros N. rewrite map_app. simpl.
      apply getUserByEmail_None in E.
      apply NoDup_app; [exact N | repeat constructor; intros [] |].
      intros a Ha [<- | []]. contradiction.
Qed.


(** X14.  A user who registered with a fresh email and then logs in
    with that email is answered by what bcrypt says of the password
    against the hash of the registration: accepted, the login answers
    the user that the registration answered; rejected, it answers
    "Invalid password" and leaves the storage. *)
Theorem register_then_login (users : list User.t) (now t : Z) (salt : string)
  (u : NewUser.t) (ls : AuthStorage.t) (p : string)
  (Hnew : getUserByEmail users (NewUser.email u) = None) :
  let users' := snd (register users now salt u) in
  AuthResponse.success (fst (register users now salt u)) = true /\
  if bcrypt_compare p (bcrypt_hash salt (NewUser.password u))
  then AuthResponse.success (fst (login users' ls t (NewUser.email u) p))
       = true /\
       AuthResponse.user (fst (login users' ls t (NewUser.email u) p))
       = AuthResponse.user (fst (register users now salt u))
  else AuthResponse.error (fst (login users' ls t (NewUser.email u) p))
       = Some "Invalid password" /\
       snd (login users' ls t (NewUser.email u) p) = ls.
Proof.
  unfold register. rewrite Hnew. simpl. split; [reflexivity|].
  unfold login, getUserByEmail in *.
  rewrite find_snoc, Hnew. simpl. rewrite String.eqb_refl. simpl.
  destruct (bcrypt_compare p (bcrypt_hash salt (NewUser.password u)));
    simpl; auto.
Qed.

(** X15.  After [logout] nobody is logged in, whatever token was
    stored: no current user, no role, no Authorization header, the
    display name Guest, and [requireAuth] throws. *)
Theorem logout_ends_session (ls : AuthStorage.t) (now : Z) :
  getCurrentUser (logout ls) now = None /\
  isAuthenticated (logout ls) now = false /\
  (forall role, hasRole (logout ls) now role = false) /\
  getUserRole (logout ls) now = None /\
  getAuthHeaders (logout ls) = None /\
  getDisplayName (logout ls) now = "Guest" /\
  requireAuth (logout ls) now = inl "Authentication required" /\
  requireAdmin (logout ls) now = inl "Authentication required".
Proof. repeat split. Qed.

(** X16.  [requireAdmin] returns a user exactly when [hasRole] answers
    true for the administrator role, and that user is the current one;
    it throws "Authentication required" exactly when nobody is
    authenticated and "Admin access required" for a student. *)
Theorem requireAdmin_hasRole (ls : AuthStorage.t) (now : Z) :
  match requireAdmin ls now with
  | inr user => getCurrentUser ls now = Some user /\
                TokenPayload.role user = admin /\
                hasRole ls now admin = true /\ hasRole ls now student = false
  | inl e => hasRole ls now admin = false /\
             (if isAuthenticated ls now
              then e = "Admin access required" /\ hasRole ls now student = true
              else e = "Authentication required")
  end.
Proof.
  unfold requireAdmin, requireAuth, hasRole, isAuthenticated.
  destruct (getCurrentUser ls now) as [user|]; [|auto].
  destruct (TokenPayload.role user) eqn:R; simpl; auto.
Qed.

Lemma substring_all (s : string) : substring 0 (String.length s) s = s.
Proof. induction s; simpl; congruence. Qed.

Lemma sliceFrom_Bearer (token : string) :
  sliceFrom ("Bearer " ++ token) 7 = token.
Proof. unfold sliceFrom. simpl. rewrite Nat.sub_0_r. apply substring_all. Qed.

Lemma prefix_Bearer (token : string) :
  String.prefix "Bearer " ("Bearer " ++ token) = true.
Proof. simpl. destruct token; reflexivity. Qed.

(** X17.  The header that [getAuthHeaders] gives after a successful
    login authenticates at the attendance route: when the token of the
    login is not empty and verifies, the current user is the user of
    the token and the route never answers 401.  For a body with QR data
    it answers 400 with the reason for which the validation refuses the
    data on the server, where no session is found; it leaves the store
    and sends no confirmation. *)
Theorem login_header_authenticates (users : list User.t) (ls : AuthStorage.t)
  (now t : Z) (email password body : string) (st : Store)
  (token : string) (user : TokenPayload.t)
  (Hl : AuthResponse.token (fst (login users ls now email password))
        = Some token)
  (Hne : token <> "")
  (Hv : verifyToken token t = Some user) :
  let ls' := snd (login users ls now email password) in
  getAuthHeaders ls' = Some ("Bearer " ++ token) /\
  getCurrentUser ls' t = Some user /\
  (forall e, fst (fst (POST_mark st t (getAuthHeaders ls') body))
             <> MarkError 401 e) /\
  (body <> "" ->
   exists e,
     In e validationErrors /\
     @validateQRCode (server P) st t body = validationFailure e /\
     POST_mark st t (getAuthHeaders ls') body = (MarkError 400 e, st, None)).
Proof.
  intros ls'.
  assert (Hs : AuthStorage.auth_token ls' = Some token).
  { unfold ls'. revert Hl. unfold login.
    destruct (getUserByEmail users email) as [u|]; [|discriminate].
    destruct (bcrypt_compare password (User.password u)); [|discriminate].
    simpl. auto. }
  assert (Hst : storedToken ls' = Some token).
  { unfold storedToken. rewrite Hs. destruct token; congruence. }
  assert (Hh : getAuthHeaders ls' = Some ("Bearer " ++ token))
    by (unfold getAuthHeaders; now rewrite Hst).
  split; [exact Hh|].
  split; [unfold getCurrentUser; now rewrite Hst|].
  rewrite Hh. unfold POST_mark.
  rewrite prefix_Bearer. cbn [negb]. rewrite sliceFrom_Bearer, Hv.
  destruct body as [|b0 b1]; [split; [discriminate | congruence]|].
  destruct (@mark_without_session (server P) st t (String b0 b1)
              (TokenPayload.id user)) as (e & He & Hva & ->).
  { intros c. now apply getActiveQRSession_server. }
  simpl. split; [discriminate|].
  intros _. exists e. auto.
Qed.

End Users.

(** ** The helpers of the pages *)

Section Helpers.
Context {P : Platform} {A : AuthPlatform}.


Lemma padStart2_seconds (s : Z) :
  0 <= s < 60 -> padStart2 (Number_toString s) = pad 2 s.
Proof.
  intros H.
  assert (E : forallb (fun k => String.eqb
                         (padStart2 (Number_toString (Z.of_nat k)))
                         (pad 2 (Z.of_nat k))) (seq 0 60) = true)
    by (vm_compute; reflexivity).
  rewrite forallb_forall in E.
  specialize (E (Z.to_nat s)). rewrite Z2Nat.id in E by lia.
  apply String.eqb_eq, E, in_seq. lia.
Qed.

Lemma formatTimeRemaining_running (expiresAt now : Z) :
  now < expiresAt ->
  exists m s, 0 <= m /\ 0 <= s < 60 /\
    60 * m + s = (expiresAt - now) / 1000 /\
    formatTimeRemaining expiresAt now
    = Number_toString m ++ ":" ++ pad 2 s.
Proof.
  intros H. unfold formatTimeRemaining.
  rewrite (proj2 (Z.leb_gt _ _)) by lia.
  set (tl := expiresAt - now) in *.
  assert (Ht : 0 < tl) by (unfold tl; lia).
  rewrite Z.rem_mod_nonneg by lia.
  exists (tl / 60000), (tl mod 60000 / 1000).
  pose proof (Z.mod_pos_bound tl 60000 ltac:(lia)) as Hm.
  assert (Hs : 0 <= tl mod 60000 / 1000 < 60).
  { split; [apply Z.div_pos; lia | apply Z.div_lt_upper_bound; lia]. }
  split; [apply Z.div_pos; lia|]. split; [exact Hs|]. split.
  - rewrite (Z.div_mod tl 60000) at 3 by lia.
    replace (60000 * (tl / 60000) + tl mod 60000)
      with (60 * (tl / 60000) * 1000 + tl mod 60000) by lia.
    rewrite Z.div_add_l by lia. reflexivity.
  - now rewrite padStart2_seconds.
Qed.


(** X19.  While [isAboutToExpire] warns, the code is not expired: the
    validator's test of the expiry does not fire, and the countdown
    shows a time of five minutes at most. *)
Theorem warning_before_expiry (expiresAt now : Z)
  (H : isAboutToExpire expiresAt now = true) :
  greaterThan now (Some (JNum expiresAt)) = false /\
  exists m s, 0 <= s < 60 /\ 0 <= 60 * m + s <= 300 /\
    formatTimeRemaining expiresAt now = Number_toString m ++ ":" ++ pad 2 s.
Proof.
  unfold isAboutToExpire in H. apply andb_true_iff in H as [H1 H2].
  apply Z.ltb_lt in H1. apply Z.leb_le in H2.
  split.
  - apply greaterThan_num. lia.
  - destruct (formatTimeRemaining_running expiresAt now ltac:(lia))
      as (m & s & Hm & Hs & E & F).
    exists m, s. split; [exact Hs|]. split; [|exact F].
    rewrite E. split; [apply Z.div_pos; lia|].
    apply Z.div_le_upper_bound; lia.
Qed.

(** *** Phone numbers *)

Lemma digitsOnly_digits (p : string) : allChars isDigit (digitsOnly p) = true.
Proof.
  induction p as [|c r IH]; simpl; [reflexivity|].
  destruct (isDigit c) eqn:D; simpl; [now rewrite D|exact IH].
Qed.

Lemma isDigit_phone (c : ascii) : isDigit c = true -> isPhoneChar c = true.
Proof. unfold isPhoneChar. now intros ->. Qed.

Ltac digits ds Hl Hd :=
  repeat (let a := fresh "a" in let D := fresh "D" in
          destruct ds as [|a ds]; [discriminate Hl|];
          cbn [allChars] in Hd; apply andb_true_iff in Hd as [D Hd]);
  destruct ds; [clear Hl Hd | discriminate Hl].

Ltac nondigits :=
  change (isDigit "("%char) with false; change (isDigit ")"%char) with false;
  change (isDigit " "%char) with false; change (isDigit "-"%char) with false;
  change (isDigit "+"%char) with false; change (isDigit "1"%char) with true.

Lemma formatPhoneNumber_cases (p : string) :
  (formatPhoneNumber p = p \/
   isValidPhoneNumber (formatPhoneNumber p) = true) /\
  digitsOnly (formatPhoneNumber p) = digitsOnly p /\
  (forall q, digitsOnly q = digitsOnly p -> formatPhoneNumber q <> q ->
             formatPhoneNumber q = formatPhoneNumber p).
Proof.
  unfold formatPhoneNumber.
  pose proof (digitsOnly_digits p) as Hd.
  destruct (String.length (digitsOnly p) =? 10)%nat eqn:L10.
  - apply Nat.eqb_eq in L10.
    assert (K : forall q, digitsOnly q = digitsOnly p ->
                (String.length (digitsOnly q) =? 10)%nat = true)
      by (intros q ->; now apply Nat.eqb_eq).
    split; [right | split; [| intros q Hq _; rewrite (K q Hq), Hq; reflexivity]];
      remember (digitsOnly p) as ds eqn:E; clear E;
      digits ds L10 Hd; cbn -[isDigit isPhoneChar].
    + unfold isValidPhoneNumber. cbn -[isPhoneChar].
      repeat match goal with
             | H : isDigit ?c = true |- _ =>
               rewrite ?(isDigit_phone c H); clear H
             end.
      reflexivity.
    + nondigits.
      repeat match goal with H : isDigit _ = true |- _ => rewrite ?H; clear H end.
      reflexivity.
  - destruct ((String.length (digitsOnly p) =? 11)%nat
              && match String.get 0 (digitsOnly p) with
                 | Some c => Ascii.eqb c "1"
                 | None => false
                 end) eqn:L11.
    + assert (K : forall q, digitsOnly q = digitsOnly p ->
                  (String.length (digitsOnly q) =? 10)%nat = false
                  /\ (String.length (digitsOnly q) =? 11)%nat
                     && match String.get 0 (digitsOnly q) with
                        | Some c => Ascii.eqb c "1"
                        | None => false
                        end = true)
        by (intros q ->; now split).
      apply andb_true_iff in L11 as [L11 L1]. apply Nat.eqb_eq in L11.
      split; [right | split; [| intros q Hq _; destruct (K q Hq) as [-> ->];
                                rewrite Hq; reflexivity]];
        remember (digitsOnly p) as ds eqn:E; clear E K L10;
        digits ds L11 Hd; cbn -[isDigit isPhoneChar] in *;
        apply Ascii.eqb_eq in L1; subst.
      * unfold isValidPhoneNumber. cbn -[isPhoneChar].
        repeat match goal with
             | H : isDigit ?c = true |- _ =>
               rewrite ?(isDigit_phone c H); clear H
             end.
      reflexivity.
      * nondigits.
        repeat match goal with H : isDigit _ = true |- _ => rewrite ?H; clear H end.
        reflexivity.
    + split; [left; reflexivity | split; [reflexivity|]].
      intros q Hq Hne. rewrite Hq, L10, L11 in Hne. congruence.
Qed.

(** X20.  Formatting a phone number keeps its digits, in their order,
    and formatting the result again changes nothing. *)
Theorem formatPhoneNumber_keeps_digits (phone : string) :
  digitsOnly (formatPhoneNumber phone) = digitsOnly phone /\
  formatPhoneNumber (formatPhoneNumber phone) = formatPhoneNumber phone.
Proof.
  destruct (formatPhoneNumber_cases phone) as (_ & Hd & Hq).
  split; [exact Hd|].
  destruct (string_dec (formatPhoneNumber (formatPhoneNumber phone))
                       (formatPhoneNumber phone)) as [E|N]; [exact E|].
  exact (Hq _ Hd N).
Qed.

(** X21.  Whenever the formatter changes a phone number, with ten
    digits or with eleven that start with 1, what it gives passes
    [isValidPhoneNumber]. *)
Theorem formatted_number_is_valid (phone : string)
  (H : formatPhoneNumber phone <> phone) :
  isValidPhoneNumber (formatPhoneNumber phone) = true.
Proof.
  destruct (formatPhoneNumber_cases phone) as ([E | V] & _); tauto.
Qed.

End Helpers.

(** ** Files, student codes, new classes and the generation route *)

Section Further.
Context {P : Platform} {A : AuthPlatform}.

Lemma allChars_app (f : ascii -> bool) (a b : string) :
  allChars f (a ++ b) = allChars f a && allChars f b.
Proof.
  induction a as [|c r IH]; simpl; [reflexivity|].
  now rewrite IH, andb_assoc.
Qed.

Lemma sanitize_safe (s : string) :
  allChars isFileChar (sanitize s) = true /\
  String.length (sanitize s) = String.length s.
Proof.
  induction s as [|c r [IH1 IH2]]; simpl; [auto|].
  rewrite IH1, IH2. split; [|reflexivity].
  destruct (isAlphaNumeric c) eqn:E; [|reflexivity].
  unfold isFileChar. now rewrite E.
Qed.

Lemma digitChar_safe (n : Z) : isFileChar (digitChar n) = true.
Proof.
  unfold digitChar.
  pose proof (Z.mod_pos_bound n 10 ltac:(lia)) as H.
  assert (E : forallb (fun k => isFileChar (ascii_of_N (48 + N.of_nat k)))
                      (seq 0 10) = true) by (vm_compute; reflexivity).
  rewrite forallb_forall in E.
  specialize (E (Z.to_nat (n mod 10))).
  rewrite <- Z_N_nat, N2Nat.id in E. apply E, in_seq. lia.
Qed.

Lemma pad_safe (k : nat) (n : Z) : allChars isFileChar (pad k n) = true.
Proof.
  revert n. induction k as [|k IH]; intros n; simpl; [reflexivity|].
  rewrite allChars_app, IH. simpl. now rewrite digitChar_safe.
Qed.

Lemma isoDate_safe (t : Z) : allChars isFileChar (isoDate t) = true.
Proof.
  unfold isoDate. destruct (civil (t / msPerDay)) as [[y m] d].
  rewrite !allChars_app, !pad_safe.
  destruct ((0 <=? y) && (y <=? 9999)).
  - now rewrite pad_safe.
  - rewrite allChars_app, pad_safe. now destruct (y <? 0).
Qed.

Lemma sanitize_get (s : string) (i : nat) (c : ascii) :
  String.get i s = Some c ->
  String.get i (sanitize s) = Some (if isAlphaNumeric c then c else "_"%char).
Proof.
  revert i. induction s as [|a r IH]; intros i; simpl; [discriminate|].
  destruct i as [|i]; [now intros [= ->] | apply IH].
Qed.

(** X22.  The file name of a download is QR_, the class name, an
    underscore, the UTC date and .png, where the class name keeps every
    letter of a to z and A to Z and every digit at its place and has
    one underscore for every other character.  So the name holds
    letters, digits and the characters [_], [-], [+] and [.] only: no
    separator of a path and no space.  For an Invalid Date there is no
    name: the call throws. *)
Theorem generateFileName_safe (className : string) (date : Z) :
  (exists name,
     generateFileName className (Some date)
     = Some ("QR_" ++ name ++ "_" ++ isoDate date ++ ".png") /\
     String.length name = String.length className /\
     (forall i c, String.get i className = Some c ->
        String.get i name = Some (if isAlphaNumeric c then c else "_"%char)) /\
     allChars isFileChar ("QR_" ++ name ++ "_" ++ isoDate date ++ ".png")
     = true) /\
  generateFileName className None = None.
Proof.
  split; [|reflexivity].
  exists (sanitize className). split; [reflexivity|].
  split; [apply sanitize_safe|]. split; [apply sanitize_get|].
  destruct (sanitize_safe className) as [H _].
  rewrite !allChars_app, H, isoDate_safe. reflexivity.
Qed.

Lemma stringifyStudent_flat (studentId name email : string) (timestamp : Z) :
  stringifyStudent studentId name email timestamp =
  String "{"
   (quoted "type" (String ":"
   (quoted "student" (String ","
   (quoted "studentId" (String ":"
   (quoted studentId (String ","
   (quoted "name" (String ":"
   (quoted name (String ","
   (quoted "email" (String ":"
   (quoted email (String ","
   (quoted "timestamp" (String ":"
   (stringify_number timestamp ++ "}"))))))))))))))))))).
Proof.
  unfold stringifyStudent, member.
  cbn [append].
  repeat (rewrite ?append_assoc_string, ?stringify_string_app; cbn [append]).
  reflexivity.
Qed.

Lemma parse_stringifyStudent (studentId name email : string) (timestamp : Z) :
  JSON.parse (stringifyStudent studentId name email timestamp) =
  Some (JObj [ (units "type", JStr (units "student"));
               (units "studentId", JStr (units studentId));
               (units "name", JStr (units name));
               (units "email", JStr (units email));
               (units "timestamp", JNum timestamp) ]).
Proof.
  unfold JSON.parse.
  assert (L : exists n, String.length
                (stringifyStudent studentId name email timestamp)
              = S (S (S n))).
  { rewrite stringifyStudent_flat. unfold quoted. simpl. eauto. }
  destruct L as (n & ->).
  replace (2 * S (S (S n)) + 2)%nat
    with (S (S (S (S (S (S (S (S (2 * n))))))))) by lia.
  rewrite stringifyStudent_flat.
  match goal with
  | |- context [parse_value (S ?g) (String "{" ?s)] =>
      change (parse_value (S g) (String "{" s)) with (parse_members g s [])
  end.
  erewrite parse_members_quoted_comma by apply parse_value_quoted.
  erewrite parse_members_quoted_comma by apply parse_value_quoted.
  erewrite parse_members_quoted_comma by apply parse_value_quoted.
  erewrite parse_members_quoted_comma by apply parse_value_quoted.
  erewrite parse_members_quoted_close
    by (apply parse_value_number; simpl; auto).
  reflexivity.
Qed.

(** X23.  The text of a student's identification code is no class
    token: the validator refuses it as of an invalid format, whoever
    the student and whatever the store, and a check-in with it changes
    nothing. *)
Theorem student_code_is_no_token (st : Store) (now t : Z)
  (studentId name email m : string) :
  validateQRCode st t (stringifyStudent studentId name email now)
  = validationFailure "Invalid QR code format" /\
  markAttendanceWithQR st t (stringifyStudent studentId name email now) m
  = (markFailure "Invalid QR code format", st).
Proof.
  assert (V : validateQRCode st t (stringifyStudent studentId name email now)
              = validationFailure "Invalid QR code format").
  { unfold validateQRCode, decode. rewrite parse_stringifyStudent.
    reflexivity. }
  split; [exact V|].
  unfold markAttendanceWithQR. rewrite V. reflexivity.
Qed.

Lemma getClassById_createClass (st : Store) (now : Z) (name : string)
  (schedule : list ScheduleEntry) (enrolledStudents : list string)
  (c : string) :
  c <> Number_toString now ->
  getClassById (snd (createClass st now name schedule enrolledStudents)) c
  = getClassById st c.
Proof.
  intros H. unfold getClassById, createClass, getClasses. cbn [snd classes].
  rewrite find_snoc. destruct (find _ (classes st)); [reflexivity|].
  cbn [ClassRecord.id].
  destruct (String.eqb_spec (Number_toString now) c); [congruence|reflexivity].
Qed.

(** X24.  Creating a class does not disturb the tokens of the other
    classes: for a token that does not name the new class, in the store
    with the new class the validation gives the same answer, a
    check-in with it is answered the same, and checking in and creating
    the class give the same store in either order. *)
Theorem createClass_keeps_tokens (st : Store) (now t : Z) (name : string)
  (schedule : list ScheduleEntry) (enrolledStudents : list string)
  (s m : string)
  (H : tokenClassId s <> Some (Number_toString now)) :
  let st' := snd (createClass st now name schedule enrolledStudents) in
  validateQRCode st' t s = validateQRCode st t s /\
  fst (markAttendanceWithQR st' t s m) = fst (markAttendanceWithQR st t s m) /\
  snd (markAttendanceWithQR st' t s m)
  = snd (createClass (snd (markAttendanceWithQR st t s m))
                     now name schedule enrolledStudents).
Proof.
  intros st'.
  assert (V : validateQRCode st' t s = validateQRCode st t s).
  { unfold validateQRCode. unfold tokenClassId in H.
    destruct (decode s) as [v|e]; [|reflexivity].
    destruct (greaterThan t (field v "expiresAt")); [reflexivity|].
    destruct (toStoreString (field v "classId")) as [c|]; [|reflexivity].
    unfold st'. rewrite getClassById_createClass by congruence.
    reflexivity. }
  split; [exact V|].
  destruct (validate_cases st t s)
    as [(e & He & E) | (v & c & cd & sess & Vd & E)].
  - rewrite E in V.
    rewrite (mark_validation_failure st' t s m e He V).
    rewrite (mark_validation_failure st t s m e He E).
    split; reflexivity.
  - assert (V' : validated st' t s v c cd sess).
    { destruct Vd as (Hd & Hx & Hc & Hcd & Hs). repeat split; trivial.
      unfold st'. rewrite getClassById_createClass; [exact Hcd|].
      intros ->. apply H. unfold tokenClassId. now rewrite Hd. }
    rewrite (mark_validated st' t s m v c cd sess V').
    rewrite (mark_validated st t s m v c cd sess Vd).
    change (todayEntry st' t c m) with (todayEntry st t c m).
    destruct (includes m (ClassRecord.enrolledStudents cd)); cbn [negb];
      [|split; reflexivity].
    destruct (todayEntry st t c m); [split; reflexivity|].
    destruct (includes m (QRCodeSession.attendanceMarked sess));
      split; reflexivity.
Qed.

(** X25.  The generation route issues for administrators only: unless
    the header is a Bearer token that verifies with the administrator
    role, the answer is 401 or 403 and the store stays as it is; with
    such a token the route answers and stores what it does from the
    parsed body on. *)
Theorem generate_requires_admin (st : Store) (now : Z) (uuid : string)
  (authHeader : option string) (body_classId : string)
  (body_durationMinutes : option Z) :
  match POST_generate st now uuid authHeader body_classId
                      body_durationMinutes with
  | (Answer r, st') =>
    exists header user,
      authHeader = Some header /\
      String.prefix "Bearer " header = true /\
      verifyToken (sliceFrom header 7) now = Some user /\
      TokenPayload.role user = admin /\
      (r, st') = POST st now uuid body_classId body_durationMinutes
  | (Unauthorized e, st') =>
    st' = st /\
    match authHeader with
    | Some header =>
      String.prefix "Bearer " header = false \/
      verifyToken (sliceFrom header 7) now = None
    | None => True
    end
  | (Forbidden e, st') =>
    st' = st /\
    exists header user,
      authHeader = Some header /\
      verifyToken (sliceFrom header 7) now = Some user /\
      TokenPayload.role user = student
  end.
Proof.
  unfold POST_generate.
  destruct authHeader as [header|]; [|auto].
  destruct (String.prefix "Bearer " header) eqn:Hp; cbn [negb]; [|auto].
  destruct (verifyToken (sliceFrom header 7) now) as [user|] eqn:Hv; [|auto].
  destruct (TokenPayload.role user) eqn:R; cbn [Role_eqb negb].
  - destruct (POST st now uuid body_classId body_durationMinutes) as [r st'].
    exists header, user. auto.
  - split; [reflexivity|]. exists header, user. auto.
Qed.

End Further.

(** ** Instances of the further properties *)

Lemma issued_token_is_refused_witness :
  @validateQRCode utc issued1 (hm 9 0 0) token1
  = validationFailure sessionNotActive /\
  @markAttendanceWithQR utc issued1 (hm 9 0 0) token1 "2"
  = (markFailure sessionNotActive, issued1).
Proof.
  assert (H0 : 0 <= hm 9 0 0) by (vm_compute; discriminate).
  assert (Ht : hm 9 0 0 <= hm 8 55 0 + 30 * 60000)
    by (vm_compute; discriminate).
  destruct (@issued_token_is_refused utc store0 (hm 8 55 0) uuid1 "class1"
              class1 30 _ (hm 9 0 0) "2" eq_refl eq_refl validPayload1 H0 Ht)
    as (_ & V & M & _).
  split; [exact V | exact M].
Defined.

Lemma expired_token_rejected_witness :
  @markAttendanceWithQR utc issued1 (hm 9 30 0) token1 "2"
  = (markFailure "QR code has expired", issued1).
Proof.
  assert (Hx : hm 9 25 0 < hm 9 30 0) by reflexivity.
  exact (proj2 (@expired_token_rejected utc issued1 (hm 9 30 0) (hm 9 25 0)
                  payload1 "2" validPayload1 eq_refl Hx)).
Defined.

Lemma token_at_expiry_instant_witness :
  @validateQRCode utc issued1 (hm 9 25 0) token1
  = validationFailure sessionNotActive.
Proof.
  exact (@token_at_expiry_instant utc store0 (hm 8 55 0) uuid1 "class1" class1
           30 _ eq_refl eq_refl validPayload1 eq_refl).
Defined.

Lemma no_session_later_witness :
  @getActiveQRSession utc issued1 (hm 10 0 0) "class1" = None.
Proof.
  assert (Ht : hm 9 25 0 <= hm 10 0 0) by (vm_compute; discriminate).
  exact (@no_session_later utc issued1 (hm 9 25 0) (hm 10 0 0) "class1" Ht
           eq_refl).
Defined.

Lemma register_then_login_witness :
  AuthResponse.success
    (fst (@login plainAuth
            (snd (@register plainAuth mockUsers (hm 8 0 0) "salt" dana))
            loggedOut (hm 8 5 0) "dana@school.edu" "secret")) = true /\
  AuthResponse.error
    (fst (@login plainAuth
            (snd (@register plainAuth mockUsers (hm 8 0 0) "salt" dana))
            loggedOut (hm 8 5 0) "dana@school.edu" "guess"))
  = Some "Invalid password".
Proof.
  split.
  - exact (proj1 (proj2 (@register_then_login plainAuth mockUsers (hm 8 0 0)
                           (hm 8 5 0) "salt" dana loggedOut "secret"
                           eq_refl))).
  - exact (proj1 (proj2 (@register_then_login plainAuth mockUsers (hm 8 0 0)
                           (hm 8 5 0) "salt" dana loggedOut "guess"
                           eq_refl))).
Defined.

Lemma login_header_authenticates_witness :
  getAuthHeaders aliceLoggedIn = Some "Bearer student.2" /\
  @POST_mark utc plainAuth issued1 (hm 9 0 0) (getAuthHeaders aliceLoggedIn)
    token1
  = (MarkError 400 sessionNotActive, issued1, None).
Proof.
  assert (Hne : "student.2" <> "") by discriminate.
  assert (Hb : token1 <> "") by discriminate.
  destruct (@login_header_authenticates utc plainAuth mockUsers loggedOut
              (hm 8 50 0) (hm 9 0 0) "student1@school.edu" "password" token1
              issued1 "student.2"
              {| TokenPayload.id := "2"; TokenPayload.email := "";
                 TokenPayload.role := student; TokenPayload.firstName := "";
                 TokenPayload.lastName := "" |}
              eq_refl Hne eq_refl) as (Hh & _ & _ & Hs).
  split; [exact Hh|].
  destruct (Hs Hb) as (e & _ & He & Hp).
  vm_compute in He. injection He as <-. exact Hp.
Defined.

Lemma warning_before_expiry_witness :
  isAboutToExpire (hm 9 25 0) (hm 9 21 30) = true /\
  @greaterThan utc (hm 9 21 30) (Some (JNum (hm 9 25 0))) = false /\
  formatTimeRemaining (hm 9 25 0) (hm 9 21 30) = "3:30".
Proof.
  split; [reflexivity|].
  destruct (@warning_before_expiry utc (hm 9 25 0) (hm 9 21 30) eq_refl)
    as (G & m & s & _ & _ & F).
  split; [exact G | reflexivity].
Defined.

Lemma formatted_number_is_valid_witness :
  formatPhoneNumber "+1234567892" = "(123) 456-7892" /\
  isValidPhoneNumber (formatPhoneNumber "+1234567892") = true.
Proof.
  split; [reflexivity|].
  apply formatted_number_is_valid. discriminate.
Defined.

Lemma createClass_keeps_tokens_witness :
  @markAttendanceWithQR utc
    (snd (createClass issued1 (hm 8 58 0) "Chemistry" [] ["2"]))
    (hm 9 0 0) token1 "2"
  = (markFailure sessionNotActive,
     snd (createClass issued1 (hm 8 58 0) "Chemistry" [] ["2"])).
Proof.
  assert (H : @tokenClassId utc token1 <> Some (Number_toString (hm 8 58 0)))
    by (vm_compute; discriminate).
  destruct (@createClass_keeps_tokens utc issued1 (hm 8 58 0) (hm 9 0 0)
              "Chemistry" [] ["2"] token1 "2" H) as (_ & Hf & Hs).
  rewrite (surjective_pairing (@markAttendanceWithQR utc _ _ _ _)).
  rewrite Hf, Hs. reflexivity.
Defined.
